(** * Product Documenter: a shallow embedding of the governance core

    The Python sources under [scripts/] are embedded as Rocq functions,
    a module per script or library:
    - [PyStr]: the [str] and [os.path] primitives the scripts call;
    - [Sqlite]: the [LIKE] operator and the allocation of rowids;
    - [Difflib], [Hashlib]: [difflib.unified_diff] and [hashlib.md5];
    - [Ledger]: the tables of [documenter.db] and [activity_tracker.py];
    - [Learning], [Insights]: [learning_system.py];
    - [Generator]: [document_generator.py];
    - [CostGuard]: [cost_guard.py];
    - [Review], [Workflow], [Approval]: [review_workflow.py] (the header
      step, staging and licensing, submitting a review);
    - [Api], [Route]: the endpoints [/generate] and [/submit-review] of
      [api_server.py], and [/generate] when a review file cannot be
      written;
    - [LedgerOps], [LearningOps], [CostOps]: sequences of operations;
    - [Fixtures], [Shelf]: sample data of the examples.
    The modules named [...Facts] hold the properties proved of them.

    Conventions.  A Python [str] is a [string]; one [ascii] stands for one
    character (texts are restricted to code points below 256).  A Python
    [float] is an exact rational [Q].  Wall-clock values ([datetime.now()])
    are parameters of the operations that read them.  A table is the list
    of its rows in rowid order; an exception is the left summand of the
    result. *)

From Stdlib Require Import List String Ascii ZArith QArith Lia Bool Lqa Sorted.
From Stdlib Require DecimalString.
Import ListNotations.

Close Scope Q_scope.
Open Scope string_scope.

(** ** Python string primitives *)

Module PyStr.

Definition nl : string := String (ascii_of_nat 10) "".

(** [s.startswith(p)] *)
Definition startswith (s p : string) : bool := prefix p s.

(** [s[n:]] *)
Fixpoint drop (n : nat) (s : string) : string :=
  match n, s with
  | O, _ => s
  | S _, "" => ""
  | S n', String _ s' => drop n' s'
  end.

(** [s[:n]] *)
Fixpoint take (n : nat) (s : string) : string :=
  match n, s with
  | O, _ => ""
  | S _, "" => ""
  | S n', String c s' => String c (take n' s')
  end.

(** [needle in hay] *)
Fixpoint contains (needle hay : string) : bool :=
  prefix needle hay ||
  match hay with
  | "" => false
  | String _ hay' => contains needle hay'
  end.

(** [s.split('\n')]: never empty, [''.split('\n') == ['']]. *)
Fixpoint split_lines (s : string) : list string :=
  match s with
  | "" => [""]
  | String c s' =>
      if Ascii.eqb c (ascii_of_nat 10) then "" :: split_lines s'
      else match split_lines s' with
           | [] => [String c ""]
           | l :: ls => String c l :: ls
           end
  end.

(** ['\n'.join(ls)] *)
Definition join_lines (ls : list string) : string := String.concat nl ls.

(** [len('\n'.join(ls))] *)
Definition joined_length (ls : list string) : nat :=
  String.length (join_lines ls).

(** [c.isspace()] for code points below 256. *)
Definition isspace (c : ascii) : bool :=
  let n := nat_of_ascii c in
  (Nat.leb 9 n && Nat.leb n 13) || (Nat.leb 28 n && Nat.leb n 32)
  || Nat.eqb n 133 || Nat.eqb n 160.

Fixpoint lstrip (s : string) : string :=
  match s with
  | "" => ""
  | String c s' => if isspace c then lstrip s' else s
  end.

Fixpoint rstrip (s : string) : string :=
  match s with
  | "" => ""
  | String c s' =>
      match rstrip s' with
      | "" => if isspace c then "" else String c ""
      | r => String c r
      end
  end.

(** [s.strip()] *)
Definition strip (s : string) : string := rstrip (lstrip s).

(** [s.replace(old, new)] for a non-empty [old]: occurrences are replaced
    left to right and do not overlap.  [skip] counts the characters of a
    match that are still to be passed over. *)
Fixpoint replace_from (skip : nat) (old new s : string) : string :=
  match s with
  | "" => ""
  | String c s' =>
      match skip with
      | S k => replace_from k old new s'
      | O =>
          if prefix old s
          then new ++ replace_from (String.length old - 1) old new s'
          else String c (replace_from 0 old new s')
      end
  end.

(** With an empty [old], Python puts [new] before every character and at
    the end. *)
Fixpoint intersperse (new s : string) : string :=
  match s with
  | "" => new
  | String c s' => new ++ String c (intersperse new s')
  end.

Definition replace (old new s : string) : string :=
  match old with
  | "" => intersperse new s
  | _ => replace_from 0 old new s
  end.

Definition is_upper (c : ascii) : bool :=
  let n := nat_of_ascii c in Nat.leb 65 n && Nat.leb n 90.
Definition is_lower (c : ascii) : bool :=
  let n := nat_of_ascii c in Nat.leb 97 n && Nat.leb n 122.
Definition to_upper (c : ascii) : ascii :=
  if is_lower c then ascii_of_nat (nat_of_ascii c - 32) else c.
Definition to_lower (c : ascii) : ascii :=
  if is_upper c then ascii_of_nat (nat_of_ascii c + 32) else c.

(** [s.title()] on ASCII letters: a letter that follows a letter is
    lowered, any other letter is raised. *)
Fixpoint title_from (previous_is_cased : bool) (s : string) : string :=
  match s with
  | "" => ""
  | String c s' =>
      if is_upper c || is_lower c
      then String (if previous_is_cased then to_lower c else to_upper c)
                  (title_from true s')
      else String c (title_from false s')
  end.

Definition title (s : string) : string := title_from false s.

Fixpoint has_slash (s : string) : bool :=
  match s with
  | "" => false
  | String c s' => Ascii.eqb c "/" || has_slash s'
  end.

(** [os.path.basename(p)]: what follows the last ['/']. *)
Fixpoint basename (p : string) : string :=
  match p with
  | "" => ""
  | String c p' =>
      if has_slash p' then basename p'
      else if Ascii.eqb c "/" then p' else p
  end.

End PyStr.

(** ** review_workflow.py *)

Module Review.
Import PyStr.

(** The loop of [prepare_for_licensing] (lines 118-126): [in_header] is the
    loop's flag, the result is [clean_lines]. *)
Fixpoint clean_lines (in_header : bool) (lines : list string) : list string :=
  match lines with
  | [] => []
  | line :: rest =>
      if (line =? "---") && in_header then clean_lines false rest
      else if in_header then clean_lines in_header rest
      else line :: clean_lines in_header rest
  end.

(** "Remove metadata headers if present" (lines 115-127). *)
Definition remove_metadata_header (content : string) : string :=
  if startswith content "---"
  then strip (join_lines (clean_lines true (split_lines content)))
  else content.

End Review.

(** ** SQLite's LIKE operator *)

Module Sqlite.
Import PyStr.

(** [s LIKE pattern] with SQLite's defaults: ['%'] matches any run of
    characters, ['_'] any one character, every other character matches
    itself or its other ASCII case.  No ESCAPE clause is used in the
    scripts. *)
Fixpoint like (pattern s : string) : bool :=
  match pattern with
  | "" => match s with "" => true | _ => false end
  | String p pattern' =>
      if Ascii.eqb p "%" then
        (fix any_suffix (t : string) : bool :=
           like pattern' t ||
           match t with
           | "" => false
           | String _ t' => any_suffix t'
           end) s
      else
        match s with
        | "" => false
        | String c s' =>
            (Ascii.eqb p "_" || Ascii.eqb (to_lower p) (to_lower c))
            && like pattern' s'
        end
  end.

(** A NULL column never satisfies [col LIKE ?]. *)
Definition like_column (pattern : string) (col : option string) : bool :=
  match col with
  | Some s => like pattern s
  | None => false
  end.

(** The rowid an [INTEGER PRIMARY KEY AUTOINCREMENT] column gives the next
    inserted row.  No script deletes rows, so the largest rowid that ever
    existed is the largest one present. *)
Definition next_rowid (ids : list Z) : Z :=
  Z.succ (fold_right Z.max 0%Z ids).

End Sqlite.

(** ** The ledger: tables of [documenter.db] and activity_tracker.py *)

Module Ledger.

(** Values of a JSON document, as far as the scripts build them. *)
Inductive jval :=
| JStr (s : string)
| JInt (n : Z)
| JReal (q : Q)
| JBool (b : bool)
| JNull.

Record activity := {
  act_id : Z;
  act_timestamp : string;
  activity_type : string;
  act_source : string;
  details : list (string * jval);
  ai_tokens_used : Z;
  ai_cost : Q;
  human_time_seconds : Z;
  status : string
}.

Record document := {
  doc_id : Z;
  doc_activity_id : option Z;
  doc_type : string;
  draft_content : option string;
  final_content : option string;
  filename : option string;
  review_filepath : option string;
  generated_at : string;
  reviewed_at : option string;
  review_time_seconds : option Z;
  quality_score : option Q
}.

Record cost_record := {
  cost_id : Z;
  cost_timestamp : string;
  provider : string;
  model : string;
  tokens_used : Z;
  cost : Q;
  prompt_hash : option string;
  cost_activity_id : Z
}.

Record db := {
  activities : list activity;
  documents : list document;
  ai_costs : list cost_record
}.

Definition empty_db : db :=
  {| activities := []; documents := []; ai_costs := [] |}.

Definition set_activities (f : list activity -> list activity) (d : db) : db :=
  {| activities := f (activities d);
     documents := documents d;
     ai_costs := ai_costs d |}.

Definition set_documents (f : list document -> list document) (d : db) : db :=
  {| activities := activities d;
     documents := f (documents d);
     ai_costs := ai_costs d |}.

Definition set_ai_costs (f : list cost_record -> list cost_record) (d : db) : db :=
  {| activities := activities d;
     documents := documents d;
     ai_costs := f (ai_costs d) |}.

(** [UPDATE activities SET ... WHERE id = ?] *)
Definition update_activity (id : Z) (f : activity -> activity) (d : db) : db :=
  set_activities (map (fun a => if Z.eqb (act_id a) id then f a else a)) d.

(** [UPDATE documents SET ... WHERE id = ?] *)
Definition update_document_row (id : Z) (f : document -> document) (d : db) : db :=
  set_documents (map (fun x => if Z.eqb (doc_id x) id then f x else x)) d.

Definition find_activity (id : Z) (d : db) : option activity :=
  find (fun a => Z.eqb (act_id a) id) (activities d).

Definition find_document (id : Z) (d : db) : option document :=
  find (fun x => Z.eqb (doc_id x) id) (documents d).

Definition str_of_Z (n : Z) : string :=
  DecimalString.NilZero.string_of_int (Z.to_int n).

(** [ActivityTracker.log_activity]: the other columns take their defaults. *)
Definition log_activity (now : string) (activity_type source : string)
    (details : list (string * jval)) (d : db) : Z * db :=
  let id := Sqlite.next_rowid (map act_id (activities d)) in
  (id,
   set_activities (fun rows => app rows [
     {| act_id := id; act_timestamp := now;
        activity_type := activity_type; act_source := source;
        details := details;
        ai_tokens_used := 0; ai_cost := 0%Q;
        human_time_seconds := 0; status := "pending" |}]) d).

Definition with_cost (tokens : Z) (c : Q) (a : activity) : activity :=
  {| act_id := act_id a; act_timestamp := act_timestamp a;
     activity_type := activity_type a; act_source := act_source a;
     details := details a;
     ai_tokens_used := tokens; ai_cost := c;
     human_time_seconds := human_time_seconds a;
     status := "generated" |}.

(** [ActivityTracker.update_activity_cost]; [provider] is not used. *)
Definition update_activity_cost (activity_id ai_tokens : Z) (ai_cost : Q)
    (provider : string) (d : db) : db :=
  update_activity activity_id (with_cost ai_tokens ai_cost) d.

Definition with_completion (seconds : Z) (a : activity) : activity :=
  {| act_id := act_id a; act_timestamp := act_timestamp a;
     activity_type := activity_type a; act_source := act_source a;
     details := details a;
     ai_tokens_used := ai_tokens_used a; ai_cost := ai_cost a;
     human_time_seconds := seconds;
     status := "completed" |}.

(** [ActivityTracker.complete_activity] *)
Definition complete_activity (activity_id human_time_seconds : Z) (d : db) : db :=
  update_activity activity_id (with_completion human_time_seconds) d.

(** [ActivityTracker.save_document]: [stamp] is
    [datetime.now().strftime("%Y%m%d_%H%M%S")], [now] is SQLite's
    [datetime('now')].  A missing or empty [filename] is generated. *)
Definition save_document (stamp now : string) (activity_id : Z)
    (doc_type draft_content : string) (filename : option string) (d : db)
    : Z * db :=
  let filename :=
    match filename with
    | Some (String c s) => String c s
    | _ => doc_type ++ "_" ++ str_of_Z activity_id ++ "_" ++ stamp ++ ".md"
    end in
  let id := Sqlite.next_rowid (map doc_id (documents d)) in
  (id,
   set_documents (fun rows => app rows [
     {| doc_id := id; doc_activity_id := Some activity_id;
        doc_type := doc_type; draft_content := Some draft_content;
        final_content := None; filename := Some filename;
        review_filepath := None; generated_at := now;
        reviewed_at := None; review_time_seconds := None;
        quality_score := None |}]) d).

Definition with_review_path (path : string) (x : document) : document :=
  {| doc_id := doc_id x; doc_activity_id := doc_activity_id x;
     doc_type := doc_type x; draft_content := draft_content x;
     final_content := final_content x; filename := filename x;
     review_filepath := Some path; generated_at := generated_at x;
     reviewed_at := reviewed_at x;
     review_time_seconds := review_time_seconds x;
     quality_score := quality_score x |}.

(** [ActivityTracker.update_document_review_path] *)
Definition update_document_review_path (doc_id : Z) (review_filepath : string)
    (d : db) : bool * db :=
  (true, update_document_row doc_id (with_review_path review_filepath) d).

Definition with_review (now final : string) (seconds : Z) (quality : Q)
    (x : document) : document :=
  {| doc_id := doc_id x; doc_activity_id := doc_activity_id x;
     doc_type := doc_type x; draft_content := draft_content x;
     final_content := Some final; filename := filename x;
     review_filepath := review_filepath x; generated_at := generated_at x;
     reviewed_at := Some now;
     review_time_seconds := Some seconds;
     quality_score := Some quality |}.

(** [ActivityTracker.update_document] *)
Definition update_document (now : string) (doc_id : Z) (final_content : string)
    (review_time_seconds : Z) (quality_score : Q) (d : db) : db :=
  update_document_row doc_id
    (with_review now final_content review_time_seconds quality_score) d.

Definition sum_Q (l : list Q) : Q := fold_right Qplus 0%Q l.
Definition sum_Z (l : list Z) : Z := fold_right Z.add 0%Z l.

Record stats := {
  total_activities : Z;
  total_ai_cost : Q;
  total_human_time : Z;
  avg_review_time : Q
}.

(** [ActivityTracker.get_stats]: over no rows [SUM] and [AVG] are NULL,
    which [or 0] turns into zero.  [AVG] and the sum of the costs are
    doubles in SQLite and exact here: only what rounding leaves true is
    stated of them. *)
Definition get_stats (d : db) : stats :=
  let rows := activities d in
  let n := Z.of_nat (List.length rows) in
  let human := sum_Z (map human_time_seconds rows) in
  {| total_activities := n;
     total_ai_cost := sum_Q (map ai_cost rows);
     total_human_time := human;
     avg_review_time :=
       match rows with
       | [] => 0%Q
       | _ => (inject_Z human / inject_Z n)%Q
       end |}.

(** The authoritative spend of an activity: the sum over its cost records. *)
Definition records_of (activity_id : Z) (d : db) : list cost_record :=
  filter (fun r => Z.eqb (cost_activity_id r) activity_id) (ai_costs d).

End Ledger.

(** ** difflib: [SequenceMatcher(None, a, b)] and [unified_diff]

    The standard-library differ that [extract_patterns] calls, with the
    arguments it passes: no junk predicate, [autojunk] on, [n = 3] lines of
    context, empty file names and an empty line terminator. *)

Module Difflib.

Inductive tag := Replace | Delete | Insert | Equal.

(** An opcode [(tag, i1, i2, j1, j2)]. *)
Record opcode := {
  op_tag : tag; op_i1 : nat; op_i2 : nat; op_j1 : nat; op_j2 : nat
}.

Definition mk (t : tag) (i1 i2 j1 j2 : nat) : opcode :=
  {| op_tag := t; op_i1 := i1; op_i2 := i2; op_j1 := j1; op_j2 := j2 |}.

Definition is_equal (o : opcode) : bool :=
  match op_tag o with Equal => true | _ => false end.

(** [seq[lo:hi]] *)
Definition slice {A : Type} (lo hi : nat) (l : list A) : list A :=
  firstn (hi - lo) (skipn lo l).

Section Matcher.
Variables a b : list string.

(** The positions of [x] in [b], ascending. *)
Fixpoint positions_from (j : nat) (x : string) (l : list string) : list nat :=
  match l with
  | [] => []
  | y :: l' =>
      if String.eqb x y then j :: positions_from (S j) x l'
      else positions_from (S j) x l'
  end.

(** [__chain_b]: with 200 elements or more, an element that occurs more
    than [n // 100 + 1] times is popular and loses its entry in [b2j]. *)
Definition b2j (x : string) : list nat :=
  let idxs := positions_from 0 x b in
  let n := List.length b in
  if Nat.leb 200 n && Nat.ltb (n / 100 + 1) (List.length idxs)
  then [] else idxs.

Fixpoint j2len_get (j2len : list (nat * nat)) (j : nat) : nat :=
  match j2len with
  | [] => 0
  | (j', k) :: rest => if Nat.eqb j' j then k else j2len_get rest j
  end.

(** [j2len.get(j - 1, 0)]: the key [-1] is never present. *)
Definition j2len_before (j2len : list (nat * nat)) (j : nat) : nat :=
  match j with
  | O => 0
  | S j' => j2len_get j2len j'
  end.

(** The inner loop of [find_longest_match] over [b2j[a[i]]]; the state is
    [(newj2len, (besti, bestj, bestsize))]. *)
Fixpoint scan_row (blo bhi i : nat) (j2len : list (nat * nat))
    (js : list nat) (st : list (nat * nat) * (nat * nat * nat))
    : list (nat * nat) * (nat * nat * nat) :=
  match js with
  | [] => st
  | j :: js' =>
      if Nat.ltb j blo then scan_row blo bhi i j2len js' st
      else if Nat.leb bhi j then st
      else
        let '(newj2len, (besti, bestj, bestsize)) := st in
        let k := S (j2len_before j2len j) in
        let best :=
          if Nat.ltb bestsize k then (S i - k, S j - k, k)
          else (besti, bestj, bestsize) in
        scan_row blo bhi i j2len js' ((j, k) :: newj2len, best)
  end.

(** The outer loop, [for i in range(alo, ahi)], over [a[alo:]]. *)
Fixpoint scan_rows (blo bhi i : nat) (rows : list string)
    (j2len : list (nat * nat)) (best : nat * nat * nat) : nat * nat * nat :=
  match rows with
  | [] => best
  | x :: rows' =>
      let '(newj2len, best') :=
        scan_row blo bhi i j2len (b2j x) ([], best) in
      scan_rows blo bhi (S i) rows' newj2len best'
  end.

Definition same_at (i j : nat) : bool :=
  match nth_error a i, nth_error b j with
  | Some x, Some y => String.eqb x y
  | _, _ => false
  end.

(** The first [while]: grow the match to the left.  No element is junk,
    so the two loops over junk elements never run. *)
Fixpoint extend_left (fuel alo blo : nat) (best : nat * nat * nat)
    : nat * nat * nat :=
  match fuel with
  | O => best
  | S fuel' =>
      let '(besti, bestj, bestsize) := best in
      if Nat.ltb alo besti && Nat.ltb blo bestj
         && same_at (besti - 1) (bestj - 1)
      then extend_left fuel' alo blo (besti - 1, bestj - 1, S bestsize)
      else best
  end.

(** The second [while]: grow the match to the right. *)
Fixpoint extend_right (fuel ahi bhi : nat) (best : nat * nat * nat)
    : nat * nat * nat :=
  match fuel with
  | O => best
  | S fuel' =>
      let '(besti, bestj, bestsize) := best in
      if Nat.ltb (besti + bestsize) ahi && Nat.ltb (bestj + bestsize) bhi
         && same_at (besti + bestsize) (bestj + bestsize)
      then extend_right fuel' ahi bhi (besti, bestj, S bestsize)
      else best
  end.

Definition find_longest_match (alo ahi blo bhi : nat) : nat * nat * nat :=
  let best := scan_rows blo bhi alo (slice alo ahi a) [] (alo, blo, 0) in
  let best := extend_left (List.length a) alo blo best in
  extend_right (List.length a) ahi bhi best.

(** The work queue of [get_matching_blocks] followed by its [sort()]:
    the blocks left of a match come before it and those right of it
    after, so visiting them in that order yields the sorted list.  Each
    visit shortens the range of [a]; [fuel] bounds the depth. *)
Fixpoint blocks_in (fuel alo ahi blo bhi : nat) : list (nat * nat * nat) :=
  match fuel with
  | O => []
  | S fuel' =>
      let '(i, j, k) := find_longest_match alo ahi blo bhi in
      match k with
      | O => []
      | S _ =>
          app (if Nat.ltb alo i && Nat.ltb blo j
               then blocks_in fuel' alo i blo j else [])
              ((i, j, k) ::
               (if Nat.ltb (i + k) ahi && Nat.ltb (j + k) bhi
                then blocks_in fuel' (i + k) ahi (j + k) bhi else []))
      end
  end.

(** Collapsing adjacent blocks; [(i1, j1, k1)] is the pending block. *)
Fixpoint collapse (pending : nat * nat * nat) (blocks : list (nat * nat * nat))
    : list (nat * nat * nat) :=
  let '(i1, j1, k1) := pending in
  match blocks with
  | [] => match k1 with O => [] | S _ => [pending] end
  | (i2, j2, k2) :: rest =>
      if Nat.eqb (i1 + k1) i2 && Nat.eqb (j1 + k1) j2
      then collapse (i1, j1, k1 + k2) rest
      else match k1 with
           | O => collapse (i2, j2, k2) rest
           | S _ => pending :: collapse (i2, j2, k2) rest
           end
  end.

Definition get_matching_blocks : list (nat * nat * nat) :=
  let la := List.length a in
  let lb := List.length b in
  app (collapse (0, 0, 0) (blocks_in (S la) 0 la 0 lb)) [(la, lb, 0)].

Fixpoint opcodes_from (i j : nat) (blocks : list (nat * nat * nat))
    : list opcode :=
  match blocks with
  | [] => []
  | (ai, bj, size) :: rest =>
      let change :=
        if Nat.ltb i ai && Nat.ltb j bj then [mk Replace i ai j bj]
        else if Nat.ltb i ai then [mk Delete i ai j bj]
        else if Nat.ltb j bj then [mk Insert i ai j bj]
        else [] in
      let same :=
        match size with
        | O => []
        | S _ => [mk Equal ai (ai + size) bj (bj + size)]
        end in
      app change (app same (opcodes_from (ai + size) (bj + size) rest))
  end.

Definition get_opcodes : list opcode := opcodes_from 0 0 get_matching_blocks.

(** [codes[0]] and [codes[-1]] of [get_grouped_opcodes]: a leading or
    trailing run of equal lines is cut down to [n] lines. *)
Definition trim_first (n : nat) (codes : list opcode) : list opcode :=
  match codes with
  | o :: rest =>
      if is_equal o
      then mk Equal (Nat.max (op_i1 o) (op_i2 o - n)) (op_i2 o)
                    (Nat.max (op_j1 o) (op_j2 o - n)) (op_j2 o) :: rest
      else codes
  | [] => []
  end.

Fixpoint trim_last (n : nat) (codes : list opcode) : list opcode :=
  match codes with
  | [] => []
  | [o] =>
      if is_equal o
      then [mk Equal (op_i1 o) (Nat.min (op_i2 o) (op_i1 o + n))
                     (op_j1 o) (Nat.min (op_j2 o) (op_j1 o + n))]
      else [o]
  | o :: rest => o :: trim_last n rest
  end.

(** The grouping loop; [group] is the group being filled. *)
Fixpoint group_codes (n : nat) (group : list opcode) (codes : list opcode)
    : list (list opcode) :=
  match codes with
  | [] =>
      match group with
      | [] => []
      | [o] => if is_equal o then [] else [group]
      | _ => [group]
      end
  | o :: rest =>
      if is_equal o && Nat.ltb (n + n) (op_i2 o - op_i1 o)
      then
        app group [mk Equal (op_i1 o) (Nat.min (op_i2 o) (op_i1 o + n))
                            (op_j1 o) (Nat.min (op_j2 o) (op_j1 o + n))]
        :: group_codes n
             [mk Equal (Nat.max (op_i1 o) (op_i2 o - n)) (op_i2 o)
                       (Nat.max (op_j1 o) (op_j2 o - n)) (op_j2 o)]
             rest
      else group_codes n (app group [o]) rest
  end.

Definition get_grouped_opcodes (n : nat) : list (list opcode) :=
  let codes :=
    match get_opcodes with
    | [] => [mk Equal 0 1 0 1]
    | codes => codes
    end in
  group_codes n [] (trim_last n (trim_first n codes)).

(** A line of the unified diff, before it is printed. *)
Inductive diff_line :=
| FromHeader
| ToHeader
| Hunk (range1 range2 : string)
| Context (line : string)
| Removed (line : string)
| Added (line : string).

Definition format_range_unified (start stop : nat) : string :=
  let beginning := S start in
  let length := stop - start in
  let str n := DecimalString.NilZero.string_of_uint (Nat.to_uint n) in
  match length with
  | 1 => str beginning
  | O => str (beginning - 1) ++ "," ++ str length
  | _ => str beginning ++ "," ++ str length
  end.

Definition opcode_lines (o : opcode) : list diff_line :=
  match op_tag o with
  | Equal => map Context (slice (op_i1 o) (op_i2 o) a)
  | Replace =>
      app (map Removed (slice (op_i1 o) (op_i2 o) a))
          (map Added (slice (op_j1 o) (op_j2 o) b))
  | Delete => map Removed (slice (op_i1 o) (op_i2 o) a)
  | Insert => map Added (slice (op_j1 o) (op_j2 o) b)
  end.

Definition hunk_lines (group : list opcode) : list diff_line :=
  match group with
  | [] => []
  | first :: _ =>
      let last := List.last group first in
      Hunk (format_range_unified (op_i1 first) (op_i2 last))
           (format_range_unified (op_j1 first) (op_j2 last))
      :: flat_map opcode_lines group
  end.

Definition diff_lines : list diff_line :=
  match get_grouped_opcodes 3 with
  | [] => []
  | groups => FromHeader :: ToHeader :: flat_map hunk_lines groups
  end.

End Matcher.

Arguments FromHeader : clear implicits.

(** Two measures of a sequence compared with itself: [live_at a i] says
    that [a[i]] kept its entry in [b2j], and [run_before a i] counts the
    elements that did, in a row, just before position [i]. *)
Definition live_at (a : list string) (i : nat) : bool :=
  match nth_error a i with
  | Some x => match b2j a x with [] => false | _ :: _ => true end
  | None => false
  end.

Fixpoint run_before (a : list string) (i : nat) : nat :=
  match i with
  | O => 0
  | S i' => if live_at a i' then S (run_before a i') else 0
  end.

(** The text of a diff line, with [lineterm = ''] and empty file names. *)
Definition render (l : diff_line) : string :=
  match l with
  | FromHeader => "--- "
  | ToHeader => "+++ "
  | Hunk r1 r2 => "@@ -" ++ r1 ++ " +" ++ r2 ++ " @@"
  | Context line => " " ++ line
  | Removed line => "-" ++ line
  | Added line => "+" ++ line
  end.

(** [list(difflib.unified_diff(a, b, lineterm='', n=3))] *)
Definition unified_diff (a b : list string) : list string :=
  map render (diff_lines a b).

End Difflib.

(** ** hashlib: [md5(text.encode()).hexdigest()] *)

Module Hashlib.

Local Open Scope Z_scope.

(** [text.encode()]: UTF-8 of code points below 256. *)
Definition encode (text : string) : list Z :=
  flat_map (fun c =>
    let n := Z.of_nat (nat_of_ascii c) in
    if n <? 128 then [n]
    else [Z.lor 192 (Z.shiftr n 6); Z.lor 128 (Z.land n 63)])
    (list_ascii_of_string text).

Definition mask32 : Z := 4294967295.
Definition add32 (x y : Z) : Z := Z.land (x + y) mask32.
Definition not32 (x : Z) : Z := Z.lxor x mask32.
Definition rotl32 (x : Z) (s : Z) : Z :=
  Z.land (Z.lor (Z.shiftl x s) (Z.shiftr x (32 - s))) mask32.

(** [floor(2^32 * abs(sin(i + 1)))] for [i] in 0..63. *)
Definition sines : list Z := [
    3614090360; 3905402710; 606105819; 3250441966;
    4118548399; 1200080426; 2821735955; 4249261313;
    1770035416; 2336552879; 4294925233; 2304563134;
    1804603682; 4254626195; 2792965006; 1236535329;
    4129170786; 3225465664; 643717713; 3921069994;
    3593408605; 38016083; 3634488961; 3889429448;
    568446438; 3275163606; 4107603335; 1163531501;
    2850285829; 4243563512; 1735328473; 2368359562;
    4294588738; 2272392833; 1839030562; 4259657740;
    2763975236; 1272893353; 4139469664; 3200236656;
    681279174; 3936430074; 3572445317; 76029189;
    3654602809; 3873151461; 530742520; 3299628645;
    4096336452; 1126891415; 2878612391; 4237533241;
    1700485571; 2399980690; 4293915773; 2240044497;
    1873313359; 4264355552; 2734768916; 1309151649;
    4149444226; 3174756917; 718787259; 3951481745 ].

Definition shifts : list Z := [
    7; 12; 17; 22; 7; 12; 17; 22; 7; 12; 17; 22; 7; 12; 17; 22;
    5; 9; 14; 20; 5; 9; 14; 20; 5; 9; 14; 20; 5; 9; 14; 20;
    4; 11; 16; 23; 4; 11; 16; 23; 4; 11; 16; 23; 4; 11; 16; 23;
    6; 10; 15; 21; 6; 10; 15; 21; 6; 10; 15; 21; 6; 10; 15; 21 ].

(** [n] as [width] little-endian bytes. *)
Fixpoint le_bytes (width : nat) (n : Z) : list Z :=
  match width with
  | O => []
  | S w => Z.land n 255 :: le_bytes w (Z.shiftr n 8)
  end.

Fixpoint le_word (bytes : list Z) : Z :=
  match bytes with
  | [] => 0
  | x :: rest => x + 256 * le_word rest
  end.

(** The message followed by the bit [1], zeros up to 56 modulo 64, and
    the bit length on eight bytes. *)
Definition pad (msg : list Z) : list Z :=
  let len := Z.of_nat (List.length msg) in
  let zeros := Z.to_nat ((55 - len) mod 64) in
  app msg (128 :: app (repeat 0 zeros) (le_bytes 8 (8 * len))).

Fixpoint words (count : nat) (bytes : list Z) : list Z :=
  match count with
  | O => []
  | S n => le_word (firstn 4 bytes) :: words n (skipn 4 bytes)
  end.

Definition round (m : list Z) (i : Z) (st : Z * Z * Z * Z) : Z * Z * Z * Z :=
  let '(a, b, c, d) := st in
  let '(f, g) :=
    if i <? 16 then (Z.lor (Z.land b c) (Z.land (not32 b) d), i)
    else if i <? 32 then
      (Z.lor (Z.land d b) (Z.land (not32 d) c), (5 * i + 1) mod 16)
    else if i <? 48 then (Z.lxor b (Z.lxor c d), (3 * i + 5) mod 16)
    else (Z.lxor c (Z.lor b (not32 d)), (7 * i) mod 16) in
  let f := add32 (add32 (add32 f a) (nth (Z.to_nat i) sines 0))
                 (nth (Z.to_nat g) m 0) in
  (d, add32 b (rotl32 f (nth (Z.to_nat i) shifts 0)), b, c).

Definition block (st : Z * Z * Z * Z) (m : list Z) : Z * Z * Z * Z :=
  let '(a, b, c, d) := st in
  let '(a', b', c', d') :=
    fold_left (fun s i => round m (Z.of_nat i) s) (seq 0 64) st in
  (add32 a a', add32 b b', add32 c c', add32 d d').

Fixpoint blocks (count : nat) (bytes : list Z) (st : Z * Z * Z * Z)
    : Z * Z * Z * Z :=
  match count with
  | O => st
  | S n => blocks n (skipn 64 bytes) (block st (words 16 (firstn 64 bytes)))
  end.

Definition digest (msg : list Z) : list Z :=
  let bytes := pad msg in
  let '(a, b, c, d) :=
    blocks (List.length bytes / 64) bytes
           (1732584193, 4023233417, 2562383102, 271733878) in
  app (le_bytes 4 a) (app (le_bytes 4 b) (app (le_bytes 4 c) (le_bytes 4 d))).

Definition hex_digit (n : Z) : ascii :=
  if n <? 10 then ascii_of_nat (Z.to_nat (48 + n))
  else ascii_of_nat (Z.to_nat (87 + n)).

Fixpoint hex (bytes : list Z) : string :=
  match bytes with
  | [] => ""
  | x :: rest =>
      String (hex_digit (Z.shiftr x 4)) (String (hex_digit (Z.land x 15)) (hex rest))
  end.

(** [hashlib.md5(text.encode()).hexdigest()] *)
Definition md5_hexdigest (text : string) : string := hex (digest (encode text)).

End Hashlib.

(** ** learning_system.py *)

Module Learning.
Import PyStr.

(** The dictionary [extract_patterns] builds for one direction of change. *)
Record pattern := {
  p_type : string;
  examples : list string;
  count : nat;
  hash : string
}.

(** A row of [learning_patterns].  The [correction] column holds
    [json.dumps(pattern)]; two such texts are equal exactly when the
    patterns are, so the column is kept as the pattern itself. *)
Record learning_pattern := {
  lp_id : Z;
  pattern_type : string;
  context : string;
  correction : pattern;
  learned_from_doc_id : Z;
  created_at : string;
  applied_count : Z
}.

Definition pattern_eqb (p q : pattern) : bool :=
  String.eqb (p_type p) (p_type q)
  && (if list_eq_dec string_dec (examples p) (examples q) then true else false)
  && Nat.eqb (count p) (count q)
  && String.eqb (hash p) (hash q).

(** [_calculate_hash] *)
Definition calculate_hash (text : string) : string :=
  take 10 (Hashlib.md5_hexdigest text).

Inductive change := remove (line : string) | add (line : string).

(** The loop over the diff (lines 62-67). *)
Definition change_of (line : string) : list change :=
  if startswith line "- " && negb (startswith line "---")
  then [remove (drop 2 line)]
  else if startswith line "+ " && negb (startswith line "+++")
  then [add (drop 2 line)]
  else [].

Definition changes_of (diff : list string) : list change :=
  flat_map change_of diff.

Definition removals_of (changes : list change) : list string :=
  flat_map (fun c => match c with remove l => [l] | add _ => [] end) changes.

Definition additions_of (changes : list change) : list string :=
  flat_map (fun c => match c with add l => [l] | remove _ => [] end) changes.

Definition pattern_of (type : string) (lines : list string) : list pattern :=
  match lines with
  | [] => []
  | _ =>
      [{| p_type := type;
          examples := firstn 3 lines;
          count := List.length lines;
          hash := calculate_hash (join_lines (firstn 2 lines)) |}]
  end.

(** Lines 69-90, from the diff on. *)
Definition patterns_of_diff (diff : list string) : list pattern :=
  let changes := changes_of diff in
  match changes with
  | [] => []
  | _ =>
      app (pattern_of "content_removed" (removals_of changes))
          (pattern_of "content_added" (additions_of changes))
  end.

(** [LearningSystem.extract_patterns] *)
Definition extract_patterns (original revised : string) : list pattern :=
  patterns_of_diff
    (Difflib.unified_diff (split_lines original) (split_lines revised)).

Record insight := {
  insight_id : Z;
  generated_at : string;
  metric_name : string;
  metric_value : Q;
  recommendation : string
}.

(** The two tables [_init_db] creates. *)
Record store := {
  learning_patterns : list learning_pattern;
  insights : list insight
}.

Definition set_patterns (f : list learning_pattern -> list learning_pattern)
    (s : store) : store :=
  {| learning_patterns := f (learning_patterns s); insights := insights s |}.

Definition insert_pattern (now : string) (doc_id : Z) (doc_type : string)
    (s : store) (p : pattern) : store :=
  set_patterns (fun rows => app rows [
    {| lp_id := Sqlite.next_rowid (map lp_id rows);
       pattern_type := p_type p;
       context := "Doc type: " ++ doc_type;
       correction := p;
       learned_from_doc_id := doc_id;
       created_at := now;
       applied_count := 0 |}]) s.

(** [LearningSystem.save_feedback]; [review_time] is not used. *)
Definition save_feedback (now : string) (doc_id : Z) (original revised : string)
    (review_time : Z) (doc_type : string) (s : store) : nat * store :=
  let patterns := extract_patterns original revised in
  (List.length patterns, fold_left (insert_pattern now doc_id doc_type) patterns s).

(** [ORDER BY applied_count DESC]: an insertion sort that keeps rows of
    equal count in rowid order (SQL leaves their order open). *)
Fixpoint insert_by_count (r : learning_pattern) (sorted : list learning_pattern)
    : list learning_pattern :=
  match sorted with
  | [] => [r]
  | x :: rest =>
      if Z.ltb (applied_count x) (applied_count r) then r :: sorted
      else x :: insert_by_count r rest
  end.

Definition order_by_count_desc (rows : list learning_pattern)
    : list learning_pattern :=
  fold_right insert_by_count [] rows.

(** The SELECT of [apply_learnings]. *)
Definition select_patterns (content_type : string) (s : store)
    : list learning_pattern :=
  firstn 10
    (order_by_count_desc
       (filter (fun r => Sqlite.like ("%" ++ content_type ++ "%") (context r))
               (learning_patterns s))).

(** [UPDATE learning_patterns SET applied_count = applied_count + 1
     WHERE correction = ?] *)
Definition bump (p : pattern) (s : store) : store :=
  set_patterns (map (fun r =>
    if pattern_eqb (correction r) p
    then {| lp_id := lp_id r; pattern_type := pattern_type r;
            context := context r; correction := correction r;
            learned_from_doc_id := learned_from_doc_id r;
            created_at := created_at r;
            applied_count := applied_count r + 1 |}
    else r)) s.

(** What [apply_learnings] prints: the first 50 characters of the example. *)
Inductive flag :=
| Removing (example : string)
| Adding (example : string).

Inductive exn := IndexError.

(** The inner loop over [pattern.get('examples', [])] of a removal. *)
Fixpoint flag_removals (content : string) (p : pattern) (exs : list string)
    (acc : list flag * store) : list flag * store :=
  match exs with
  | [] => acc
  | example :: rest =>
      flag_removals content p rest
        (if contains example content
         then (app (fst acc) [Removing (take 50 example)], bump p (snd acc))
         else acc)
  end.

(** One turn of the loop over the fetched rows (lines 133-159). *)
Definition apply_pattern (content : string) (r : learning_pattern)
    (acc : list flag * store) : exn + list flag * store :=
  let p := correction r in
  if String.eqb (pattern_type r) "content_removed"
  then inr (flag_removals content p (examples p) acc)
  else if String.eqb (pattern_type r) "content_added"
  then
    match examples p with
    | [] => inl IndexError
    | example :: _ =>
        if negb (String.eqb example "") && negb (contains example content)
        then inr (app (fst acc) [Adding (take 50 example)], bump p (snd acc))
        else inr acc
    end
  else inr acc.

Fixpoint apply_patterns (content : string) (rows : list learning_pattern)
    (acc : list flag * store) : exn + list flag * store :=
  match rows with
  | [] => inr acc
  | r :: rest =>
      match apply_pattern content r acc with
      | inl e => inl e
      | inr acc' => apply_patterns content rest acc'
      end
  end.

(** [LearningSystem.apply_learnings]: the returned text, the printed flags
    and the store.  An exception leaves the transaction uncommitted. *)
Definition apply_learnings (new_content content_type : string) (s : store)
    : (exn + string * list flag) * store :=
  let improved_content := new_content in
  match apply_patterns improved_content (select_patterns content_type s) ([], s) with
  | inl e => (inl e, s)
  | inr (flags, s') => (inr (improved_content, flags), s')
  end.

(** The rows [save_feedback] writes, one per pattern. *)
Definition row_of (now : string) (doc_id : Z) (doc_type : string)
    (r : learning_pattern) (p : pattern) : Prop :=
  correction r = p
  /\ pattern_type r = p_type p
  /\ context r = "Doc type: " ++ doc_type
  /\ learned_from_doc_id r = doc_id
  /\ created_at r = now
  /\ applied_count r = 0%Z.

(** Every stored addition pattern has an example to read. *)
Definition well_formed (s : store) : Prop :=
  forall r, In r (learning_patterns s) ->
    pattern_type r = "content_added" -> examples (correction r) <> [].

(** Two rows that differ at most by a larger [applied_count]. *)
Definition same_but_count (r r' : learning_pattern) : Prop :=
  lp_id r' = lp_id r
  /\ pattern_type r' = pattern_type r
  /\ context r' = context r
  /\ correction r' = correction r
  /\ learned_from_doc_id r' = learned_from_doc_id r
  /\ created_at r' = created_at r
  /\ (applied_count r <= applied_count r')%Z.

(** Two stores with the same rows up to larger counters. *)
Definition only_counts_grow (s s' : store) : Prop :=
  Forall2 same_but_count (learning_patterns s) (learning_patterns s')
  /\ insights s' = insights s.

End Learning.

(** ** document_generator.py *)

Module Generator.
Import PyStr Ledger.

(** [client] is set when an API key is configured; [gen_model] is
    [OPENAI_MODEL]. *)
Record generator := {
  client : bool;
  gen_model : string
}.

(** [EnhancedDocumentGenerator.__init__]: an absent or empty key gives no
    client. *)
Definition init (api_key model_env : option string) : generator :=
  {| client := match api_key with Some (String _ _) => true | _ => false end;
     gen_model := match model_env with Some m => m | None => "gpt-3.5-turbo" end |}.

Definition pricing : list (string * Q) :=
  [("gpt-3.5-turbo", 0.002%Q);
   ("gpt-3.5-turbo-instruct", 0.0015%Q);
   ("gpt-4", 0.03%Q);
   ("gpt-4-turbo-preview", 0.01%Q)].

Fixpoint dict_get {A : Type} (key : string) (dict : list (string * A))
    (default : A) : A :=
  match dict with
  | [] => default
  | (k, v) :: rest => if String.eqb k key then v else dict_get key rest default
  end.

(** [calculate_cost]: the quotient and the product are rounded in Python
    and exact here. *)
Definition calculate_cost (g : generator) (tokens : Z) : Q :=
  (inject_Z tokens / 1000 * dict_get (gen_model g) pricing 0.002)%Q.

Definition templates : list string :=
  ["technical_spec"; "api_documentation"; "user_manual"; "license_readiness"].

(** [if doc_type not in self.templates: doc_type = "technical_spec"] *)
Definition template_key (doc_type : string) : string :=
  if existsb (String.eqb doc_type) templates then doc_type
  else "technical_spec".

Record result := {
  content : string;
  tokens : Z;
  cost : Q;
  res_model : string;
  res_provider : string;
  success : bool;
  res_generated_at : string
}.

(** The f-string of [_generate_simulated]; [minute] is
    [datetime.now().strftime('%Y-%m-%d %H:%M')]. *)
Definition simulated_content (doc_type context minute : string) : string :=
  "# " ++ title (replace "_" " " doc_type) ++ nl ++
  "        " ++ nl ++
  "## Based on: " ++ context ++ nl ++
  nl ++
  "### Document Type: " ++ doc_type ++ nl ++
  "### Generated: " ++ minute ++ nl ++
  "### Status: Simulated (OpenAI not configured)" ++ nl ++
  nl ++
  "This is a simulated document. To get AI-generated content:" ++ nl ++
  nl ++
  "1. Get an OpenAI API key from https://platform.openai.com/api-keys" ++ nl ++
  "2. Add to .env file: OPENAI_API_KEY=sk-your-key-here" ++ nl ++
  "3. Restart the API server" ++ nl ++
  nl ++
  "**Example Content Structure:**" ++ nl ++
  "- Overview" ++ nl ++
  "- Technical specifications" ++ nl ++
  "- Requirements" ++ nl ++
  "- Integration points" ++ nl ++
  "- Security considerations" ++ nl ++
  "- Licensing recommendations" ++ nl ++
  nl ++
  "*Enable OpenAI for real AI-generated documentation.*" ++ nl.

(** [_generate_simulated] *)
Definition generate_simulated (g : generator) (minute now : string)
    (doc_type context : string) : result :=
  let simulated_tokens := 800%Z in
  {| content := simulated_content doc_type context minute;
     tokens := simulated_tokens;
     cost := calculate_cost g simulated_tokens;
     res_model := "simulated";
     res_provider := "simulated";
     success := false;
     res_generated_at := now |}.

(** The outcome of [client.chat.completions.create]: the text and
    [usage.total_tokens], or an exception. *)
Inductive completion :=
| Completed (text : string) (total_tokens : Z)
| ApiError.

Section Upstream.
(** The upstream service, as a function of the model and of what the
    two prompt messages are built from: the template's key, the context
    and the features text. *)
Variable create_completion : string -> string -> string -> string -> completion.

(** [generate_document] *)
Definition generate_document (g : generator) (minute now : string)
    (doc_type context : string) (features : option string) : result :=
  let doc_type := template_key doc_type in
  let features :=
    match features with
    | Some (String c s) => String c s
    | _ => "Key features will be detailed in the specification."
    end in
  if client g then
    match create_completion (gen_model g) doc_type context features with
    | Completed text tokens_used =>
        {| content := text;
           tokens := tokens_used;
           cost := calculate_cost g tokens_used;
           res_model := gen_model g;
           res_provider := "openai";
           success := true;
           res_generated_at := now |}
    | ApiError => generate_simulated g minute now doc_type context
    end
  else generate_simulated g minute now doc_type context.
End Upstream.

(** [log_cost_to_db]; [now] is the [CURRENT_TIMESTAMP] default. *)
Definition log_cost_to_db (now : string) (activity_id : Z) (r : result)
    (d : db) : db :=
  let d :=
    set_ai_costs (fun rows => app rows [
      {| cost_id := Sqlite.next_rowid (map cost_id rows);
         cost_timestamp := now;
         provider := res_provider r;
         model := res_model r;
         tokens_used := tokens r;
         Ledger.cost := cost r;
         prompt_hash := None;
         cost_activity_id := activity_id |}]) d in
  update_activity activity_id (with_cost (tokens r) (cost r)) d.

End Generator.

(** ** cost_guard.py *)

Module CostGuard.

Inductive exn :=
| NameError (name : string)
| ZeroDivisionError.

(** The names bound in the module's namespace: its imports (lines 7-12)
    and its three functions. *)
Definition module_globals : list string :=
  ["os"; "sys"; "SmartDocumentGenerator"; "smtplib"; "MIMEText"; "json";
   "check_budget"; "update_config"; "send_alerts"].

(** Reading a global name: a name that is not bound raises. *)
Definition global (name : string) : exn + unit :=
  if existsb (String.eqb name) module_globals then inr tt
  else inl (NameError name).

(** The content of [scripts/config.json]. *)
Record config := {
  force_local : bool;
  updated : string
}.

(** The file system as far as the script writes it: [None] while
    [scripts/config.json] does not exist.  Printed output is left out. *)
Definition world := option config.

(** [update_config]: the dictionary is built, and [datetime] read, before
    the file is opened. *)
Definition update_config (now : string) (force_local : bool) (w : world)
    : (exn + unit) * world :=
  match global "datetime" with
  | inl e => (inl e, w)
  | inr _ =>
      let config := {| force_local := force_local; updated := now |} in
      (inr tt, Some config)
  end.

(** An alert; [message] is [message_text], the utilization printed with
    one decimal, and ["% used"]. *)
Record alert := {
  level : string;
  message_text : string;
  message_value : Q;
  action : string
}.

Record report := {
  monthly_spent : Q;
  remaining : Q;
  utilization : Q;
  alerts : list alert
}.

Inductive tier := OK | INFO | WARNING | CRITICAL.

(** The branch the chain [if utilization >= 90 ... elif utilization >= 80
    ... elif utilization >= 50] (lines 27-48) takes. *)
Definition tier_of (utilization : Q) : tier :=
  if Qle_bool 90 utilization then CRITICAL
  else if Qle_bool 80 utilization then WARNING
  else if Qle_bool 50 utilization then INFO
  else OK.

(** [send_alerts] only prints: the mail it builds is never sent. *)
Definition send_alerts (alerts : list alert) (spent remaining : Q) (w : world)
    : world := w.

(** [check_budget], from the figures the cost tracker and [MONTHLY_BUDGET]
    supply. *)
Definition check_budget (now : string) (monthly_spent remaining budget : Q)
    (w : world) : (exn + report) * world :=
  if Qeq_bool budget 0 then (inl ZeroDivisionError, w) else
  let utilization := (monthly_spent / budget * 100)%Q in
  let finish alerts w :=
    let w := match alerts with
             | [] => w
             | _ => send_alerts alerts monthly_spent remaining w
             end in
    (inr {| monthly_spent := monthly_spent; remaining := remaining;
            utilization := utilization; alerts := alerts |}, w) in
  match tier_of utilization with
  | CRITICAL =>
      let alerts :=
        [{| level := "CRITICAL";
            message_text := "Budget exceeded: ";
            message_value := utilization;
            action := "All new requests will use local models" |}] in
      match update_config now true w with
      | (inl e, w) => (inl e, w)
      | (inr _, w) => finish alerts w
      end
  | WARNING =>
      finish
        [{| level := "WARNING";
            message_text := "Budget warning: ";
            message_value := utilization;
            action := "Consider reviewing cost optimization recommendations" |}] w
  | INFO =>
      finish
        [{| level := "INFO";
            message_text := "Budget tracking: ";
            message_value := utilization;
            action := "Continue monitoring" |}] w
  | OK => finish [] w
  end.

(** The tier a returned report carries. *)
Definition reported_tier (r : report) : tier :=
  if existsb (fun a => String.eqb (level a) "CRITICAL") (alerts r) then CRITICAL
  else if existsb (fun a => String.eqb (level a) "WARNING") (alerts r) then WARNING
  else if existsb (fun a => String.eqb (level a) "INFO") (alerts r) then INFO
  else OK.

(** The [__main__] block: the process exit status.  An exception that
    leaves [check_budget] ends the interpreter with status 1. *)
Definition main (now : string) (monthly_spent remaining budget : Q) (w : world)
    : Z * world :=
  match check_budget now monthly_spent remaining budget w with
  | (inl _, w) => (1%Z, w)
  | (inr result, w) =>
      if existsb (fun a => String.eqb (level a) "CRITICAL") (alerts result)
      then (1%Z, w)
      else if existsb (fun a => String.eqb (level a) "WARNING") (alerts result)
      then (2%Z, w)
      else (0%Z, w)
  end.

End CostGuard.

(** ** review_workflow.py: staging a draft for review *)

Module Workflow.
Import PyStr Ledger.

(** [format(q, '.6f')]: the nearest multiple of [10^-6], ties to even. *)
Definition round_half_even (q : Q) : Z :=
  let n := Qnum q in
  let d := Zpos (Qden q) in
  let lo := (n / d)%Z in
  let twice := (2 * (n mod d))%Z in
  if Z.ltb twice d then lo
  else if Z.ltb d twice then (lo + 1)%Z
  else if Z.even lo then lo else (lo + 1)%Z.

Fixpoint zero_pad (width : nat) (s : string) : string :=
  match width - String.length s with
  | O => s
  | S _ => match width with
           | O => s
           | S w => "0" ++ zero_pad w s
           end
  end.

(** [format(q, '.<digits>f')] for one digit or more. *)
Definition format_fixed (digits : nat) (q : Q) : string :=
  let unit := (10 ^ Z.of_nat digits)%Z in
  let scaled := Z.abs (round_half_even (q * inject_Z unit)%Q) in
  (if Qle_bool 0 q then "" else "-")
  ++ str_of_Z (scaled / unit)
  ++ "." ++ zero_pad digits (str_of_Z (scaled mod unit)).

Definition format_6f (q : Q) : string := format_fixed 6 q.

(** The [metadata] dictionary as [generate_docs] builds it. *)
Record metadata := {
  md_doc_id : Z;
  md_doc_type : string;
  md_filename : string;
  md_cost : Q;
  md_tokens : Z;
  md_model : string;
  md_generated_at : string;
  md_activity_id : Z
}.

(** A file under [docs/]: a text, or the JSON side file of a staged
    draft with the three keys [save_for_review] adds. *)
Inductive file :=
| Text (text : string)
| Sidecar (m : metadata) (filepath status saved_at : string).

Definition files := list (string * file).

(** [open(path, 'w')]: the newest entry of a path is its content. *)
Definition write (path : string) (f : file) (fs : files) : files :=
  (path, f) :: fs.

Fixpoint read (path : string) (fs : files) : option file :=
  match fs with
  | [] => None
  | (p, f) :: rest => if String.eqb p path then Some f else read path rest
  end.

(** The f-string of [save_for_review]. *)
Definition review_content (doc_id : Z) (doc_type content : string)
    (m : metadata) : string :=
  "---" ++ nl ++
  "# DOCUMENT FOR REVIEW" ++ nl ++
  "# ID: " ++ str_of_Z doc_id ++ nl ++
  "# Type: " ++ doc_type ++ nl ++
  "# Generated: " ++ md_generated_at m ++ nl ++
  "# Cost: $" ++ format_6f (md_cost m) ++ nl ++
  "# Tokens: " ++ str_of_Z (md_tokens m) ++ nl ++
  "# Model: " ++ md_model m ++ nl ++
  "---" ++ nl ++
  "# REVIEW INSTRUCTIONS" ++ nl ++
  "1. Check technical accuracy" ++ nl ++
  "2. Verify completeness for licensing" ++ nl ++
  "3. Mark sections needing clarification with [REVIEW]" ++ nl ++
  "4. Add licensing-specific details" ++ nl ++
  "5. Update any placeholder content" ++ nl ++
  "---" ++ nl ++
  nl ++
  content ++ nl.

(** [ReviewWorkflow.save_for_review] with [docs_folder = "docs"]; [stamp]
    and [saved_at] are the two readings of the clock.  [doc_type] is taken
    without a ['/']. *)
Definition save_for_review (stamp saved_at : string) (doc_id : Z)
    (content doc_type : string) (m : metadata) (fs : files) : string * files :=
  let stem := "docs/review/" ++ doc_type ++ "_" ++ str_of_Z doc_id ++ "_" ++ stamp in
  let filepath := stem ++ ".md" in
  let fs := write filepath (Text (review_content doc_id doc_type content m)) fs in
  let fs := write (stem ++ ".json")
                  (Sidecar m filepath "pending_review" saved_at) fs in
  (filepath, fs).

(** [s.split('---')], with [skip] as in [PyStr.replace_from]. *)
Fixpoint split_rule (skip : nat) (s : string) : list string :=
  match s with
  | "" => [""]
  | String c s' =>
      match skip with
      | S k => split_rule k s'
      | O =>
          if prefix "---" s then "" :: split_rule 2 s'
          else match split_rule 0 s' with
               | [] => [String c ""]
               | part :: parts => String c part :: parts
               end
      end
  end.

(** [extract_body] of [_extract_learning]. *)
Definition extract_body (content : string) : string :=
  if contains "---" content then
    let parts := split_rule 0 content in
    if Nat.ltb 2 (List.length parts) then strip (List.last parts "")
    else content
  else content.

(** The f-string of [prepare_for_licensing]; [today] is
    [datetime.now().strftime('%Y-%m-%d')]. *)
Definition licensing_content (today content : string) : string :=
  "# SOFTWARE DOCUMENTATION FOR LICENSING" ++ nl ++
  "# Document Version: 1.0" ++ nl ++
  "# Preparation Date: " ++ today ++ nl ++
  "# Confidential - For Licensee Review Only" ++ nl ++
  nl ++
  content ++ nl ++
  nl ++
  "---" ++ nl ++
  "## LICENSING ACKNOWLEDGMENT" ++ nl ++
  nl ++
  "This document is part of the software licensing package. " ++ nl ++
  "All technical specifications are accurate as of the preparation date." ++ nl ++
  nl ++
  "**Contact:** Licensing Department" ++ nl ++
  "**Email:** licensing@yourcompany.com" ++ nl ++
  "**Effective Date:** " ++ today ++ nl.

Inductive exn := FileNotFoundError (path : string).

(** [ReviewWorkflow.prepare_for_licensing]; [additional_metadata] is not
    used.  [reviewed_filepath] is taken in normal form. *)
Definition prepare_for_licensing (today reviewed_filepath : string) (fs : files)
    : (exn + string) * files :=
  match read reviewed_filepath fs with
  | Some (Text content) =>
      let content := Review.remove_metadata_header content in
      let licensing_path :=
        "docs/licensing_ready/licensing_" ++ basename reviewed_filepath in
      (inr licensing_path,
       write licensing_path (Text (licensing_content today content)) fs)
  | _ => (inl (FileNotFoundError reviewed_filepath), fs)
  end.

End Workflow.

(** ** learning_system.py: insights *)

Module Insights.
Import PyStr Ledger Learning.

(** [col >= cutoff] on a text column: NULL is never in the window. *)
Definition since (cutoff : string) (col : option string) : bool :=
  match col with
  | Some at_ => String.leb cutoff at_
  | None => false
  end.

(** What [generate_insights] builds before it inserts. *)
Record finding := {
  f_metric_name : string;
  f_metric_value : Q;
  f_recommendation : string
}.

(** [AVG(review_time_seconds)/60] over the rows of the window: NULL when
    no row has a review time, which [or 0] turns into 0. *)
Definition average_minutes (rows : list document) : Q :=
  match flat_map (fun x => match review_time_seconds x with
                           | Some n => [n]
                           | None => []
                           end) rows with
  | [] => 0%Q
  | times =>
      (inject_Z (sum_Z times) / inject_Z (Z.of_nat (List.length times)) / 60)%Q
  end.

(** Insight 1 (lines 172-188). *)
Definition review_time_finding (cutoff : string) (docs : list document)
    : list finding :=
  match filter (fun x => since cutoff (reviewed_at x)) docs with
  | [] => []
  | rows =>
      let avg_minutes := average_minutes rows in
      [{| f_metric_name := "avg_review_time_minutes";
          f_metric_value := avg_minutes;
          f_recommendation :=
            "Average review time: " ++ Workflow.format_fixed 1 avg_minutes
            ++ " minutes. Target: under 5 minutes." |}]
  end.

(** The [GROUP BY pattern_type] with its row count: the types in the order
    they first occur, each with the number of its rows. *)
Fixpoint count_type (type : string) (groups : list (string * nat))
    : list (string * nat) :=
  match groups with
  | [] => [(type, 1%nat)]
  | (t, n) :: rest =>
      if String.eqb t type then (t, S n) :: rest
      else (t, n) :: count_type type rest
  end.

Definition group_by_type (rows : list learning_pattern) : list (string * nat) :=
  fold_left (fun groups r => count_type (pattern_type r) groups) rows [].

(** [ORDER BY frequency DESC], groups of equal frequency in the order
    above (SQL leaves their order open). *)
Fixpoint insert_by_frequency (g : string * nat) (sorted : list (string * nat))
    : list (string * nat) :=
  match sorted with
  | [] => [g]
  | x :: rest =>
      if Nat.ltb (snd x) (snd g) then g :: sorted
      else x :: insert_by_frequency g rest
  end.

Definition frequencies (cutoff : string) (s : store) : list (string * nat) :=
  fold_right insert_by_frequency []
    (group_by_type
       (filter (fun r => String.leb cutoff (created_at r)) (learning_patterns s))).

(** The body of the loop of insight 2 (lines 200-207). *)
Definition pattern_finding (g : string * nat) : list finding :=
  let '(pattern_type, frequency) := g in
  if Nat.ltb 2 frequency then
    let action := if contains "removed" pattern_type then "Reduce" else "Include" in
    [{| f_metric_name := "pattern_" ++ pattern_type;
        f_metric_value := inject_Z (Z.of_nat frequency);
        f_recommendation :=
          action ++ " content matching pattern: " ++ pattern_type
          ++ " (occurred " ++ str_of_Z (Z.of_nat frequency) ++ " times)" |}]
  else [].

Definition findings (cutoff : string) (docs : list document) (s : store)
    : list finding :=
  app (review_time_finding cutoff docs)
      (flat_map pattern_finding (frequencies cutoff s)).

Definition insert_finding (now : string) (s : store) (f : finding) : store :=
  {| learning_patterns := learning_patterns s;
     insights :=
       app (insights s) [
         {| insight_id := Sqlite.next_rowid (map insight_id (insights s));
            generated_at := now;
            metric_name := f_metric_name f;
            metric_value := f_metric_value f;
            recommendation := f_recommendation f |}] |}.

(** [LearningSystem.generate_insights]; [cutoff] is
    [datetime('now', '-<days> days')] and [docs] the [documents] table. *)
Definition generate_insights (now cutoff : string) (docs : list document)
    (s : store) : list finding * store :=
  let found := findings cutoff docs s in
  (found, fold_left (insert_finding now) found s).

(** The number of rows of a type in the window. *)
Definition recent_count (cutoff : string) (s : store) (type : string) : nat :=
  List.length
    (filter (fun r => String.eqb (pattern_type r) type)
       (filter (fun r => String.leb cutoff (created_at r)) (learning_patterns s))).

(** The frequency a list of groups gives a type, 0 when it has no group. *)
Fixpoint frequency_of (type : string) (groups : list (string * nat)) : nat :=
  match groups with
  | [] => 0
  | (t, n) :: rest => if String.eqb t type then n else frequency_of type rest
  end.

(** Groups with distinct types and positive counts. *)
Definition grouped (groups : list (string * nat)) : Prop :=
  NoDup (map fst groups) /\ Forall (fun g => 0 < snd g)%nat groups.

End Insights.

(** ** api_server.py *)

Module Api.
Import PyStr Ledger.

Record world := {
  db_of : db;
  files_of : Workflow.files
}.

(** The readings of the clock during one request. *)
Record clock := {
  sql_now : string;
  iso_now : string;
  minute : string;
  stamp : string;
  review_stamp : string
}.

(** The JSON body of [POST /generate]: each key may be missing. *)
Record generate_request := {
  context : option string;
  source : option string;
  req_doc_type : option string;
  licensing_focus : bool;
  features : option string
}.

Record generated := {
  g_activity_id : Z;
  g_document_id : Z;
  g_filename : string;
  g_content : string;
  g_tokens : Z;
  g_cost : Q;
  g_model : string;
  g_provider : string;
  g_openai_used : bool;
  g_needs_review : bool;
  g_message : string;
  g_review_path : option string
}.

Record reviewed := {
  r_status : string;
  r_reviewed_path : string;
  r_licensing_path : option string;
  r_message : string
}.

(** What an endpoint answers: [jsonify({"error": ...}), code] or a body
    with status 200. *)
Inductive response :=
| Failure (code : Z) (error : string)
| Generated (body : generated)
| Reviewed (body : reviewed).

Definition get {A : Type} (field : option A) (default : A) : A :=
  match field with
  | Some v => v
  | None => default
  end.

Section Service.
(** The upstream text-generation service (see [Generator]). *)
Variable create_completion : string -> string -> string -> string -> Generator.completion.

(** [generate_docs]; [modules_available] is [MODULES_AVAILABLE], without
    which [generator] is [None].  This is the request whose review files
    can be opened; [Route.generate_docs] adds the [except Exception] that
    answers when they cannot. *)
Definition generate_docs (modules_available : bool) (g : Generator.generator)
    (t : clock) (data : option generate_request) (w : world)
    : response * world :=
  match data with
  | None => (Failure 400 "Missing 'context' in request", w)
  | Some data =>
  match context data with
  | None => (Failure 400 "Missing 'context' in request", w)
  | Some ctx =>
  if negb modules_available
  then (Failure 500 "Document generator not available", w) else
  let doc_type := get (req_doc_type data) "technical_spec" in
  let '(activity_id, d) :=
    log_activity (sql_now t) "documentation_generation"
      (get (source data) "api")
      [("doc_type", JStr doc_type);
       ("context_length", JInt (Z.of_nat (String.length ctx)));
       ("licensing_focus", JBool (licensing_focus data))]
      (db_of w) in
  let result :=
    Generator.generate_document create_completion g (minute t) (iso_now t)
      doc_type ctx (features data) in
  let d := Generator.log_cost_to_db (sql_now t) activity_id result d in
  let filename :=
    doc_type ++ "_" ++ str_of_Z activity_id ++ "_" ++ stamp t ++ ".md" in
  let '(doc_id, d) :=
    save_document (stamp t) (sql_now t) activity_id doc_type
      (Generator.content result) (Some filename) d in
  let '(review_path, fs) :=
    if licensing_focus data then
      let m :=
        {| Workflow.md_doc_id := doc_id;
           Workflow.md_doc_type := doc_type;
           Workflow.md_filename := filename;
           Workflow.md_cost := Generator.cost result;
           Workflow.md_tokens := Generator.tokens result;
           Workflow.md_model := Generator.res_model result;
           Workflow.md_generated_at := Generator.res_generated_at result;
           Workflow.md_activity_id := activity_id |} in
      let '(path, fs) :=
        Workflow.save_for_review (review_stamp t) (iso_now t) doc_id
          (Generator.content result) doc_type m (files_of w) in
      (Some path, fs)
    else (None, files_of w) in
  let d :=
    match review_path with
    | Some (String c p) =>
        snd (update_document_review_path doc_id (String c p) d)
    | _ => d
    end in
  (Generated
     {| g_activity_id := activity_id;
        g_document_id := doc_id;
        g_filename := filename;
        g_content := Generator.content result;
        g_tokens := Generator.tokens result;
        g_cost := Generator.cost result;
        g_model := Generator.res_model result;
        g_provider := Generator.res_provider result;
        g_openai_used := String.eqb (Generator.res_provider result) "openai";
        g_needs_review := licensing_focus data;
        g_message :=
          match review_path with
          | Some (String _ _) =>
              "Document generated successfully" ++ ". Document saved for review."
          | _ => "Document generated successfully"
          end;
        g_review_path :=
          match review_path with
          | Some (String c p) => Some (String c p)
          | _ => None
          end |},
   {| db_of := d; files_of := fs |})
  end
  end.
End Service.

(** The JSON body of [POST /submit-review]. *)
Record review_request := {
  filepath : option string;
  changes_summary : option string;
  reviewer_name : option string;
  prepare_for_licensing : bool
}.

(** What the request meets outside the ledger: whether the submitted file
    exists and its text; the path [workflow.submit_review] returned, or
    [None] when it raised; and the outcome of
    [workflow.prepare_for_licensing] on a path, an error text or the
    licensing path. *)
Record review_env := {
  file_exists : bool;
  full_content : string;
  workflow_reviewed_path : option string;
  licensing : string -> string + string
}.

(** The candidates of the search (lines 324-342). *)
Definition search_patterns (submitted_filename : string) : list string :=
  let search_filename := submitted_filename in
  let search_filename :=
    if startswith search_filename "review_" then drop 7 search_filename
    else search_filename in
  let search_filename :=
    if startswith search_filename "reviewed_" then drop 9 search_filename
    else search_filename in
  ["%" ++ search_filename ++ "%";
   "%" ++ submitted_filename ++ "%";
   "%" ++ replace "reviewed_" "" search_filename ++ "%";
   "%" ++ replace "review_" "" search_filename ++ "%"].

Definition matches (pattern : string) (x : document) : bool :=
  Sqlite.like_column pattern (filename x)
  || Sqlite.like_column pattern (review_filepath x).

(** [ORDER BY id DESC LIMIT 1] over the rows kept so far. *)
Definition latest (best : option document) (x : document) : option document :=
  match best with
  | None => Some x
  | Some y => if Z.ltb (doc_id y) (doc_id x) then Some x else Some y
  end.

(** The query of lines 346-350 for one pattern. *)
Definition query (pattern : string) (docs : list document) : option document :=
  fold_left latest (filter (matches pattern) docs) None.

(** The loop over the candidates: the first pattern with a row wins. *)
Fixpoint find_document_for (patterns : list string) (docs : list document)
    : option document :=
  match patterns with
  | [] => None
  | pattern :: rest =>
      match query pattern docs with
      | Some x => Some x
      | None => find_document_for rest docs
      end
  end.

(** The three UPDATE statements of lines 361-386 for the row found. *)
Definition record_review (now full_content reviewed_path : string)
    (found : document) (d : db) : db :=
  let d := update_document_row (doc_id found)
             (with_review now full_content 300 0.8%Q) d in
  let d :=
    match doc_activity_id found with
    | Some activity_id =>
        if Z.eqb activity_id 0 then d
        else update_activity activity_id (with_completion 300) d
    | None => d
    end in
  match reviewed_path with
  | "" => d
  | _ => update_document_row (doc_id found) (with_review_path reviewed_path) d
  end.

(** The ledger part of [submit_review] (lines 318-401). *)
Definition reconcile (now filepath full_content reviewed_path : string) (d : db)
    : option document * db :=
  let submitted_filename := basename filepath in
  match find_document_for (search_patterns submitted_filename) (documents d) with
  | Some found => (Some found, record_review now full_content reviewed_path found d)
  | None => (None, d)
  end.

(** [submit_review].  [workflow_available] is [workflow] not being [None];
    [d] is the ledger when the endpoint opens its connection. *)
Definition submit_review (workflow_available : bool) (now : string)
    (env : review_env) (data : option review_request) (d : db)
    : response * db :=
  if negb workflow_available
  then (Failure 500 "Review workflow not available", d) else
  match data with
  | None => (Failure 500 "argument of type 'NoneType' is not iterable", d)
  | Some data =>
  match filepath data, changes_summary data, reviewer_name data with
  | None, _, _ => (Failure 400 "Missing required field: filepath", d)
  | _, None, _ => (Failure 400 "Missing required field: changes_summary", d)
  | _, _, None => (Failure 400 "Missing required field: reviewer_name", d)
  | Some path, Some _, Some _ =>
  if negb (file_exists env)
  then (Failure 404 ("File not found: " ++ path), d) else
  let reviewed_path :=
    match workflow_reviewed_path env with
    | Some p => p
    | None => "docs/review/" ++ ("reviewed_" ++ basename path)
    end in
  let '(_, d) := reconcile now path (full_content env) reviewed_path d in
  if prepare_for_licensing data then
    match licensing env reviewed_path with
    | inl error => (Failure 500 error, d)
    | inr licensing_path =>
        (Reviewed {| r_status := "success";
                     r_reviewed_path := reviewed_path;
                     r_licensing_path := Some licensing_path;
                     r_message := "Review submitted successfully" |}, d)
    end
  else
    (Reviewed {| r_status := "success";
                 r_reviewed_path := reviewed_path;
                 r_licensing_path := None;
                 r_message := "Review submitted successfully" |}, d)
  end
  end.

(** The response of a request that passed the checks of the endpoint:
    it does not depend on the ledger. *)
Definition answer (env : review_env) (path : string) (flag : bool) : response :=
  let reviewed_path :=
    match workflow_reviewed_path env with
    | Some p => p
    | None => "docs/review/" ++ ("reviewed_" ++ basename path)
    end in
  if flag then
    match licensing env reviewed_path with
    | inl error => Failure 500 error
    | inr licensing_path =>
        Reviewed {| r_status := "success"; r_reviewed_path := reviewed_path;
                    r_licensing_path := Some licensing_path;
                    r_message := "Review submitted successfully" |}
    end
  else
    Reviewed {| r_status := "success"; r_reviewed_path := reviewed_path;
                r_licensing_path := None;
                r_message := "Review submitted successfully" |}.

(** Two versions of a document row that differ at most in the columns a
    review writes. *)
Definition same_draft (x x' : document) : Prop :=
  doc_id x' = doc_id x
  /\ doc_activity_id x' = doc_activity_id x
  /\ Ledger.doc_type x' = Ledger.doc_type x
  /\ draft_content x' = draft_content x
  /\ filename x' = filename x
  /\ generated_at x' = generated_at x.

(** Two versions of an activity row that differ at most in the columns a
    completed review writes. *)
Definition same_cost (a a' : activity) : Prop :=
  act_id a' = act_id a
  /\ act_timestamp a' = act_timestamp a
  /\ activity_type a' = activity_type a
  /\ act_source a' = act_source a
  /\ details a' = details a
  /\ ai_tokens_used a' = ai_tokens_used a
  /\ ai_cost a' = ai_cost a.

End Api.

(** ** Sequences of ledger operations *)

Module LedgerOps.
Import Ledger.

(** The operations of the tracker, of the generator and of the review
    endpoint that write the ledger. *)
Inductive ledger_op :=
| LogActivity (now activity_type source : string) (details : list (string * jval))
| UpdateActivityCost (activity_id ai_tokens : Z) (ai_cost : Q) (provider : string)
| CompleteActivity (activity_id human_time_seconds : Z)
| SaveDocument (stamp now : string) (activity_id : Z)
    (doc_type draft_content : string) (filename : option string)
| UpdateDocumentReviewPath (doc_id : Z) (review_filepath : string)
| UpdateDocument (now : string) (doc_id : Z) (final_content : string)
    (review_time_seconds : Z) (quality_score : Q)
| LogCostToDb (now : string) (activity_id : Z) (r : Generator.result)
| Reconcile (now filepath full_content reviewed_path : string).

Definition run_ledger_op (d : db) (op : ledger_op) : db :=
  match op with
  | LogActivity now activity_type source details =>
      snd (log_activity now activity_type source details d)
  | UpdateActivityCost activity_id ai_tokens ai_cost provider =>
      update_activity_cost activity_id ai_tokens ai_cost provider d
  | CompleteActivity activity_id human_time_seconds =>
      complete_activity activity_id human_time_seconds d
  | SaveDocument stamp now activity_id doc_type draft_content filename =>
      snd (save_document stamp now activity_id doc_type draft_content filename d)
  | UpdateDocumentReviewPath doc_id review_filepath =>
      snd (update_document_review_path doc_id review_filepath d)
  | UpdateDocument now doc_id final_content review_time_seconds quality_score =>
      update_document now doc_id final_content review_time_seconds quality_score d
  | LogCostToDb now activity_id r => Generator.log_cost_to_db now activity_id r d
  | Reconcile now filepath full_content reviewed_path =>
      snd (Api.reconcile now filepath full_content reviewed_path d)
  end.

Definition run_ledger_ops (ops : list ledger_op) (d : db) : db :=
  fold_left run_ledger_op ops d.

(** The rowids of a table are distinct and positive. *)
Definition keys (ids : list Z) : Prop :=
  NoDup ids /\ Forall (fun id => 0 < id)%Z ids.

Definition well_keyed (d : db) : Prop :=
  keys (map act_id (activities d))
  /\ keys (map doc_id (documents d))
  /\ keys (map cost_id (ai_costs d)).

(** The rowids of the three tables. *)
Definition rowids (d : db) : list Z * list Z * list Z :=
  (map act_id (activities d), map doc_id (documents d), map cost_id (ai_costs d)).

End LedgerOps.

(** ** Sequences of calls to the learning system *)

Module LearningOps.
Import Learning.

Inductive learn_op :=
| Feedback (now : string) (doc_id : Z) (original revised : string)
    (review_time : Z) (doc_type : string)
| Apply (new_content content_type : string).

(** One call; [None] when it raised. *)
Definition run_call (s : store) (op : learn_op) : option store :=
  match op with
  | Feedback now doc_id original revised review_time doc_type =>
      Some (snd (save_feedback now doc_id original revised review_time doc_type s))
  | Apply new_content content_type =>
      match apply_learnings new_content content_type s with
      | (inr _, s') => Some s'
      | (inl _, _) => None
      end
  end.

(** A run of calls, stopped by the first one that raises. *)
Fixpoint run_calls (ops : list learn_op) (s : store) : option store :=
  match ops with
  | [] => Some s
  | op :: rest =>
      match run_call s op with
      | Some s' => run_calls rest s'
      | None => None
      end
  end.

Definition empty_store : store := {| learning_patterns := []; insights := [] |}.

End LearningOps.

(** ** Sequences of cost-recording operations *)

Module CostOps.
Import Ledger.

(** The two operations that write the cost of an activity:
    [log_cost_to_db] of the generator and [update_activity_cost] of the
    tracker. *)
Inductive cost_op :=
| LogCost (now : string) (activity_id : Z) (r : Generator.result)
| UpdateCost (activity_id ai_tokens : Z) (ai_cost : Q) (provider : string).

Definition run_op (d : db) (op : cost_op) : db :=
  match op with
  | LogCost now activity_id r => Generator.log_cost_to_db now activity_id r d
  | UpdateCost activity_id ai_tokens ai_cost provider =>
      update_activity_cost activity_id ai_tokens ai_cost provider d
  end.

Definition run_ops (ops : list cost_op) (d : db) : db :=
  fold_left run_op ops d.

Definition recorded_tokens (activity_id : Z) (d : db) : Z :=
  sum_Z (map tokens_used (records_of activity_id d)).

Definition recorded_cost (activity_id : Z) (d : db) : Q :=
  sum_Q (map cost (records_of activity_id d)).

(** The cache of an activity agrees with its cost records. *)
Definition cache_agrees (activity_id : Z) (d : db) : Prop :=
  forall a, In a (activities d) -> act_id a = activity_id ->
    ai_tokens_used a = recorded_tokens activity_id d
    /\ (ai_cost a == recorded_cost activity_id d)%Q.

End CostOps.

(** ** Sample rows used by the examples *)

Module Fixtures.
Import Ledger.

(** A freshly saved document of activity [activity_id]. *)
Definition draft (id activity_id : Z) (name : string) : document :=
  {| doc_id := id; doc_activity_id := Some activity_id;
     doc_type := "technical_spec"; draft_content := Some "draft";
     final_content := None; filename := Some name;
     review_filepath := None; generated_at := "2024-01-01 12:00:00";
     reviewed_at := None; review_time_seconds := None;
     quality_score := None |}.

(** An activity whose cost has been logged. *)
Definition logged (id : Z) : activity :=
  {| act_id := id; act_timestamp := "2024-01-01 12:00:00";
     activity_type := "documentation_generation"; act_source := "api";
     details := []; ai_tokens_used := 800; ai_cost := 0.0016%Q;
     human_time_seconds := 0; status := "generated" |}.

Definition spec_name : string := "technical_spec_7_20240101_120000.md".

(** What [_generate_simulated] returns for 800 tokens at $0.002 per 1K. *)
Definition simulated_result : Generator.result :=
  Generator.generate_simulated (Generator.init None None)
    "2024-01-01 12:00" "2024-01-01T12:00:00" "technical_spec" "a product".

(** One activity just logged, no cost record yet. *)
Definition fresh_ledger : db :=
  snd (log_activity "2024-01-01 12:00:00" "documentation_generation" "api" []
         empty_db).

Definition ledger7 : db :=
  {| activities := [logged 7];
     documents := [draft 7 7 spec_name];
     ai_costs := [] |}.

Definition review_of (path : string) : Api.review_request :=
  {| Api.filepath := Some path;
     Api.changes_summary := Some "typos";
     Api.reviewer_name := Some "reviewer";
     Api.prepare_for_licensing := false |}.

(** The submitted file exists; [workflow.submit_review] raised (no side
    file), so the endpoint builds the reviewed path itself. *)
Definition plain_env : Api.review_env :=
  {| Api.file_exists := true;
     Api.full_content := "reviewed text";
     Api.workflow_reviewed_path := None;
     Api.licensing := fun path => inr ("docs/licensing_ready/licensing_" ++ path) |}.

End Fixtures.

(** ** review_workflow.py: submitting a review *)

Module Approval.
Import PyStr Ledger Workflow.

(** The four keys [submit_review] adds to the metadata of a draft. *)
Record review_note := {
  reviewed_at : string;
  reviewer : string;
  changes_summary : string;
  reviewed_filepath : string
}.

(** The folder [docs/] and the learning database.  The keys a rewritten
    side file gains are kept in [notes] under the path of the side file;
    [submit_review] replaces them on every call and nothing else reads
    them. *)
Record world := {
  docs : files;
  notes : list (string * review_note);
  learned : Learning.store
}.

Inductive exn :=
| FileNotFoundError (path : string)
| JSONDecodeError
| ValueError.

(** The path up to and with its last ['/']. *)
Fixpoint parent (p : string) : string :=
  match p with
  | "" => ""
  | String c p' =>
      if has_slash p' then String c (parent p')
      else if Ascii.eqb c "/" then String c "" else ""
  end.

(** [Path.suffix] begins at the last ['.'] of the name, unless that is its
    first or its last character.  For a name [c + s], [stem_tail s] is
    [Some t] when there is a suffix, [c + t] being the name without it. *)
Fixpoint stem_tail (s : string) : option string :=
  match s with
  | "" => None
  | String c s' =>
      match stem_tail s' with
      | Some t => Some (String c t)
      | None =>
          if Ascii.eqb c "." && negb (contains "." s') && negb (s' =? "")
          then Some "" else None
      end
  end.

(** [str(Path(p).with_suffix('.json'))] for a path in normal form; a path
    without a name, ['.'] or ['/'], raises [ValueError]. *)
Definition with_suffix_json (p : string) : option string :=
  if p =? "." then None else
  match basename p with
  | "" => None
  | String c s =>
      Some (parent p
            ++ match stem_tail s with
               | Some t => String c t
               | None => String c s
               end
            ++ ".json")
  end.

(** The f-string of [submit_review]. *)
Definition reviewed_with_metadata (m : metadata)
    (reviewed_at reviewer_name changes_summary reviewed_content : string)
    : string :=
  "---" ++ nl ++
  "# REVIEWED DOCUMENT" ++ nl ++
  "# Original ID: " ++ str_of_Z (md_doc_id m) ++ nl ++
  "# Type: " ++ md_doc_type m ++ nl ++
  "# Generated: " ++ md_generated_at m ++ nl ++
  "# Reviewed: " ++ reviewed_at ++ nl ++
  "# Reviewer: " ++ reviewer_name ++ nl ++
  "# Changes: " ++ changes_summary ++ nl ++
  "---" ++ nl ++
  reviewed_content ++ nl.

Fixpoint note_of (path : string) (notes : list (string * review_note))
    : option review_note :=
  match notes with
  | [] => None
  | (p, n) :: rest => if String.eqb p path then Some n else note_of path rest
  end.

Section Submit.

(** The text [json.dump(metadata, f, indent=2)] wrote for a side file. *)
Variable dumps : file -> option review_note -> string.

(** [open(path).read()] *)
Definition text_at (path : string) (w : world) : option string :=
  match read path (docs w) with
  | Some (Text text) => Some text
  | Some side => Some (dumps side (note_of path (notes w)))
  | None => None
  end.

(** [_extract_learning]; [learned_at] is the time the learning database
    stamps its rows with. *)
Definition extract_learning (learned_at original_path reviewed_path : string)
    (m : metadata) (w : world) : exn + world :=
  match text_at original_path w with
  | None => inl (FileNotFoundError original_path)
  | Some original_content =>
      match text_at reviewed_path w with
      | None => inl (FileNotFoundError reviewed_path)
      | Some reviewed_content =>
          let original_body := extract_body original_content in
          let reviewed_body := extract_body reviewed_content in
          inr {| docs := docs w; notes := notes w;
                 learned :=
                   snd (Learning.save_feedback learned_at (md_doc_id m)
                          original_body reviewed_body 0 (md_doc_type m)
                          (learned w)) |}
      end
  end.

(** [ReviewWorkflow.submit_review] with [docs_folder = "docs"]; [now] is
    [datetime.now().isoformat()].  [filepath] is taken in normal form, the
    side file as one that [save_for_review] or this function wrote, and a
    text as not being JSON.  The result is the reviewed path with the
    metadata: the side file and its note. *)
Definition submit_review (now learned_at : string)
    (filepath reviewed_content changes_summary reviewer_name : string)
    (w : world) : (exn + string * (file * review_note)) * world :=
  match read filepath (docs w) with
  | None => (inl (FileNotFoundError filepath), w)
  | Some _ =>
  match with_suffix_json filepath with
  | None => (inl ValueError, w)
  | Some metadata_file =>
  match read metadata_file (docs w) with
  | None => (inl (FileNotFoundError metadata_file), w)
  | Some (Text _) => (inl JSONDecodeError, w)
  | Some (Sidecar m staged_path _ saved_at) =>
      let reviewed_path := "docs/approved/reviewed_" ++ basename filepath in
      let text :=
        reviewed_with_metadata m now reviewer_name changes_summary
          reviewed_content in
      let side := Sidecar m staged_path "reviewed" saved_at in
      let note :=
        {| reviewed_at := now; reviewer := reviewer_name;
           changes_summary := changes_summary;
           reviewed_filepath := reviewed_path |} in
      let w :=
        {| docs := write metadata_file side
                     (write reviewed_path (Text text) (docs w));
           notes := (metadata_file, note) :: notes w;
           learned := learned w |} in
      match extract_learning learned_at filepath reviewed_path m w with
      | inl e => (inl e, w)
      | inr w => (inr (reviewed_path, (side, note)), w)
      end
  end
  end
  end.

End Submit.

End Approval.

(** A draft staged for review, before anything was learned. *)
Module Shelf.
Import PyStr Ledger Workflow.

Definition spec_metadata : metadata :=
  {| md_doc_id := 7; md_doc_type := "technical_spec";
     md_filename := "technical_spec_7_20240101_120000.md";
     md_cost := 0.0016%Q; md_tokens := 800; md_model := "simulated";
     md_generated_at := "2024-01-01T12:00:00"; md_activity_id := 7 |}.

Definition spec_draft : string := "# Spec" ++ nl ++ "body" ++ nl.

Definition staged : string * files :=
  save_for_review "20240101_120000" "2024-01-01T12:00:01" 7 spec_draft
    "technical_spec" spec_metadata [].

(** The staged file after the reviewer added a line to it. *)
Definition edited_text : string :=
  review_content 7 "technical_spec" (spec_draft ++ "A new line." ++ nl)
    spec_metadata.

Definition edited_world : Approval.world :=
  {| Approval.docs := write (fst staged) (Text edited_text) (snd staged);
     Approval.notes := [];
     Approval.learned :=
       {| Learning.learning_patterns := []; Learning.insights := [] |} |}.

End Shelf.

(** ** api_server.py: [/generate] when the review file cannot be written *)

Module Route.
Import PyStr Ledger Api.

Section Service.
Variable create_completion : string -> string -> string -> string -> Generator.completion.

(** [open(path, 'w')] on the file system of the server: [Some text] when
    it raises, [text] being [str(e)]. *)
Variable open_error : string -> option string.

(** The ledger writes of [generate_docs] (lines 133-165): the new activity,
    its cost and the document.  The result is the two ids, what the
    generator returned and the ledger as committed. *)
Definition committed (g : Generator.generator) (t : clock)
    (data : generate_request) (ctx : string) (d : db)
    : Z * Z * Generator.result * db :=
  let doc_type := get (req_doc_type data) "technical_spec" in
  let '(activity_id, d) :=
    log_activity (sql_now t) "documentation_generation"
      (get (source data) "api")
      [("doc_type", JStr doc_type);
       ("context_length", JInt (Z.of_nat (String.length ctx)));
       ("licensing_focus", JBool (licensing_focus data))]
      d in
  let result :=
    Generator.generate_document create_completion g (minute t) (iso_now t)
      doc_type ctx (features data) in
  let d := Generator.log_cost_to_db (sql_now t) activity_id result d in
  let filename :=
    doc_type ++ "_" ++ str_of_Z activity_id ++ "_" ++ stamp t ++ ".md" in
  let '(doc_id, d) :=
    save_document (stamp t) (sql_now t) activity_id doc_type
      (Generator.content result) (Some filename) d in
  (activity_id, doc_id, result, d).

(** [generate_docs] with its [except Exception] (lines 213-214).  The two
    files of [save_for_review] are opened after the ledger writes were
    committed: when either [open] raises, the answer is 500 with the text
    of the exception, the rows stay, and the review path is not recorded.
    When both succeed the request runs as [Api.generate_docs] has it. *)
Definition generate_docs (modules_available : bool) (g : Generator.generator)
    (t : clock) (data : option generate_request) (w : world)
    : response * world :=
  match data with
  | Some r =>
      match context r with
      | Some ctx =>
          if modules_available && licensing_focus r then
            let '(activity_id, doc_id, result, d) :=
              committed g t r ctx (db_of w) in
            let doc_type := get (req_doc_type r) "technical_spec" in
            let stem :=
              "docs/review/" ++ doc_type ++ "_" ++ str_of_Z doc_id ++ "_"
              ++ review_stamp t in
            match open_error (stem ++ ".md") with
            | Some error =>
                (Failure 500 error, {| db_of := d; files_of := files_of w |})
            | None =>
                match open_error (stem ++ ".json") with
                | Some error =>
                    let m :=
                      {| Workflow.md_doc_id := doc_id;
                         Workflow.md_doc_type := doc_type;
                         Workflow.md_filename :=
                           doc_type ++ "_" ++ str_of_Z activity_id ++ "_"
                           ++ stamp t ++ ".md";
                         Workflow.md_cost := Generator.cost result;
                         Workflow.md_tokens := Generator.tokens result;
                         Workflow.md_model := Generator.res_model result;
                         Workflow.md_generated_at :=
                           Generator.res_generated_at result;
                         Workflow.md_activity_id := activity_id |} in
                    (Failure 500 error,
                     {| db_of := d;
                        files_of :=
                          Workflow.write (stem ++ ".md")
                            (Workflow.Text
                               (Workflow.review_content doc_id doc_type
                                  (Generator.content result) m))
                            (files_of w) |})
                | None =>
                    Api.generate_docs create_completion modules_available g t
                      data w
                end
            end
          else Api.generate_docs create_completion modules_available g t data w
      | None => Api.generate_docs create_completion modules_available g t data w
      end
  | None => Api.generate_docs create_completion modules_available g t data w
  end.

End Service.

End Route.

(** ** Properties of the string primitives *)

Module PyStrFacts.
Import PyStr.

Lemma split_lines_nonempty (s : string) : split_lines s <> [].
Proof.
  destruct s as [|c s]; simpl; [discriminate|].
  destruct (Ascii.eqb c _); [discriminate|].
  destruct (split_lines s); discriminate.
Qed.

Lemma join_lines_cons (l : string) (ls : list string) :
  ls <> [] -> join_lines (l :: ls) = l ++ nl ++ join_lines ls.
Proof. destruct ls; [congruence|reflexivity]. Qed.

Lemma join_split (s : string) : join_lines (split_lines s) = s.
Proof.
  induction s as [|c s IH]; [reflexivity|].
  simpl. destruct (Ascii.eqb_spec c (ascii_of_nat 10)) as [->|Hc].
  - rewrite join_lines_cons by apply split_lines_nonempty.
    rewrite IH. reflexivity.
  - pose proof (split_lines_nonempty s) as Hne.
    destruct (split_lines s) as [|l ls]; [congruence|].
    rewrite <- IH. destruct ls; reflexivity.
Qed.

Lemma length_append (a b : string) :
  String.length (a ++ b) = (String.length a + String.length b)%nat.
Proof. induction a; simpl; auto. Qed.

Lemma length_lstrip (s : string) :
  (String.length (lstrip s) <= String.length s)%nat.
Proof.
  induction s as [|c s IH]; simpl; [lia|].
  destruct (isspace c); simpl; lia.
Qed.

Lemma length_rstrip (s : string) :
  (String.length (rstrip s) <= String.length s)%nat.
Proof.
  induction s as [|c s IH]; simpl; [lia|].
  destruct (rstrip s); [destruct (isspace c)|]; simpl in *; lia.
Qed.

Lemma length_strip (s : string) :
  (String.length (strip s) <= String.length s)%nat.
Proof.
  unfold strip. pose proof (length_rstrip (lstrip s)).
  pose proof (length_lstrip s). lia.
Qed.

Lemma prefix_String (a b : ascii) (p s : string) :
  prefix (String a p) (String b s) = Ascii.eqb a b && prefix p s.
Proof.
  simpl. destruct (ascii_dec a b) as [->|Hne].
  - now rewrite Ascii.eqb_refl.
  - apply Ascii.eqb_neq in Hne. now rewrite Hne.
Qed.

Lemma prefix_nil (s : string) : prefix "" s = true.
Proof. destruct s; reflexivity. Qed.

(** [s.startswith(p)] holds exactly of the texts [p + r]. *)
Lemma prefix_append (p s : string) :
  prefix p s = true <-> exists r, s = p ++ r.
Proof.
  revert s; induction p as [|a p IH]; intros s.
  - rewrite prefix_nil. split; [exists s; reflexivity|reflexivity].
  - destruct s as [|b s]; [split; [discriminate|intros [r Hr]; discriminate]|].
    rewrite prefix_String, andb_true_iff, IH. split.
    + intros [Hab [r ->]]. apply Ascii.eqb_eq in Hab as ->. now exists r.
    + intros [r Hr]. injection Hr as -> ->. rewrite Ascii.eqb_refl.
      split; [reflexivity|now exists r].
Qed.

Lemma append_assoc (a b c : string) : (a ++ b) ++ c = a ++ b ++ c.
Proof. induction a; simpl; congruence. Qed.

Lemma append_nil_r (a : string) : a ++ "" = a.
Proof. induction a; simpl; congruence. Qed.

Lemma append_cancel (a b c : string) : a ++ b = a ++ c -> b = c.
Proof. induction a; simpl; intros H; [exact H|]. injection H. auto. Qed.

Lemma prefix_length (p s : string) :
  prefix p s = true -> (String.length p <= String.length s)%nat.
Proof.
  revert s; induction p as [|a p IH]; intros [|b s]; simpl; try lia;
    try discriminate.
  destruct (ascii_dec a b); [|discriminate].
  intros H; apply IH in H; lia.
Qed.

End PyStrFacts.

(** ** cost_guard.py: the budget check *)

Module CostGuardFacts.
Import CostGuard.
Local Open Scope Q_scope.

Lemma Qle_bool_false (x y : Q) : Qle_bool x y = false <-> y < x.
Proof.
  split; intros H.
  - apply Qnot_le_lt. intros Hle. apply Qle_bool_iff in Hle. congruence.
  - destruct (Qle_bool x y) eqn:E; [|reflexivity].
    apply Qle_bool_iff in E. exfalso. apply (Qlt_not_le _ _ H E).
Qed.

Ltac by_thresholds :=
  unfold tier_of;
  repeat match goal with
  | |- context [Qle_bool ?a ?b] =>
      let E := fresh "E" in
      destruct (Qle_bool a b) eqn:E;
      [apply Qle_bool_iff in E | apply Qle_bool_false in E]
  end.

Lemma tier_of_critical (u : Q) : tier_of u = CRITICAL <-> 90 <= u.
Proof. by_thresholds; split; intros; try discriminate; try reflexivity; lra. Qed.

Lemma tier_of_warning (u : Q) : tier_of u = WARNING <-> 80 <= u /\ u < 90.
Proof. by_thresholds; split; intros; try discriminate; try reflexivity; lra. Qed.

Lemma tier_of_info (u : Q) : tier_of u = INFO <-> 50 <= u /\ u < 80.
Proof. by_thresholds; split; intros; try discriminate; try reflexivity; lra. Qed.

Lemma tier_of_ok (u : Q) : tier_of u = OK <-> u < 50.
Proof. by_thresholds; split; intros; try discriminate; try reflexivity; lra. Qed.

Lemma budget_nonzero (budget : Q) : ~ budget == 0 -> Qeq_bool budget 0 = false.
Proof.
  intros H. destruct (Qeq_bool budget 0) eqn:E; [|reflexivity].
  apply Qeq_bool_iff in E. contradiction.
Qed.

(** Below the critical tier the check returns a report of the tier the
    chain selects and leaves the configuration file alone. *)
Lemma check_budget_below_critical now spent remaining budget (w : world) :
  ~ budget == 0 ->
  tier_of (spent / budget * 100) <> CRITICAL ->
  exists r,
    check_budget now spent remaining budget w = (inr r, w)
    /\ reported_tier r = tier_of (spent / budget * 100)
    /\ utilization r = spent / budget * 100.
Proof.
  intros Hb Ht. unfold check_budget. rewrite (budget_nonzero _ Hb).
  destruct (tier_of (spent / budget * 100)) eqn:E; try congruence;
    eexists; (split; [reflexivity|split; reflexivity]).
Qed.

(** In the critical tier [update_config] stops on the unbound name. *)
Lemma check_budget_at_critical now spent remaining budget (w : world) :
  ~ budget == 0 ->
  tier_of (spent / budget * 100) = CRITICAL ->
  check_budget now spent remaining budget w = (inl (NameError "datetime"), w).
Proof.
  intros Hb Ht. unfold check_budget. rewrite (budget_nonzero _ Hb), Ht.
  reflexivity.
Qed.

(** C1 (as the code behaves): when [monthlySpend / budget >= 0.90] the
    budget check selects the critical branch, but [update_config] reads the
    name [datetime], which cost_guard.py never imports: the check raises
    [NameError], returns no report and leaves [scripts/config.json] as it
    was, so [force_local = true] is not persisted.  Below that ratio the
    check returns a report and the configuration is unchanged. *)
Theorem check_budget_force_local now spent remaining budget (w : world) :
  ~ budget == 0 ->
  (0.9 <= spent / budget ->
     check_budget now spent remaining budget w
     = (inl (NameError "datetime"), w))
  /\ (spent / budget < 0.9 ->
     exists r, check_budget now spent remaining budget w = (inr r, w)).
Proof.
  intros Hb. split; intros H.
  - apply check_budget_at_critical; [assumption|].
    apply tier_of_critical. set (ratio := spent / budget) in *. lra.
  - destruct (check_budget_below_critical now spent remaining budget w Hb)
      as (r & Hr & _).
    + intros Hc. apply tier_of_critical in Hc.
      set (ratio := spent / budget) in *. lra.
    + exists r. exact Hr.
Qed.

Lemma check_budget_force_local_witness :
  check_budget "2024-01-31T00:00:00" 45 5 50 None
  = (inl (NameError "datetime"), None)
  /\ exists r, check_budget "2024-01-31T00:00:00" 40 10 50 None = (inr r, None).
Proof.
  destruct (check_budget_force_local "2024-01-31T00:00:00" 45 5 50 None)
    as [Hc _]; [intros H; discriminate H|].
  destruct (check_budget_force_local "2024-01-31T00:00:00" 40 10 50 None)
    as [_ Hl]; [intros H; discriminate H|].
  split.
  - apply Hc. unfold Qle, Qdiv; simpl; lia.
  - apply Hl. unfold Qlt, Qdiv; simpl; lia.
Defined.

(** C2: with a positive budget, the chain of [check_budget] classifies
    [utilization = monthlySpend / budget * 100] as CRITICAL iff it is at
    least 90, WARNING iff it is in [80, 90), INFO iff it is in [50, 80) and
    OK otherwise; utilization exactly 80 is WARNING; and every report the
    check returns carries the tier so selected. *)
Theorem tier_classification now spent remaining budget (w : world) :
  0 < budget ->
  let u := spent / budget * 100 in
  (tier_of u = CRITICAL <-> 90 <= u)
  /\ (tier_of u = WARNING <-> 80 <= u /\ u < 90)
  /\ (tier_of u = INFO <-> 50 <= u /\ u < 80)
  /\ (tier_of u = OK <-> u < 50)
  /\ (u == 80 -> tier_of u = WARNING)
  /\ (forall r w',
        check_budget now spent remaining budget w = (inr r, w') ->
        reported_tier r = tier_of u)
  /\ (u < 90 ->
        exists r, check_budget now spent remaining budget w = (inr r, w)
                  /\ reported_tier r = tier_of u).
Proof.
  intros Hpos u.
  assert (Hb : ~ budget == 0) by (intros E; rewrite E in Hpos; lra).
  repeat split;
    try apply tier_of_critical; try apply tier_of_warning;
    try apply tier_of_info; try apply tier_of_ok; try tauto.
  - intros E. apply tier_of_warning. lra.
  - intros r w' Hrun.
    destruct (tier_of u) eqn:Et.
    1-3: destruct (check_budget_below_critical now spent remaining budget w Hb)
           as (r0 & Hr0 & Htier & _);
         [fold u; congruence
         |rewrite Hrun in Hr0; injection Hr0 as <- _; fold u in Htier; congruence].
    rewrite (check_budget_at_critical now spent remaining budget w Hb Et) in Hrun.
    discriminate.
  - intros Hlt.
    destruct (check_budget_below_critical now spent remaining budget w Hb)
      as (r & Hr & Htier & _).
    + fold u. intros Hc. apply tier_of_critical in Hc. lra.
    + exists r. split; assumption.
Qed.

Lemma tier_classification_witness :
  tier_of (40 / 50 * 100) = WARNING.
Proof.
  apply (tier_classification "2024-01-31T00:00:00" 40 10 50 None).
  - reflexivity.
  - reflexivity.
Defined.

End CostGuardFacts.

(** ** review_workflow.py: removing the metadata header *)

Module ReviewFacts.
Import PyStr PyStrFacts Review.

Lemma joined_length_cons (l : string) (ls : list string) :
  joined_length (l :: ls)
  = (String.length l
     + match ls with [] => 0 | _ => 1 + joined_length ls end)%nat.
Proof.
  unfold joined_length. destruct ls as [|l' ls].
  - unfold join_lines. simpl. lia.
  - rewrite join_lines_cons by discriminate.
    rewrite !length_append. reflexivity.
Qed.

Lemma clean_lines_nil (b : bool) (ls : list string) :
  ls = [] -> clean_lines b ls = [].
Proof. intros ->. reflexivity. Qed.

(** The loop only drops lines. *)
Lemma clean_lines_shorter (ls : list string) :
  forall b, (joined_length (clean_lines b ls) <= joined_length ls)%nat.
Proof.
  induction ls as [|l ls IH]; intros b; [reflexivity|].
  rewrite (joined_length_cons l ls). simpl.
  assert (Hdrop : forall b',
    (joined_length (clean_lines b' ls)
     <= String.length l + match ls with [] => 0 | _ => 1 + joined_length ls end)%nat).
  { intros b'. specialize (IH b').
    destruct ls; [unfold joined_length, join_lines in *; simpl in *|]; lia. }
  destruct ((l =? "---") && b); [apply Hdrop|].
  destruct b; [apply Hdrop|].
  rewrite joined_length_cons.
  destruct ls as [|l' ls]; [simpl; lia|].
  specialize (IH false). cbv zeta.
  destruct (clean_lines false (l' :: ls)); lia.
Qed.

(** A text that begins with the rule loses at least its first line. *)
Lemma remove_metadata_header_shorter (content : string) :
  startswith content "---" = true ->
  (String.length (remove_metadata_header content) < String.length content)%nat.
Proof.
  intros Hp. unfold remove_metadata_header. rewrite Hp.
  pose proof (length_strip
    (join_lines (clean_lines true (split_lines content)))) as Hstrip.
  enough (joined_length (clean_lines true (split_lines content))
          < String.length content)%nat by (unfold joined_length in *; lia).
  rewrite <- (join_split content) at 2. fold (joined_length (split_lines content)).
  unfold startswith in Hp. apply prefix_append in Hp as [rest ->].
  change ("---" ++ rest) with (String "-" (String "-" (String "-" rest))).
  cbn [split_lines]. change (Ascii.eqb "-" (ascii_of_nat 10)) with false. cbv iota.
  pose proof (split_lines_nonempty rest) as Hne.
  destruct (split_lines rest) as [|l ls]; [congruence|].
  rewrite joined_length_cons.
  assert (Hdrop : forall b,
    (joined_length (clean_lines b ls)
     < String.length (String "-" (String "-" (String "-" l)))
       + match ls with [] => 0 | _ => 1 + joined_length ls end)%nat).
  { intros b. pose proof (clean_lines_shorter ls b).
    destruct ls; [unfold joined_length, join_lines in *|]; simpl in *; lia. }
  cbn [clean_lines].
  destruct ((String "-" (String "-" (String "-" l)) =? "---") && true);
    apply Hdrop.
Qed.

(** The step is the identity on a text that does not begin with the rule. *)
Lemma remove_metadata_header_plain (content : string) :
  startswith content "---" = false -> remove_metadata_header content = content.
Proof. intros H. unfold remove_metadata_header. now rewrite H. Qed.

(** C9 (as the code behaves): a second application of the header-stripping
    step leaves the once-stripped text unchanged exactly when that text
    does not itself begin with ["---"]; content that does not begin with
    ["---"] passes through unchanged. *)
Theorem remove_metadata_header_twice (content : string) :
  (startswith content "---" = false -> remove_metadata_header content = content)
  /\ (remove_metadata_header (remove_metadata_header content)
      = remove_metadata_header content
      <-> startswith (remove_metadata_header content) "---" = false).
Proof.
  split; [apply remove_metadata_header_plain|].
  split.
  - intros Hfix.
    destruct (startswith (remove_metadata_header content) "---") eqn:E;
      [|reflexivity].
    apply remove_metadata_header_shorter in E. rewrite Hfix in E. lia.
  - apply remove_metadata_header_plain.
Qed.

Lemma remove_metadata_header_twice_witness :
  remove_metadata_header (remove_metadata_header ("---" ++ nl ++ "body"))
  = remove_metadata_header ("---" ++ nl ++ "body").
Proof.
  apply (remove_metadata_header_twice ("---" ++ nl ++ "body")).
  reflexivity.
Defined.

(** C9 as stated fails: stripping ["---\n---\nbody"] gives ["---\nbody"],
    and stripping that gives ["body"]. *)
Lemma remove_metadata_header_not_idempotent :
  let content := "---" ++ nl ++ "---" ++ nl ++ "body" in
  remove_metadata_header content = "---" ++ nl ++ "body"
  /\ remove_metadata_header (remove_metadata_header content) = "body"
  /\ remove_metadata_header (remove_metadata_header content)
     <> remove_metadata_header content.
Proof. repeat split. discriminate. Qed.

End ReviewFacts.

(** ** learning_system.py: extracting and applying patterns *)

Module LearningFacts.
Import PyStr PyStrFacts Learning.

(** What the loop over the diff keeps of a line of a unified diff: an
    added or removed line only when its text begins with a space, and
    then without that space. *)
Lemma change_of_render (l : Difflib.diff_line) :
  change_of (Difflib.render l)
  = match l with
    | Difflib.Removed (String " " rest) => [remove rest]
    | Difflib.Added (String " " rest) => [add rest]
    | _ => []
    end.
Proof.
  destruct l as [| |r1 r2|line|line|line]; try reflexivity.
  - unfold change_of, startswith, Difflib.render.
    change ("-" ++ line) with (String "-" line).
    rewrite !prefix_String. simpl (Ascii.eqb _ _). cbn [andb negb].
    destruct line as [|c line]; [reflexivity|].
    rewrite !prefix_String, !prefix_nil, andb_true_r.
    destruct (Ascii.eqb_spec " " c) as [<-|Hc].
    + reflexivity.
    + destruct c as [[] [] [] [] [] [] [] []]; try reflexivity; congruence.
  - unfold change_of, startswith, Difflib.render.
    change ("+" ++ line) with (String "+" line).
    rewrite !prefix_String. simpl (Ascii.eqb _ _). cbn [andb negb].
    destruct line as [|c line]; [reflexivity|].
    rewrite !prefix_String, !prefix_nil, andb_true_r.
    destruct (Ascii.eqb_spec " " c) as [<-|Hc].
    + reflexivity.
    + destruct c as [[] [] [] [] [] [] [] []]; try reflexivity; congruence.
Qed.

(** C3 (as the code behaves): for [original = "a"] and
    [revised = "a\nb"] the diff is one added line and no removed line,
    yet [extract_patterns] returns no pattern: the loop looks for lines
    that begin with ["+ "], and the unified diff prints the added line as
    ["+b"]. *)
Theorem extract_patterns_misses_addition :
  Difflib.unified_diff (split_lines "a") (split_lines ("a" ++ nl ++ "b"))
  = ["--- "; "+++ "; "@@ -1 +1,2 @@"; " a"; "+b"]
  /\ extract_patterns "a" ("a" ++ nl ++ "b") = [].
Proof. split; vm_compute; reflexivity. Qed.

Lemma same_but_count_refl (r : learning_pattern) : same_but_count r r.
Proof. unfold same_but_count. repeat split; lia. Qed.

Lemma same_but_count_trans (r1 r2 r3 : learning_pattern) :
  same_but_count r1 r2 -> same_but_count r2 r3 -> same_but_count r1 r3.
Proof.
  unfold same_but_count.
  intros (? & ? & ? & ? & ? & ? & ?) (? & ? & ? & ? & ? & ? & ?).
  repeat split; try congruence; lia.
Qed.

Lemma only_counts_grow_refl (s : store) : only_counts_grow s s.
Proof.
  split; [|reflexivity].
  induction (learning_patterns s); constructor;
    auto using same_but_count_refl.
Qed.

Lemma Forall2_same_but_count_trans (l1 l2 l3 : list learning_pattern) :
  Forall2 same_but_count l1 l2 -> Forall2 same_but_count l2 l3 ->
  Forall2 same_but_count l1 l3.
Proof.
  intros H12; revert l3; induction H12; intros l3 H23; inversion H23; subst;
    constructor; eauto using same_but_count_trans.
Qed.

Lemma only_counts_grow_trans (s1 s2 s3 : store) :
  only_counts_grow s1 s2 -> only_counts_grow s2 s3 -> only_counts_grow s1 s3.
Proof.
  intros [H12 I12] [H23 I23]. split; [|congruence].
  eauto using Forall2_same_but_count_trans.
Qed.

(** The UPDATE changes nothing but counters, and only upwards. *)
Lemma bump_only_counts_grow (p : pattern) (s : store) :
  only_counts_grow s (bump p s).
Proof.
  split; [|reflexivity]. unfold bump, set_patterns; simpl.
  induction (learning_patterns s) as [|r rows IH]; simpl; constructor; auto.
  destruct (pattern_eqb (correction r) p);
    [|apply same_but_count_refl].
  unfold same_but_count; simpl. repeat split; lia.
Qed.

Lemma flag_removals_only_counts_grow content p exs :
  forall acc, only_counts_grow (snd acc) (snd (flag_removals content p exs acc)).
Proof.
  induction exs as [|example rest IH]; intros acc; simpl.
  - apply only_counts_grow_refl.
  - eapply only_counts_grow_trans; [|apply IH].
    destruct (contains example content); simpl.
    + apply bump_only_counts_grow.
    + apply only_counts_grow_refl.
Qed.

(** One turn of the loop over a row that has an example to read. *)
Lemma apply_pattern_returns content r acc :
  (pattern_type r = "content_added" -> examples (correction r) <> []) ->
  exists acc', apply_pattern content r acc = inr acc'
               /\ only_counts_grow (snd acc) (snd acc').
Proof.
  intros Hwf. unfold apply_pattern.
  destruct (String.eqb (pattern_type r) "content_removed").
  { eexists; split; [reflexivity|apply flag_removals_only_counts_grow]. }
  destruct (String.eqb_spec (pattern_type r) "content_added") as [E|_].
  - specialize (Hwf E).
    destruct (examples (correction r)) as [|example rest]; [congruence|].
    destruct (negb (String.eqb example "") && negb (contains example content));
      eexists; (split; [reflexivity|]); simpl.
    + apply bump_only_counts_grow.
    + apply only_counts_grow_refl.
  - eexists; split; [reflexivity|apply only_counts_grow_refl].
Qed.

Lemma apply_patterns_returns content rows :
  Forall (fun r => pattern_type r = "content_added" ->
                   examples (correction r) <> []) rows ->
  forall acc,
  exists acc', apply_patterns content rows acc = inr acc'
               /\ only_counts_grow (snd acc) (snd acc').
Proof.
  induction 1 as [|r rows Hr _ IH]; intros acc; simpl.
  - exists acc. split; [reflexivity|apply only_counts_grow_refl].
  - destruct (apply_pattern_returns content r acc Hr) as (acc1 & -> & H1).
    destruct (IH acc1) as (acc2 & -> & H2).
    exists acc2. split; [reflexivity|].
    eauto using only_counts_grow_trans.
Qed.

Lemma In_insert_by_count r x sorted :
  In x (insert_by_count r sorted) -> x = r \/ In x sorted.
Proof.
  induction sorted as [|y rest IH]; simpl.
  - intros [<-|[]]; auto.
  - destruct (Z.ltb (applied_count y) (applied_count r)); simpl.
    + intros [<-|[<-|H]]; auto.
    + intros [<-|H]; auto. apply IH in H as [->|H]; auto.
Qed.

Lemma In_order_by_count_desc x rows :
  In x (order_by_count_desc rows) -> In x rows.
Proof.
  induction rows as [|r rows IH]; simpl; [auto|].
  intros H. apply In_insert_by_count in H as [->|H]; auto.
Qed.

Lemma In_firstn {A : Type} (n : nat) (x : A) (l : list A) :
  In x (firstn n l) -> In x l.
Proof.
  intros H. rewrite <- (firstn_skipn n l). apply in_or_app. now left.
Qed.

(** The SELECT only returns rows of the table. *)
Lemma select_patterns_subset content_type s r :
  In r (select_patterns content_type s) -> In r (learning_patterns s).
Proof.
  unfold select_patterns. intros H.
  apply In_firstn, In_order_by_count_desc, filter_In in H. tauto.
Qed.

(** C8: [apply_learnings] returns its argument text unchanged.  Whatever
    it returns is the input; and on a store whose addition patterns each
    carry an example (as [save_feedback] writes them) it does return, the
    rows of the store being the same up to larger [applied_count]s. *)
Theorem apply_learnings_returns_input new_content content_type (s : store) :
  (forall text flags s',
     apply_learnings new_content content_type s = (inr (text, flags), s') ->
     text = new_content)
  /\ (well_formed s ->
      exists flags s',
        apply_learnings new_content content_type s
        = (inr (new_content, flags), s')
        /\ only_counts_grow s s').
Proof.
  unfold apply_learnings. split.
  - intros text flags s'.
    destruct (apply_patterns new_content (select_patterns content_type s) ([], s))
      as [e|[flags0 s0]]; [discriminate|].
    intros H. now injection H as <- _ _.
  - intros Hwf.
    destruct (apply_patterns_returns new_content
                (select_patterns content_type s)) with (acc := (@nil flag, s))
      as ([flags s'] & -> & Hgrow).
    + apply Forall_forall. intros r Hr.
      apply Hwf. eapply select_patterns_subset; eassumption.
    + exists flags, s'. split; [reflexivity|exact Hgrow].
Qed.

Lemma apply_learnings_returns_input_witness :
  let removal :=
    {| p_type := "content_removed"; examples := ["TODO"]; count := 1%nat;
       hash := calculate_hash "TODO" |} in
  let s :=
    {| learning_patterns :=
         [{| lp_id := 1; pattern_type := "content_removed";
             context := "Doc type: technical_spec"; correction := removal;
             learned_from_doc_id := 7; created_at := "2024-01-01 12:00:00";
             applied_count := 0 |}];
       insights := [] |} in
  exists flags s',
    apply_learnings "Overview TODO" "technical" s
    = (inr ("Overview TODO", flags), s')
    /\ only_counts_grow s s'.
Proof.
  cbv zeta.
  refine (proj2 (apply_learnings_returns_input "Overview TODO" "technical" _) _).
  intros r [<-|[]] H. discriminate H.
Defined.

End LearningFacts.

(** ** api_server.py: reconciling a submitted review *)

Module ApiFacts.
Import PyStr Ledger Api.
Local Open Scope Z_scope.

Lemma latest_spec (init : option document) (r : document) :
  exists z, latest init r = Some z
    /\ (z = r \/ init = Some z)
    /\ doc_id r <= doc_id z
    /\ forall y, init = Some y -> doc_id y <= doc_id z.
Proof.
  destruct init as [y|]; simpl.
  - destruct (Z.ltb_spec (doc_id y) (doc_id r)).
    + exists r. repeat split; auto; try lia.
      intros y' Hy'; injection Hy' as <-; lia.
    + exists y. repeat split; auto; try lia.
      intros y' Hy'; injection Hy' as <-; lia.
  - exists r. repeat split; auto; try lia. discriminate.
Qed.

(** [ORDER BY id DESC LIMIT 1]: the fold keeps a row of largest id. *)
Lemma fold_latest_spec (rows : list document) :
  forall init,
  match fold_left latest rows init with
  | None => init = None /\ rows = []
  | Some x =>
      (init = Some x \/ In x rows)
      /\ (forall y, init = Some y \/ In y rows -> doc_id y <= doc_id x)
  end.
Proof.
  induction rows as [|r rows IH]; intros init; cbn [fold_left].
  - destruct init as [x|]; [|auto].
    split; [auto|]. intros y [Hy|[]]. injection Hy as ->. lia.
  - specialize (IH (latest init r)).
    destruct (latest_spec init r) as (z & Hz & Hzin & Hr & Hi).
    rewrite Hz in IH |- *.
    destruct (fold_left latest rows (Some z)) as [x|].
    + destruct IH as [Hin Hmax].
      assert (Hzx : doc_id z <= doc_id x) by (apply Hmax; auto).
      split.
      * destruct Hin as [Hin|Hin]; [injection Hin as <-|]; simpl; [|tauto].
        destruct Hzin as [->|Hzin]; auto.
      * intros y [Hy|[<-|Hy]].
        -- specialize (Hi y Hy). lia.
        -- lia.
        -- apply Hmax; auto.
    + destruct IH as [Hinit _]. discriminate.
Qed.

(** The query returns a matching row of largest id. *)
Lemma query_Some pattern docs x :
  query pattern docs = Some x ->
  In x docs /\ matches pattern x = true
  /\ forall y, In y docs -> matches pattern y = true -> doc_id y <= doc_id x.
Proof.
  unfold query. intros H.
  pose proof (fold_latest_spec (filter (matches pattern) docs) None) as S.
  rewrite H in S. destruct S as [[Hin|Hin] Hmax]; [discriminate|].
  apply filter_In in Hin as [Hin Hm]. repeat split; auto.
  intros y Hy Hmy. apply Hmax. right. apply filter_In. auto.
Qed.

(** The query returns nothing exactly when no row matches. *)
Lemma query_None pattern docs :
  query pattern docs = None <->
  forall y, In y docs -> matches pattern y = false.
Proof.
  unfold query.
  pose proof (fold_latest_spec (filter (matches pattern) docs) None) as S.
  split.
  - intros H y Hy. rewrite H in S. destruct S as [_ Hnil].
    destruct (matches pattern y) eqn:E; [|reflexivity].
    assert (In y (filter (matches pattern) docs)) as Hin
      by (apply filter_In; auto).
    rewrite Hnil in Hin. destruct Hin.
  - intros Hnone.
    destruct (fold_left latest (filter (matches pattern) docs) None) as [x|];
      [|reflexivity].
    destruct S as [[Hin|Hin] _]; [discriminate|].
    apply filter_In in Hin as [Hin Hm]. rewrite (Hnone x Hin) in Hm.
    discriminate.
Qed.

(** The loop over the candidates: the row it returns is the largest-id
    match of the first pattern that matches some row. *)
Lemma find_document_for_Some patterns docs x :
  find_document_for patterns docs = Some x ->
  exists before pattern after,
    patterns = (before ++ pattern :: after)%list
    /\ (forall p y, In p before -> In y docs -> matches p y = false)
    /\ In x docs /\ matches pattern x = true
    /\ forall y, In y docs -> matches pattern y = true -> doc_id y <= doc_id x.
Proof.
  induction patterns as [|p rest IH]; simpl; [discriminate|].
  destruct (query p docs) as [y|] eqn:Q.
  - intros H; injection H as ->.
    exists [], p, rest. split; [reflexivity|].
    split; [intros ? ? []|]. now apply query_Some.
  - intros H. destruct (IH H) as (before & pattern & after & -> & Hb & Hx).
    exists (p :: before), pattern, after. split; [reflexivity|].
    split; [|exact Hx].
    intros p' y [<-|Hp'] Hy; [|eauto].
    now apply (proj1 (query_None p docs) Q).
Qed.

Lemma find_document_for_None patterns docs :
  find_document_for patterns docs = None <->
  forall p y, In p patterns -> In y docs -> matches p y = false.
Proof.
  induction patterns as [|p rest IH]; simpl.
  - split; [intros _ ? ? []|reflexivity].
  - destruct (query p docs) as [x|] eqn:Q.
    + split; [discriminate|]. intros H.
      apply query_Some in Q as (Hin & Hm & _).
      rewrite (H p x (or_introl eq_refl) Hin) in Hm. discriminate.
    + rewrite IH. split.
      * intros H p' y [<-|Hp'] Hy; [|eauto].
        now apply (proj1 (query_None p docs) Q).
      * intros H p' y Hp' Hy. apply H; auto.
Qed.

(** The ledger after a request that passed the checks of the endpoint. *)
Lemma submit_review_ledger now env path summary reviewer flag d :
  file_exists env = true ->
  snd (submit_review true now env
         (Some {| filepath := Some path; changes_summary := Some summary;
                  reviewer_name := Some reviewer;
                  prepare_for_licensing := flag |}) d)
  = snd (reconcile now path (full_content env)
           match workflow_reviewed_path env with
           | Some p => p
           | None => "docs/review/" ++ ("reviewed_" ++ basename path)
           end d).
Proof.
  intros He. unfold submit_review. simpl. rewrite He. simpl.
  destruct (reconcile _ _ _ _ d) as [found d'].
  destruct flag; [destruct (licensing env _)|]; reflexivity.
Qed.

Lemma documents_record_review now text path found d :
  documents (record_review now text path found d)
  = map (fun x =>
           if Z.eqb (doc_id x) (doc_id found)
           then match path with
                | "" => with_review now text 300 0.8%Q x
                | _ => with_review_path path (with_review now text 300 0.8%Q x)
                end
           else x) (documents d).
Proof.
  unfold record_review.
  assert (Hact : forall d0,
    documents match doc_activity_id found with
              | Some activity_id =>
                  if Z.eqb activity_id 0 then d0
                  else update_activity activity_id (with_completion 300) d0
              | None => d0
              end = documents d0).
  { intros d0. destruct (doc_activity_id found) as [a|]; [|reflexivity].
    destruct (Z.eqb a 0); reflexivity. }
  destruct path as [|c path].
  - rewrite Hact. reflexivity.
  - unfold update_document_row at 1. unfold set_documents. simpl.
    rewrite Hact. simpl. rewrite map_map. apply map_ext. intros x.
    destruct (Z.eqb (doc_id x) (doc_id found)) eqn:E; simpl; now rewrite E.
Qed.

Lemma activities_record_review now text path found d :
  activities (record_review now text path found d)
  = match doc_activity_id found with
    | Some activity_id =>
        if Z.eqb activity_id 0 then activities d
        else map (fun a => if Z.eqb (act_id a) activity_id
                           then with_completion 300 a else a) (activities d)
    | None => activities d
    end.
Proof.
  unfold record_review.
  destruct path as [|c path]; destruct (doc_activity_id found) as [a|];
    try destruct (Z.eqb a 0); reflexivity.
Qed.

(** C10: a submission that reconciles to a document sets that document's
    [review_time_seconds] to 300 and [quality_score] to 0.8, and sets the
    owning activity's [human_time_seconds] to 300 and [status] to
    ['completed'], whatever the review content and the request carry. *)
Theorem submit_review_constants now env path summary reviewer flag d found :
  file_exists env = true ->
  find_document_for (search_patterns (basename path)) (documents d) = Some found ->
  let d' :=
    snd (submit_review true now env
           (Some {| filepath := Some path; changes_summary := Some summary;
                    reviewer_name := Some reviewer;
                    prepare_for_licensing := flag |}) d) in
  (exists x, In x (documents d') /\ doc_id x = doc_id found)
  /\ (forall x, In x (documents d') -> doc_id x = doc_id found ->
        review_time_seconds x = Some 300
        /\ quality_score x = Some 0.8%Q
        /\ final_content x = Some (full_content env))
  /\ (forall a, In a (activities d') ->
        doc_activity_id found = Some (act_id a) -> act_id a <> 0 ->
        human_time_seconds a = 300 /\ status a = "completed").
Proof.
  intros He Hfound d'. subst d'. rewrite submit_review_ledger by exact He.
  unfold reconcile. rewrite Hfound. simpl.
  set (rp := match workflow_reviewed_path env with
             | Some p => p | None => _ end).
  pose proof (find_document_for_Some _ _ _ Hfound)
    as (_ & _ & _ & _ & _ & Hin & _).
  split; [|split].
  - rewrite documents_record_review.
    eexists. split; [apply in_map; exact Hin|].
    rewrite Z.eqb_refl. destruct rp; reflexivity.
  - intros x Hx Hid. rewrite documents_record_review in Hx.
    apply in_map_iff in Hx as (x0 & <- & _).
    destruct (Z.eqb (doc_id x0) (doc_id found)) eqn:E.
    + destruct rp; simpl; auto.
    + apply Z.eqb_neq in E. contradiction.
  - intros a Ha Hown Hnz. rewrite activities_record_review, Hown in Ha.
    apply Z.eqb_neq in Hnz. rewrite Hnz in Ha.
    apply in_map_iff in Ha as (a0 & Ha0 & _).
    destruct (Z.eqb (act_id a0) (act_id a)) eqn:E.
    + subst a. simpl. auto.
    + subst a0. rewrite Z.eqb_refl in E. discriminate.
Qed.

Lemma submit_review_constants_witness :
  let d' :=
    snd (submit_review true "2024-01-02 09:00:00" Fixtures.plain_env
           (Some (Fixtures.review_of "docs/review/reviewed_technical_spec_7_20240101_120000.md"))
           Fixtures.ledger7) in
  (exists x, In x (documents d') /\ doc_id x = 7
     /\ review_time_seconds x = Some 300
     /\ quality_score x = Some 0.8%Q
     /\ final_content x = Some "reviewed text")
  /\ (exists a, In a (activities d') /\ act_id a = 7
       /\ human_time_seconds a = 300 /\ status a = "completed").
Proof.
  destruct (submit_review_constants "2024-01-02 09:00:00" Fixtures.plain_env
              "docs/review/reviewed_technical_spec_7_20240101_120000.md"
              "typos" "reviewer" false Fixtures.ledger7
              (Fixtures.draft 7 7 Fixtures.spec_name) eq_refl eq_refl)
    as ((x & Hin & Hid) & Hdoc & Hact).
  split.
  - exists x. destruct (Hdoc x Hin Hid) as (? & ? & ?). auto.
  - eexists. split; [left; reflexivity|]. split; [reflexivity|].
    apply Hact; [left; reflexivity|reflexivity|discriminate].
Defined.

(** C4 (as the code behaves): when no stored document matches any of the
    four candidate patterns, reconciliation finds nothing and raises
    nothing: the ledger is left as it was (the review text is not stored
    in it) and the endpoint answers as it does for a matched submission,
    with status ["success"], unless the licensing step that was asked for
    fails on its own. *)
Theorem submit_review_unmatched now env path summary reviewer flag d :
  file_exists env = true ->
  (forall p x, In p (search_patterns (basename path)) ->
               In x (documents d) -> matches p x = false) ->
  submit_review true now env
    (Some {| filepath := Some path; changes_summary := Some summary;
             reviewer_name := Some reviewer;
             prepare_for_licensing := flag |}) d
  = (answer env path flag, d).
Proof.
  intros He Hnone. apply find_document_for_None in Hnone.
  unfold submit_review, answer.
  cbn [negb filepath changes_summary reviewer_name prepare_for_licensing].
  rewrite He. cbn [negb]. unfold reconcile. rewrite Hnone.
  destruct flag; [destruct (licensing env _)|]; reflexivity.
Qed.

Lemma submit_review_unmatched_witness :
  submit_review true "2024-01-02 09:00:00" Fixtures.plain_env
    (Some (Fixtures.review_of "docs/review/reviewed_user_manual_9_20240202_101010.md"))
    Fixtures.ledger7
  = (answer Fixtures.plain_env
       "docs/review/reviewed_user_manual_9_20240202_101010.md" false,
     Fixtures.ledger7).
Proof.
  apply (submit_review_unmatched "2024-01-02 09:00:00" Fixtures.plain_env
           "docs/review/reviewed_user_manual_9_20240202_101010.md"
           "typos" "reviewer" false Fixtures.ledger7).
  - reflexivity.
  - intros p x Hp Hx. vm_compute in Hp, Hx.
    destruct Hx as [<-|[]].
    repeat (destruct Hp as [<-|Hp]; [vm_compute; reflexivity|]).
    destruct Hp.
Defined.

(** C4 as stated fails: the ledger holds one document, the submitted name
    matches it under none of the four patterns, and the endpoint answers
    with status ["success"] and no error. *)
Lemma submit_review_unmatched_is_success :
  find_document_for
    (search_patterns (basename "docs/review/reviewed_user_manual_9_20240202_101010.md"))
    (documents Fixtures.ledger7) = None
  /\ submit_review true "2024-01-02 09:00:00" Fixtures.plain_env
       (Some (Fixtures.review_of "docs/review/reviewed_user_manual_9_20240202_101010.md"))
       Fixtures.ledger7
     = (Reviewed {| r_status := "success";
                    r_reviewed_path :=
                      "docs/review/reviewed_reviewed_user_manual_9_20240202_101010.md";
                    r_licensing_path := None;
                    r_message := "Review submitted successfully" |},
        Fixtures.ledger7).
Proof. split; vm_compute; reflexivity. Qed.

(** What the query does guarantee: with a stored document of id 7 and
    filename ["technical_spec_7_20240101_120000.md"], the submission
    ["reviewed_technical_spec_7_20240101_120000.md"] resolves to document 7
    as long as no other document matches the LIKE pattern
    ["%technical_spec_7_20240101_120000.md%"] in either column, which asks
    more of the other documents than not to contain the name. *)
Theorem reconcile_resolves_document_7 (docs : list document) (d7 : document) :
  In d7 docs -> doc_id d7 = 7 -> filename d7 = Some Fixtures.spec_name ->
  (forall x, In x docs ->
     matches ("%" ++ Fixtures.spec_name ++ "%") x = true -> doc_id x = 7) ->
  exists found,
    find_document_for
      (search_patterns ("reviewed_" ++ Fixtures.spec_name)) docs = Some found
    /\ doc_id found = 7.
Proof.
  intros Hin Hid Hname Hothers.
  change (search_patterns ("reviewed_" ++ Fixtures.spec_name))
    with (("%" ++ Fixtures.spec_name ++ "%")
          :: tl (search_patterns ("reviewed_" ++ Fixtures.spec_name))).
  cbn [find_document_for].
  destruct (query ("%" ++ Fixtures.spec_name ++ "%") docs) as [x|] eqn:Q.
  - exists x. split; [reflexivity|].
    apply query_Some in Q as (Hx & Hm & _). auto.
  - pose proof (proj1 (query_None _ _) Q d7 Hin) as Hno.
    unfold matches in Hno. rewrite Hname in Hno.
    vm_compute in Hno. discriminate.
Qed.

Lemma reconcile_resolves_document_7_witness :
  exists found,
    find_document_for
      (search_patterns ("reviewed_" ++ Fixtures.spec_name))
      (documents Fixtures.ledger7) = Some found
    /\ doc_id found = 7.
Proof.
  apply (reconcile_resolves_document_7 (documents Fixtures.ledger7)
           (Fixtures.draft 7 7 Fixtures.spec_name)).
  - simpl. auto.
  - reflexivity.
  - reflexivity.
  - intros x Hx _. vm_compute in Hx. destruct Hx as [<-|[]]. reflexivity.
Defined.

(** C5, where the code misses it: the store holds document 7 with the
    filename ["technical_spec_7_20240101_120000.md"] and a document 8
    whose filename does not contain that name (its separators are
    hyphens) and whose review path is empty, so the submission
    ["reviewed_technical_spec_7_20240101_120000.md"] should resolve to
    document 7.  The search for names containing the submitted name binds
    it, unescaped, into a LIKE pattern, where ['_'] matches any character:
    document 8 matches as well and is selected for its higher id. *)
Lemma reconcile_like_is_not_containment :
  let other := Fixtures.draft 8 8 "technical-spec-7-20240101-120000.md" in
  let docs := [Fixtures.draft 7 7 Fixtures.spec_name; other] in
  contains Fixtures.spec_name "technical-spec-7-20240101-120000.md" = false
  /\ review_filepath other = None
  /\ option_map doc_id
       (find_document_for
          (search_patterns ("reviewed_" ++ Fixtures.spec_name)) docs)
     = Some 8.
Proof. repeat split; vm_compute; reflexivity. Qed.

End ApiFacts.

(** ** document_generator.py and activity_tracker.py: recording costs *)

Module CostFacts.
Import Ledger Generator CostOps.
Local Open Scope Z_scope.

Lemma ai_costs_log_cost now activity_id r d :
  ai_costs (log_cost_to_db now activity_id r d)
  = (ai_costs d ++ [
      {| cost_id := Sqlite.next_rowid (map cost_id (ai_costs d));
         cost_timestamp := now;
         provider := res_provider r;
         model := res_model r;
         tokens_used := tokens r;
         Ledger.cost := Generator.cost r;
         prompt_hash := None;
         cost_activity_id := activity_id |}])%list.
Proof. reflexivity. Qed.

Lemma activities_log_cost now activity_id r d :
  activities (log_cost_to_db now activity_id r d)
  = map (fun a => if Z.eqb (act_id a) activity_id
                  then with_cost (tokens r) (Generator.cost r) a else a)
        (activities d).
Proof. reflexivity. Qed.

Lemma run_ops_app ops1 ops2 d :
  run_ops (ops1 ++ ops2) d = run_ops ops2 (run_ops ops1 d).
Proof. apply fold_left_app. Qed.

(** Cost recording only appends to [ai_costs]. *)
Lemma run_ops_appends ops :
  forall d, exists added, ai_costs (run_ops ops d) = (ai_costs d ++ added)%list.
Proof.
  unfold run_ops.
  induction ops as [|op ops IH]; intros d; cbn [fold_left].
  - exists []. now rewrite app_nil_r.
  - destruct (IH (run_op d op)) as [added ->].
    destruct op as [now activity_id r|activity_id tk c pr]; cbn [run_op].
    + rewrite ai_costs_log_cost, <- app_assoc. eexists; reflexivity.
    + eexists; reflexivity.
Qed.

(** [log_cost_to_db] overwrites the cache with the record it appends. *)
Lemma log_cost_cache now activity_id r d a :
  In a (activities (log_cost_to_db now activity_id r d)) ->
  act_id a = activity_id ->
  ai_tokens_used a = tokens r /\ ai_cost a = Generator.cost r
  /\ status a = "generated".
Proof.
  rewrite activities_log_cost. intros Ha Hid.
  apply in_map_iff in Ha as (a0 & <- & _).
  destruct (Z.eqb (act_id a0) activity_id) eqn:E.
  - simpl. auto.
  - apply Z.eqb_neq in E. contradiction.
Qed.

Lemma records_of_log_cost now activity_id r d :
  records_of activity_id (log_cost_to_db now activity_id r d)
  = (records_of activity_id d ++ [
      {| cost_id := Sqlite.next_rowid (map cost_id (ai_costs d));
         cost_timestamp := now;
         provider := res_provider r;
         model := res_model r;
         tokens_used := tokens r;
         Ledger.cost := Generator.cost r;
         prompt_hash := None;
         cost_activity_id := activity_id |}])%list.
Proof.
  unfold records_of. rewrite ai_costs_log_cost, filter_app. simpl.
  now rewrite Z.eqb_refl.
Qed.

(** C6 (as the code behaves): cost recording only ever appends rows to
    [ai_costs], so no cost record is updated or deleted; each
    [log_cost_to_db] overwrites the activity's cached tokens and cost with
    those of the record it appends, so after it the cache equals the sum
    over the activity's records when the activity had no record before
    (as in [generate_docs], which logs one cost for a new activity), and
    equals the last record in any case. *)
Theorem cost_cache_is_last_record ops now activity_id r d :
  let before := run_ops ops d in
  let after := run_ops (ops ++ [LogCost now activity_id r]) d in
  (exists added, ai_costs after = (ai_costs d ++ added)%list)
  /\ (forall a, In a (activities after) -> act_id a = activity_id ->
        ai_tokens_used a = tokens r /\ ai_cost a = Generator.cost r)
  /\ (records_of activity_id before = [] -> cache_agrees activity_id after).
Proof.
  intros before after. subst before after. rewrite run_ops_app.
  change (run_ops [LogCost now activity_id r] (run_ops ops d))
    with (log_cost_to_db now activity_id r (run_ops ops d)).
  split; [|split].
  - destruct (run_ops_appends ops d) as [added Hadded].
    rewrite ai_costs_log_cost, Hadded, <- app_assoc. eexists; reflexivity.
  - intros a Ha Hid.
    destruct (log_cost_cache _ _ _ _ _ Ha Hid) as (? & ? & _). auto.
  - intros Hnone a Ha Hid.
    destruct (log_cost_cache _ _ _ _ _ Ha Hid) as (Ht & Hc & _).
    unfold recorded_tokens, recorded_cost.
    rewrite records_of_log_cost, Hnone. simpl. rewrite Ht, Hc.
    split; [lia|]. unfold sum_Q; simpl. symmetry. apply Qplus_0_r.
Qed.

Lemma cost_cache_is_last_record_witness :
  cache_agrees 1
    (run_ops ([] ++ [LogCost "2024-01-01 12:00:01" 1 Fixtures.simulated_result])
             Fixtures.fresh_ledger).
Proof.
  apply (cost_cache_is_last_record [] "2024-01-01 12:00:01" 1
           Fixtures.simulated_result Fixtures.fresh_ledger).
  reflexivity.
Defined.

(** C6 as stated fails: after two [log_cost_to_db] on the same activity
    the cache holds 800 tokens, the records sum to 1600; and after one
    [update_activity_cost] the cache holds 800 tokens with no record. *)
Lemma cost_cache_is_not_the_sum :
  let log := LogCost "2024-01-01 12:00:01" 1 Fixtures.simulated_result in
  let twice := run_ops [log; log] Fixtures.fresh_ledger in
  let updated :=
    run_ops [UpdateCost 1 800 0.0016%Q "openai"] Fixtures.fresh_ledger in
  map ai_tokens_used (activities twice) = [800]
  /\ recorded_tokens 1 twice = 1600
  /\ ~ cache_agrees 1 twice
  /\ map ai_tokens_used (activities updated) = [800]
  /\ recorded_tokens 1 updated = 0
  /\ ~ cache_agrees 1 updated.
Proof.
  cbv zeta.
  assert (Hrefute : forall d' n,
    map ai_tokens_used (activities d') = [800] ->
    map act_id (activities d') = [1] ->
    recorded_tokens 1 d' = n -> n <> 800 -> ~ cache_agrees 1 d').
  { intros d' n Htok Hid Hrec Hn Hagree.
    destruct (activities d') as [|a [|? ?]] eqn:E; try discriminate.
    injection Htok as Htok. injection Hid as Hid.
    destruct (Hagree a) as [Ht _]; [rewrite E; now left|exact Hid|].
    congruence. }
  repeat split; try (vm_compute; reflexivity).
  - apply (Hrefute _ 1600); try (vm_compute; reflexivity); lia.
  - apply (Hrefute _ 0); try (vm_compute; reflexivity); lia.
Qed.

End CostFacts.

(** ** api_server.py: generating a document *)

Module GenerateFacts.
Import PyStr Ledger Api.
Local Open Scope Z_scope.

(** Without a client, or when the upstream call raises, the generator
    returns the simulated result. *)
Lemma generate_document_fallback create_completion g minute now doc_type ctx features :
  (Generator.client g = false
   \/ forall m k c f, create_completion m k c f = Generator.ApiError) ->
  Generator.generate_document create_completion g minute now doc_type ctx features
  = Generator.generate_simulated g minute now (Generator.template_key doc_type) ctx.
Proof.
  intros [Hc|Hfail]; unfold Generator.generate_document.
  - now rewrite Hc.
  - rewrite Hfail. now destruct (Generator.client g).
Qed.

Section Pipeline.
Variable create_completion : string -> string -> string -> string -> Generator.completion.
Variables (g : Generator.generator) (t : clock) (data : generate_request).
Variables (ctx : string) (w : world).
Hypothesis Hctx : context data = Some ctx.

Let doc_type := get (req_doc_type data) "technical_spec".
Let aid := Sqlite.next_rowid (map act_id (activities (db_of w))).
Let did := Sqlite.next_rowid (map doc_id (documents (db_of w))).
Let res :=
  Generator.generate_document create_completion g (minute t) (iso_now t)
    doc_type ctx (features data).
Let run := generate_docs create_completion true g t (Some data) w.

(** The answer of a request that carries a context. *)
Lemma generate_docs_response :
  exists body,
    fst run = Generated body
    /\ g_activity_id body = aid
    /\ g_document_id body = did
    /\ g_content body = Generator.content res
    /\ g_tokens body = Generator.tokens res
    /\ g_cost body = Generator.cost res
    /\ g_provider body = Generator.res_provider res
    /\ g_openai_used body = String.eqb (Generator.res_provider res) "openai"
    /\ g_needs_review body = licensing_focus data
    /\ g_filename body
       = doc_type ++ "_" ++ str_of_Z aid ++ "_" ++ stamp t ++ ".md".
Proof.
  subst run. unfold generate_docs. rewrite Hctx. cbn [negb].
  destruct (licensing_focus data) eqn:E; eexists;
    (split; [reflexivity|]); cbn; rewrite ?E; repeat split; reflexivity.
Qed.

(** The activity table after the request: the new row, with the cost
    of the result written to it. *)
Lemma generate_docs_activities :
  activities (db_of (snd run))
  = map (fun a => if Z.eqb (act_id a) aid
                  then with_cost (Generator.tokens res) (Generator.cost res) a
                  else a)
    (activities (db_of w)
     ++ [{| act_id := aid; act_timestamp := sql_now t;
            activity_type := "documentation_generation";
            act_source := get (source data) "api";
            details :=
              [("doc_type", JStr doc_type);
               ("context_length", JInt (Z.of_nat (String.length ctx)));
               ("licensing_focus", JBool (licensing_focus data))];
            ai_tokens_used := 0; ai_cost := 0%Q;
            human_time_seconds := 0; status := "pending" |}])%list.
Proof.
  subst run. unfold generate_docs. rewrite Hctx. cbn [negb].
  destruct (licensing_focus data); reflexivity.
Qed.

(** The cost table after the request: one more record. *)
Lemma generate_docs_ai_costs :
  ai_costs (db_of (snd run))
  = (ai_costs (db_of w)
     ++ [{| cost_id := Sqlite.next_rowid (map cost_id (ai_costs (db_of w)));
            cost_timestamp := sql_now t;
            provider := Generator.res_provider res;
            model := Generator.res_model res;
            tokens_used := Generator.tokens res;
            Ledger.cost := Generator.cost res;
            prompt_hash := None;
            cost_activity_id := aid |}])%list.
Proof.
  subst run. unfold generate_docs. rewrite Hctx. cbn [negb].
  destruct (licensing_focus data); reflexivity.
Qed.

(** The document table after the request: one more row, and the review
    path written to the rows of its id when the draft was staged. *)
Lemma generate_docs_documents :
  documents (db_of (snd run))
  = map (fun x =>
           if licensing_focus data && Z.eqb (doc_id x) did
           then with_review_path
                  (("docs/review/" ++ doc_type ++ "_" ++ str_of_Z did
                    ++ "_" ++ review_stamp t) ++ ".md") x
           else x)
    (documents (db_of w)
     ++ [{| doc_id := did; doc_activity_id := Some aid;
            Ledger.doc_type := doc_type;
            draft_content := Some (Generator.content res);
            final_content := None;
            filename :=
              Some (doc_type ++ "_" ++ str_of_Z aid ++ "_" ++ stamp t
                    ++ ".md")%string;
            review_filepath := None; generated_at := sql_now t;
            reviewed_at := None; review_time_seconds := None;
            quality_score := None |}])%list.
Proof.
  subst run. unfold generate_docs. rewrite Hctx. cbn [negb].
  assert (Hname : forall s : string,
    match (doc_type ++ s)%string with
    | "" => (doc_type ++ s)%string
    | String c r => String c r
    end = (doc_type ++ s)%string)
    by (intros s; destruct (doc_type ++ s)%string; reflexivity).
  destruct (licensing_focus data).
  - cbn. unfold save_document. cbn. fold doc_type aid did res.
    rewrite Hname. reflexivity.
  - cbn. fold doc_type aid did res. rewrite Hname.
    rewrite map_id. reflexivity.
Qed.
End Pipeline.

(** C7 (as the code behaves): when the upstream call fails or no client
    is configured, [generate_docs] answers with the placeholder content
    and the provider ["simulated"]; the activity it created has status
    ['generated'], a cost record with provider ["simulated"] is logged,
    and a document holding the placeholder as its draft is stored all the
    same. *)
Theorem generate_docs_fallback create_completion g t data ctx (w : world) :
  context data = Some ctx ->
  (Generator.client g = false
   \/ forall m k c f, create_completion m k c f = Generator.ApiError) ->
  exists body w',
    generate_docs create_completion true g t (Some data) w = (Generated body, w')
    /\ g_provider body = "simulated"
    /\ g_openai_used body = false
    /\ g_content body
       = Generator.simulated_content
           (Generator.template_key (get (req_doc_type data) "technical_spec"))
           ctx (minute t)
    /\ (exists a, In a (activities (db_of w')) /\ act_id a = g_activity_id body)
    /\ (forall a, In a (activities (db_of w')) ->
          act_id a = g_activity_id body -> status a = "generated")
    /\ (exists c, In c (ai_costs (db_of w'))
          /\ cost_activity_id c = g_activity_id body
          /\ provider c = "simulated")
    /\ (exists x, In x (documents (db_of w'))
          /\ doc_id x = g_document_id body
          /\ doc_activity_id x = Some (g_activity_id body)
          /\ draft_content x = Some (g_content body))
    /\ List.length (documents (db_of w'))
       = S (List.length (documents (db_of w))).
Proof.
  intros Hctx Hfail.
  destruct (generate_docs_response create_completion g t data ctx w Hctx)
    as (body & Hbody & Haid & Hdid & Hcontent & _ & _ & Hprov & Hused & _).
  pose proof (generate_docs_activities create_completion g t data ctx w Hctx) as Hacts.
  pose proof (generate_docs_ai_costs create_completion g t data ctx w Hctx) as Hcosts.
  pose proof (generate_docs_documents create_completion g t data ctx w Hctx) as Hdocs.
  rewrite (generate_document_fallback _ _ _ _ _ _ _ Hfail) in *.
  destruct (generate_docs create_completion true g t (Some data) w)
    as [resp w'] eqn:Run.
  simpl in Hbody, Hacts, Hcosts, Hdocs. subst resp.
  exists body, w'. split; [reflexivity|].
  split; [exact Hprov|]. split; [rewrite Hused; reflexivity|].
  split; [exact Hcontent|].
  rewrite Hacts, Hcosts, Hdocs, Haid, Hdid. clear Hacts Hcosts Hdocs.
  split; [|split; [|split; [|split]]].
  - eexists. split.
    + apply in_map, in_or_app. right. left. reflexivity.
    + cbn [act_id]. rewrite Z.eqb_refl. reflexivity.
  - intros a Ha Hid. apply in_map_iff in Ha as (a0 & <- & _).
    destruct (Z.eqb (act_id a0) _) eqn:E; [reflexivity|].
    apply Z.eqb_neq in E. contradiction.
  - eexists. split; [apply in_or_app; right; left; reflexivity|].
    split; reflexivity.
  - eexists. split; [apply in_map, in_or_app; right; left; reflexivity|].
    cbn [doc_id]. rewrite Z.eqb_refl, Hcontent.
    destruct (licensing_focus data); repeat split; reflexivity.
  - rewrite length_map, length_app. simpl. lia.
Qed.

Lemma generate_docs_fallback_witness :
  exists body w',
    generate_docs (fun _ _ _ _ => Generator.ApiError) true
      (Generator.init (Some "sk-test") None)
      {| sql_now := "2024-01-01 12:00:00"; iso_now := "2024-01-01T12:00:00";
         minute := "2024-01-01 12:00"; stamp := "20240101_120000";
         review_stamp := "20240101_120000" |}
      (Some {| context := Some "a product"; source := None;
               req_doc_type := None; licensing_focus := false;
               features := None |})
      {| db_of := empty_db; files_of := [] |}
    = (Generated body, w')
    /\ g_provider body = "simulated"
    /\ List.length (documents (db_of w')) = 1%nat.
Proof.
  destruct (generate_docs_fallback (fun _ _ _ _ => Generator.ApiError)
              (Generator.init (Some "sk-test") None)
              {| sql_now := "2024-01-01 12:00:00"; iso_now := "2024-01-01T12:00:00";
                 minute := "2024-01-01 12:00"; stamp := "20240101_120000";
                 review_stamp := "20240101_120000" |}
              {| context := Some "a product"; source := None;
                 req_doc_type := None; licensing_focus := false;
                 features := None |}
              "a product" {| db_of := empty_db; files_of := [] |}
              eq_refl (or_intror (fun _ _ _ _ => eq_refl)))
    as (body & w' & Hrun & Hprov & _ & _ & _ & _ & _ & _ & Hlen).
  exists body, w'. auto.
Defined.

(** C7 as stated fails: with no client configured the request stores a
    document, whose draft is the placeholder text. *)
Lemma generate_docs_fallback_stores_document :
  let run :=
    generate_docs (fun _ _ _ _ => Generator.ApiError) true
      (Generator.init None None)
      {| sql_now := "2024-01-01 12:00:00"; iso_now := "2024-01-01T12:00:00";
         minute := "2024-01-01 12:00"; stamp := "20240101_120000";
         review_stamp := "20240101_120000" |}
      (Some {| context := Some "a product"; source := None;
               req_doc_type := None; licensing_focus := false;
               features := None |})
      {| db_of := empty_db; files_of := [] |} in
  map doc_id (documents (db_of (snd run))) = [1]
  /\ map draft_content (documents (db_of (snd run)))
     = [Some (Generator.simulated_content "technical_spec" "a product"
                "2024-01-01 12:00")]
  /\ map filename (documents (db_of (snd run)))
     = [Some "technical_spec_1_20240101_120000.md"].
Proof. repeat split; vm_compute; reflexivity. Qed.

End GenerateFacts.

(** ** SQLite's LIKE against substring containment *)

Module LikeFacts.
Import PyStr PyStrFacts Sqlite.

(** A leading ['%'] tries the rest of the pattern at every position. *)
Lemma like_percent (p s : string) :
  like (String "%" p) s
  = like p s || match s with
                | "" => false
                | String _ s' => like (String "%" p) s'
                end.
Proof. destruct s; reflexivity. Qed.

Lemma like_percent_all (s : string) : like "%" s = true.
Proof.
  induction s as [|c s IH]; [reflexivity|].
  rewrite like_percent, IH. apply orb_true_r.
Qed.

Lemma like_char (a b : ascii) (p s : string) :
  Ascii.eqb a "%" = false ->
  like (String a p) (String b s)
  = (Ascii.eqb a "_" || Ascii.eqb (to_lower a) (to_lower b)) && like p s.
Proof. intros H. cbn [like]. now rewrite H. Qed.

(** A text that begins with [name] matches the pattern [name%]: every
    character of the name, wildcard or not, matches itself. *)
Lemma like_prefix (name : string) :
  forall s, prefix name s = true -> like (name ++ "%") s = true.
Proof.
  induction name as [|a name IH]; intros s Hs.
  - apply like_percent_all.
  - destruct s as [|b s]; [discriminate|].
    rewrite prefix_String in Hs. apply andb_true_iff in Hs as [Hab Hs].
    apply Ascii.eqb_eq in Hab as <-. specialize (IH s Hs).
    change (String a name ++ "%") with (String a (name ++ "%")).
    destruct (Ascii.eqb a "%") eqn:E.
    + apply Ascii.eqb_eq in E as ->.
      rewrite like_percent. apply orb_true_iff. right.
      rewrite like_percent, IH. reflexivity.
    + rewrite like_char by exact E.
      rewrite Ascii.eqb_refl, orb_true_r, IH. reflexivity.
Qed.

(** Whatever contains the name matches [%name%]. *)
Lemma like_contains (name s : string) :
  contains name s = true -> like ("%" ++ name ++ "%") s = true.
Proof.
  change ("%" ++ name ++ "%") with (String "%" (name ++ "%")).
  induction s as [|c s IH]; cbn [contains]; rewrite like_percent.
  - rewrite orb_false_r. intros H. now rewrite (like_prefix name "" H).
  - intros H. apply orb_true_iff in H as [H|H].
    + now rewrite (like_prefix name _ H).
    + rewrite (IH H). apply orb_true_r.
Qed.

Lemma contains_append (pre s post : string) : contains s (pre ++ s ++ post) = true.
Proof.
  induction pre as [|c pre IH].
  - assert (prefix s (s ++ post) = true) as H
      by (apply prefix_append; now exists post).
    cbn [append]. destruct (s ++ post); cbn [contains]; now rewrite H.
  - change (String c pre ++ s ++ post) with (String c (pre ++ s ++ post)).
    cbn [contains]. rewrite IH. apply orb_true_r.
Qed.

(** The LIKE search is at least as permissive as containment: a column
    that contains the name is matched by the pattern [%name%], whatever
    characters the name holds. *)
Theorem like_covers_containment (name : string) (col : option string) :
  (exists s, col = Some s /\ contains name s = true) ->
  like_column ("%" ++ name ++ "%") col = true.
Proof. intros (s & -> & H). now apply like_contains. Qed.

Lemma like_covers_containment_witness :
  like_column ("%" ++ "spec_7" ++ "%") (Some "technical_spec_7.md") = true.
Proof.
  apply (like_covers_containment "spec_7" (Some "technical_spec_7.md")).
  exists "technical_spec_7.md". split; reflexivity.
Defined.

End LikeFacts.

(** ** api_server.py: what a review submission does to the ledger *)

Module SubmitFacts.
Import PyStr PyStrFacts Ledger Api ApiFacts.
Local Open Scope Z_scope.

Lemma Forall2_map_same {A : Type} (R : A -> A -> Prop) (f : A -> A) (l : list A) :
  (forall x, R x (f x)) -> Forall2 R l (map f l).
Proof. intros H. induction l; simpl; constructor; auto. Qed.

Lemma Forall2_diag {A : Type} (R : A -> A -> Prop) (l : list A) :
  (forall x, R x x) -> Forall2 R l l.
Proof. intros H. induction l; constructor; auto. Qed.

Lemma same_draft_refl (x : document) : same_draft x x.
Proof. unfold same_draft. tauto. Qed.

Lemma same_cost_refl (a : activity) : same_cost a a.
Proof. unfold same_cost. tauto. Qed.

(** The three UPDATE statements keep every row, and keep of every row the
    columns that generation wrote. *)
Lemma record_review_frame now text path found d :
  Forall2 same_draft (documents d)
    (documents (record_review now text path found d))
  /\ Forall2 same_cost (activities d)
       (activities (record_review now text path found d))
  /\ ai_costs (record_review now text path found d) = ai_costs d.
Proof.
  rewrite documents_record_review, activities_record_review.
  split; [|split].
  - apply Forall2_map_same. intros x.
    destruct (Z.eqb (doc_id x) (doc_id found)); [|apply same_draft_refl].
    destruct path; unfold same_draft; simpl; tauto.
  - destruct (doc_activity_id found) as [aid|].
    + destruct (Z.eqb aid 0).
      * apply Forall2_diag, same_cost_refl.
      * apply Forall2_map_same. intros a.
        destruct (Z.eqb (act_id a) aid); [|apply same_cost_refl].
        unfold same_cost; simpl; tauto.
    + apply Forall2_diag, same_cost_refl.
  - unfold record_review.
    destruct path; destruct (doc_activity_id found) as [aid|];
      try destruct (Z.eqb aid 0); reflexivity.
Qed.

(** Rows of another id are left exactly as they were. *)
Lemma record_review_other_documents now text path found d x :
  In x (documents d) -> doc_id x <> doc_id found ->
  In x (documents (record_review now text path found d)).
Proof.
  intros Hin Hid. rewrite documents_record_review.
  apply in_map_iff. exists x. split; [|exact Hin].
  apply Z.eqb_neq in Hid. now rewrite Hid.
Qed.

(** A review submission rewrites no draft: whatever the request, every
    document keeps its id, owner, type, draft text, filename and
    generation time, every activity keeps its id, type, source, details
    and logged cost, no row is added or removed, and the cost records are
    untouched. *)
Theorem submit_review_frame avail now env data d :
  let d' := snd (submit_review avail now env data d) in
  Forall2 same_draft (documents d) (documents d')
  /\ Forall2 same_cost (activities d) (activities d')
  /\ ai_costs d' = ai_costs d.
Proof.
  assert (Hsame : Forall2 same_draft (documents d) (documents d)
                  /\ Forall2 same_cost (activities d) (activities d)
                  /\ ai_costs d = ai_costs d).
  { split; [|split; [|reflexivity]].
    - apply Forall2_diag, same_draft_refl.
    - apply Forall2_diag, same_cost_refl. }
  cbv zeta. unfold submit_review.
  destruct avail; cbn [negb]; [|exact Hsame].
  destruct data as [data|]; [|exact Hsame].
  destruct (filepath data) as [path|]; [|exact Hsame].
  destruct (changes_summary data); [|exact Hsame].
  destruct (reviewer_name data); [|exact Hsame].
  destruct (file_exists env); cbn [negb]; [|exact Hsame].
  unfold reconcile.
  destruct (find_document_for _ _) as [found|].
  - destruct (prepare_for_licensing data); [destruct (licensing env _)|];
      cbn [snd]; apply record_review_frame.
  - destruct (prepare_for_licensing data); [destruct (licensing env _)|];
      exact Hsame.
Qed.

(** The ledger is written only by a request that passed every check: the
    workflow is available, the three required fields are present and the
    submitted file exists. *)
Theorem submit_review_writes_only_after_checks avail now env data d :
  snd (submit_review avail now env data d) <> d ->
  avail = true /\ file_exists env = true
  /\ exists r path summary reviewer,
       data = Some r /\ filepath r = Some path
       /\ changes_summary r = Some summary /\ reviewer_name r = Some reviewer.
Proof.
  unfold submit_review.
  destruct avail; cbn [negb]; [|intros H; now contradiction H].
  destruct data as [data|]; [|intros H; now contradiction H].
  destruct (filepath data) as [path|] eqn:Ep; [|intros H; now contradiction H].
  destruct (changes_summary data) as [summary|] eqn:Es;
    [|intros H; now contradiction H].
  destruct (reviewer_name data) as [reviewer|] eqn:Er;
    [|intros H; now contradiction H].
  destruct (file_exists env); cbn [negb]; [|intros H; now contradiction H].
  intros _. repeat split. exists data, path, summary, reviewer. auto.
Qed.

Lemma submit_review_writes_only_after_checks_witness :
  file_exists Fixtures.plain_env = true.
Proof.
  refine (proj1 (proj2 (submit_review_writes_only_after_checks true
            "2024-01-02 09:00:00" Fixtures.plain_env
            (Some (Fixtures.review_of
                     "docs/review/reviewed_technical_spec_7_20240101_120000.md"))
            Fixtures.ledger7 _))).
  vm_compute. discriminate.
Defined.

(** A licensing step that fails after reconciliation still leaves the
    review recorded: the endpoint answers 500 with the error, and the
    matched document already holds the submitted text. *)
Theorem submit_review_licensing_failure now env path summary reviewer d found error :
  file_exists env = true ->
  find_document_for (search_patterns (basename path)) (documents d) = Some found ->
  licensing env match workflow_reviewed_path env with
                | Some p => p
                | None => "docs/review/" ++ ("reviewed_" ++ basename path)
                end = inl error ->
  let run :=
    submit_review true now env
      (Some {| filepath := Some path; changes_summary := Some summary;
               reviewer_name := Some reviewer;
               prepare_for_licensing := true |}) d in
  fst run = Failure 500 error
  /\ forall x, In x (documents (snd run)) -> doc_id x = doc_id found ->
       final_content x = Some (full_content env).
Proof.
  intros He Hfound Hlic run. subst run. unfold submit_review.
  cbn [negb filepath changes_summary reviewer_name prepare_for_licensing].
  rewrite He. cbn [negb]. unfold reconcile. rewrite Hfound, Hlic. cbn [fst snd].
  split; [reflexivity|].
  intros x Hx Hid. rewrite documents_record_review in Hx.
  apply in_map_iff in Hx as (x0 & <- & _).
  destruct (Z.eqb (doc_id x0) (doc_id found)) eqn:E.
  - destruct (match workflow_reviewed_path env with Some p => p | None => _ end);
      reflexivity.
  - apply Z.eqb_neq in E. contradiction.
Qed.

Lemma submit_review_licensing_failure_witness :
  let env :=
    {| file_exists := true; full_content := "reviewed text";
       workflow_reviewed_path := None;
       licensing := fun path => inl "[Errno 2] No such file or directory" |} in
  fst (submit_review true "2024-01-02 09:00:00" env
         (Some {| filepath := Some "docs/review/technical_spec_7_20240101_120000.md";
                  changes_summary := Some "typos";
                  reviewer_name := Some "reviewer";
                  prepare_for_licensing := true |}) Fixtures.ledger7)
  = Failure 500 "[Errno 2] No such file or directory".
Proof.
  cbv zeta.
  refine (proj1 (submit_review_licensing_failure "2024-01-02 09:00:00"
            {| file_exists := true; full_content := "reviewed text";
               workflow_reviewed_path := None;
               licensing := fun path => inl "[Errno 2] No such file or directory" |}
            "docs/review/technical_spec_7_20240101_120000.md" "typos" "reviewer"
            Fixtures.ledger7 (Fixtures.draft 7 7 Fixtures.spec_name)
            "[Errno 2] No such file or directory" eq_refl eq_refl eq_refl)).
Defined.

(** Reconciliation returns, for the first candidate pattern that any
    document matches, the matching document of the highest id; it returns
    none exactly when no document matches any candidate. *)
Theorem reconcile_selects_latest_match now path text reviewed_path d :
  match fst (reconcile now path text reviewed_path d) with
  | Some found =>
      exists before pattern after,
        search_patterns (basename path) = (before ++ pattern :: after)%list
        /\ (forall p y, In p before -> In y (documents d) -> matches p y = false)
        /\ In found (documents d) /\ matches pattern found = true
        /\ forall y, In y (documents d) -> matches pattern y = true ->
             doc_id y <= doc_id found
  | None =>
      forall p y, In p (search_patterns (basename path)) ->
        In y (documents d) -> matches p y = false
  end.
Proof.
  unfold reconcile.
  destruct (find_document_for (search_patterns (basename path)) (documents d))
    as [found|] eqn:E; cbn [fst].
  - now apply find_document_for_Some.
  - now apply find_document_for_None.
Qed.

(** Both prefixes are stripped when they follow each other: a file named
    [review_reviewed_x] is searched under the name [x]. *)
Theorem search_patterns_strips_both_prefixes (x : string) :
  search_patterns ("review_reviewed_" ++ x)
  = ["%" ++ x ++ "%";
     "%" ++ ("review_reviewed_" ++ x) ++ "%";
     "%" ++ replace "reviewed_" "" x ++ "%";
     "%" ++ replace "review_" "" x ++ "%"].
Proof.
  unfold search_patterns, startswith.
  assert (H1 : prefix "review_" ("review_reviewed_" ++ x) = true)
    by (apply prefix_append; now exists ("reviewed_" ++ x)).
  rewrite H1. cbn [drop append].
  assert (H2 : prefix "reviewed_" ("reviewed_" ++ x) = true)
    by (apply prefix_append; now exists x).
  change (String "r" (String "e" (String "v" (String "i" (String "e"
            (String "w" (String "e" (String "d" (String "_" x)))))))))
    with ("reviewed_" ++ x).
  rewrite H2. reflexivity.
Qed.

End SubmitFacts.

(** ** api_server.py: from generation to a completed review *)

Module EndToEndFacts.
Import PyStr PyStrFacts Ledger Api ApiFacts GenerateFacts.
Local Open Scope Z_scope.

(** A fresh rowid is larger than every rowid present, and positive. *)
Lemma next_rowid_above (ids : list Z) (id : Z) :
  In id ids -> id < Sqlite.next_rowid ids.
Proof.
  unfold Sqlite.next_rowid. induction ids as [|x ids IH]; [intros []|].
  simpl. intros [->|H]; [lia|]. specialize (IH H). lia.
Qed.

Lemma next_rowid_positive (ids : list Z) : 0 < Sqlite.next_rowid ids.
Proof.
  unfold Sqlite.next_rowid. induction ids as [|x ids IH]; simpl; lia.
Qed.

Lemma basename_suffix (p : string) : exists pre, p = pre ++ basename p.
Proof.
  induction p as [|c p IH]; [now exists ""|].
  cbn [basename]. destruct (has_slash p).
  - destruct IH as [pre Hpre]. exists (String c pre). cbn. now rewrite <- Hpre.
  - destruct (Ascii.eqb c "/").
    + now exists (String c "").
    + now exists "".
Qed.

Lemma drop_suffix (n : nat) (s : string) : exists pre, s = pre ++ drop n s.
Proof.
  revert s; induction n as [|n IH]; intros s; [now exists ""|].
  destruct s as [|c s]; [now exists ""|].
  destruct (IH s) as [pre Hpre]. exists (String c pre). cbn. now rewrite <- Hpre.
Qed.

(** The first candidate of the search is [%name%] for a name the submitted
    path ends with. *)
Lemma first_pattern_suffix (path : string) :
  exists pre name rest,
    path = pre ++ name
    /\ search_patterns (basename path) = ("%" ++ name ++ "%") :: rest.
Proof.
  destruct (basename_suffix path) as [pre0 Hpre0].
  unfold search_patterns.
  set (base := basename path) in *.
  set (s1 := if startswith base "review_" then drop 7 base else base).
  set (s2 := if startswith s1 "reviewed_" then drop 9 s1 else s1).
  assert (H1 : exists pre1, base = pre1 ++ s1).
  { subst s1. destruct (startswith base "review_");
      [apply drop_suffix|now exists ""]. }
  assert (H2 : exists pre2, s1 = pre2 ++ s2).
  { subst s2. destruct (startswith s1 "reviewed_");
      [apply drop_suffix|now exists ""]. }
  destruct H1 as [pre1 H1], H2 as [pre2 H2].
  exists (pre0 ++ pre1 ++ pre2), s2. eexists. split; [|reflexivity].
  rewrite Hpre0 at 1. rewrite H1, H2. now rewrite !append_assoc.
Qed.

(** A document whose review path is the submitted path is a match of the
    first candidate. *)
Lemma submitted_path_matches (path : string) (x : document) :
  review_filepath x = Some path ->
  exists pattern rest,
    search_patterns (basename path) = pattern :: rest
    /\ matches pattern x = true.
Proof.
  intros Hx. destruct (first_pattern_suffix path) as (pre & name & rest & Hp & Hs).
  exists ("%" ++ name ++ "%"), rest. split; [exact Hs|].
  unfold matches. rewrite Hx. apply orb_true_iff. right.
  apply LikeFacts.like_contains. rewrite Hp.
  rewrite <- (append_nil_r name) at 2. apply LikeFacts.contains_append.
Qed.

(** When the newest document is a match of the first candidate, it is the
    one reconciliation returns. *)
Lemma find_document_for_newest pattern rest docs x :
  In x docs -> matches pattern x = true ->
  (forall y, In y docs -> doc_id y <= doc_id x) ->
  exists found,
    find_document_for (pattern :: rest) docs = Some found
    /\ In found docs /\ doc_id found = doc_id x.
Proof.
  intros Hin Hm Hmax. cbn [find_document_for].
  destruct (query pattern docs) as [found|] eqn:Q.
  - apply query_Some in Q as (Hf & _ & Hbest).
    exists found. repeat split; auto.
    specialize (Hbest x Hin Hm). specialize (Hmax found Hf). lia.
  - rewrite (proj1 (query_None _ _) Q x Hin) in Hm. discriminate.
Qed.

Section Round.
Variable create_completion : string -> string -> string -> string -> Generator.completion.
Variables (g : Generator.generator) (t : clock) (data : generate_request).
Variables (ctx : string) (w : world).
Hypothesis Hctx : context data = Some ctx.
Hypothesis Hfocus : licensing_focus data = true.

Let doc_type := get (req_doc_type data) "technical_spec".
Let aid := Sqlite.next_rowid (map act_id (activities (db_of w))).
Let did := Sqlite.next_rowid (map doc_id (documents (db_of w))).
Let res :=
  Generator.generate_document create_completion g (minute t) (iso_now t)
    doc_type ctx (features data).
Let run := generate_docs create_completion true g t (Some data) w.
Let review_path :=
  ("docs/review/" ++ doc_type ++ "_" ++ str_of_Z did ++ "_" ++ review_stamp t)
  ++ ".md".

(** The answer names the file the draft was staged in. *)
Lemma generate_docs_review_path :
  exists body, fst run = Generated body /\ g_review_path body = Some review_path.
Proof.
  subst run. unfold generate_docs. rewrite Hctx, Hfocus. cbn [negb].
  eexists. split; reflexivity.
Qed.

(** The rows of the new document's id after a staged generation. *)
Lemma staged_document_rows x :
  In x (documents (db_of (snd run))) ->
  doc_id x <= did
  /\ (doc_id x = did ->
      doc_activity_id x = Some aid
      /\ draft_content x = Some (Generator.content res)
      /\ review_filepath x = Some review_path).
Proof.
  subst run. rewrite (generate_docs_documents _ _ _ _ _ _ Hctx), Hfocus.
  fold doc_type aid did res review_path. cbn [andb].
  intros Hx. apply in_map_iff in Hx as (x0 & <- & Hx0).
  apply in_app_iff in Hx0 as [Hold|[<-|[]]].
  - assert (doc_id x0 < did) as Hlt
      by (apply next_rowid_above, in_map, Hold).
    destruct (Z.eqb_spec (doc_id x0) did); [lia|]. split; [lia|]. lia.
  - cbn [doc_id]. rewrite Z.eqb_refl. cbn. split; [lia|]. auto.
Qed.

Lemma staged_document_present :
  exists x, In x (documents (db_of (snd run))) /\ doc_id x = did
            /\ review_filepath x = Some review_path.
Proof.
  subst run. rewrite (generate_docs_documents _ _ _ _ _ _ Hctx), Hfocus.
  fold doc_type aid did res review_path. cbn [andb].
  eexists. split; [apply in_map, in_or_app; right; left; reflexivity|].
  cbn [doc_id]. rewrite Z.eqb_refl. split; reflexivity.
Qed.

(** The rows of the new activity's id after the generation. *)
Lemma generated_activity_rows a :
  In a (activities (db_of (snd run))) -> act_id a = aid ->
  status a = "generated"
  /\ ai_tokens_used a = Generator.tokens res
  /\ ai_cost a = Generator.cost res.
Proof.
  subst run. rewrite (generate_docs_activities _ _ _ _ _ _ Hctx).
  fold doc_type aid did res.
  intros Ha Hid. apply in_map_iff in Ha as (a0 & <- & _).
  destruct (Z.eqb (act_id a0) aid) eqn:E; [cbn; auto|].
  apply Z.eqb_neq in E. contradiction.
Qed.

Lemma generated_activity_present :
  exists a, In a (activities (db_of (snd run))) /\ act_id a = aid.
Proof.
  subst run. rewrite (generate_docs_activities _ _ _ _ _ _ Hctx).
  fold doc_type aid did res.
  eexists. split; [apply in_map, in_or_app; right; left; reflexivity|].
  cbn [act_id]. now rewrite Z.eqb_refl.
Qed.

(** End to end: a draft generated with [licensing_focus] and then
    submitted under the review path the answer names is reconciled to the
    document just created, however many documents the ledger already
    holds.  The activity goes from ['generated'] to ['completed'] and keeps
    the logged tokens and cost; the document keeps its draft and receives
    the submitted text with the fixed review time. *)
Theorem generate_then_submit now env summary reviewer flag :
  file_exists env = true ->
  exists body,
    fst run = Generated body
    /\ g_review_path body = Some review_path
    /\ (forall a, In a (activities (db_of (snd run))) ->
          act_id a = g_activity_id body -> status a = "generated")
    /\ let d2 :=
         snd (submit_review true now env
                (Some {| filepath := Some review_path;
                         changes_summary := Some summary;
                         reviewer_name := Some reviewer;
                         prepare_for_licensing := flag |})
                (db_of (snd run))) in
       (exists x, In x (documents d2) /\ doc_id x = g_document_id body)
       /\ (forall x, In x (documents d2) -> doc_id x = g_document_id body ->
             draft_content x = Some (g_content body)
             /\ final_content x = Some (full_content env)
             /\ review_time_seconds x = Some 300)
       /\ (exists a, In a (activities d2) /\ act_id a = g_activity_id body)
       /\ (forall a, In a (activities d2) -> act_id a = g_activity_id body ->
             status a = "completed"
             /\ human_time_seconds a = 300
             /\ ai_tokens_used a = g_tokens body
             /\ ai_cost a = g_cost body).
Proof.
  intros He.
  destruct (generate_docs_response create_completion g t data ctx w Hctx)
    as (body & Hbody & Haid & Hdid & Hcontent & Htokens & Hcost & _).
  destruct generate_docs_review_path as (body' & Hbody' & Hpath).
  fold run in Hbody. rewrite Hbody in Hbody'. injection Hbody' as <-.
  fold doc_type aid did res in Haid, Hdid, Hcontent, Htokens, Hcost.
  exists body. split; [exact Hbody|]. split; [exact Hpath|].
  split.
  { intros a Ha Hid. rewrite Haid in Hid.
    now destruct (generated_activity_rows a Ha Hid). }
  cbv zeta. rewrite submit_review_ledger by exact He.
  set (rp := match workflow_reviewed_path env with Some p => p | None => _ end).
  unfold reconcile.
  destruct staged_document_present as (x1 & Hx1 & Hx1id & Hx1path).
  destruct (submitted_path_matches review_path x1 Hx1path)
    as (pattern & rest & Hpatterns & Hmatch).
  destruct (find_document_for_newest pattern rest _ x1 Hx1 Hmatch)
    as (found & Hfound & Hfin & Hfid).
  { intros y Hy. rewrite Hx1id. now destruct (staged_document_rows y Hy). }
  rewrite Hpatterns, Hfound. cbn [snd].
  rewrite Hx1id in Hfid.
  destruct (staged_document_rows found Hfin) as (_ & Hrows).
  destruct (Hrows Hfid) as (Hown & _ & _).
  rewrite documents_record_review, activities_record_review, Hown, Hfid.
  assert (Hnz : Z.eqb aid 0 = false)
    by (apply Z.eqb_neq; pose proof (next_rowid_positive
          (map act_id (activities (db_of w)))); subst aid; lia).
  rewrite Hnz, Hdid, Haid, Hcontent, Htokens, Hcost.
  split; [|split; [|split]].
  - eexists. split; [apply in_map; exact Hx1|].
    rewrite Hx1id, Z.eqb_refl. destruct rp; exact Hx1id.
  - intros x Hx Hid. apply in_map_iff in Hx as (x0 & <- & Hx0).
    destruct (Z.eqb (doc_id x0) did) eqn:E.
    + apply Z.eqb_eq in E.
      destruct (staged_document_rows x0 Hx0) as (_ & Hr).
      destruct (Hr E) as (_ & Hdraft & _).
      destruct rp; cbn; auto.
    + apply Z.eqb_neq in E. contradiction.
  - destruct generated_activity_present as (a1 & Ha1 & Ha1id).
    eexists. split; [apply in_map; exact Ha1|].
    rewrite Ha1id, Z.eqb_refl. exact Ha1id.
  - intros a Ha Hid. apply in_map_iff in Ha as (a0 & <- & Ha0).
    destruct (Z.eqb (act_id a0) aid) eqn:E.
    + apply Z.eqb_eq in E.
      destruct (generated_activity_rows a0 Ha0 E) as (_ & Ht & Hc).
      cbn. auto.
    + apply Z.eqb_neq in E. contradiction.
Qed.
End Round.

Lemma generate_then_submit_witness :
  exists body,
    fst (generate_docs (fun _ _ _ _ => Generator.ApiError) true
           (Generator.init None None)
           {| sql_now := "2024-01-01 12:00:00"; iso_now := "2024-01-01T12:00:00";
              minute := "2024-01-01 12:00"; stamp := "20240101_120000";
              review_stamp := "20240101_120001" |}
           (Some {| context := Some "a product"; source := None;
                    req_doc_type := None; licensing_focus := true;
                    features := None |})
           {| db_of := Fixtures.ledger7; files_of := [] |})
    = Generated body
    /\ g_review_path body
       = Some "docs/review/technical_spec_8_20240101_120001.md".
Proof.
  destruct (generate_then_submit (fun _ _ _ _ => Generator.ApiError)
              (Generator.init None None)
              {| sql_now := "2024-01-01 12:00:00"; iso_now := "2024-01-01T12:00:00";
                 minute := "2024-01-01 12:00"; stamp := "20240101_120000";
                 review_stamp := "20240101_120001" |}
              {| context := Some "a product"; source := None;
                 req_doc_type := None; licensing_focus := true;
                 features := None |}
              "a product" {| db_of := Fixtures.ledger7; files_of := [] |}
              eq_refl eq_refl "2024-01-02 09:00:00" Fixtures.plain_env
              "typos" "reviewer" false eq_refl)
    as (body & Hbody & Hpath & _).
  exists body. split; [exact Hbody|exact Hpath].
Defined.

(** With a client and an upstream call that completes, the answer carries
    the upstream text under the provider ["openai"], the tokens the
    service reported and their price; the same tokens and cost are cached
    on the new activity and written to the one cost record appended, and
    the text is the stored draft. *)
Theorem generate_docs_upstream create_completion g t data ctx (w : world) text n :
  context data = Some ctx -> Generator.client g = true ->
  create_completion (Generator.gen_model g)
    (Generator.template_key (get (req_doc_type data) "technical_spec")) ctx
    match features data with
    | Some (String c s) => String c s
    | _ => "Key features will be detailed in the specification."
    end = Generator.Completed text n ->
  exists body,
    fst (generate_docs create_completion true g t (Some data) w) = Generated body
    /\ g_provider body = "openai" /\ g_openai_used body = true
    /\ g_content body = text /\ g_tokens body = n
    /\ g_cost body = Generator.calculate_cost g n
    /\ (exists c,
          ai_costs (db_of (snd (generate_docs create_completion true g t (Some data) w)))
          = (ai_costs (db_of w) ++ [c])%list
          /\ provider c = "openai" /\ tokens_used c = n
          /\ Ledger.cost c = Generator.calculate_cost g n
          /\ cost_activity_id c = g_activity_id body)
    /\ (forall a,
          In a (activities (db_of (snd (generate_docs create_completion true g t
                                          (Some data) w)))) ->
          act_id a = g_activity_id body ->
          ai_tokens_used a = n /\ ai_cost a = Generator.calculate_cost g n)
    /\ (forall x,
          In x (documents (db_of (snd (generate_docs create_completion true g t
                                         (Some data) w)))) ->
          doc_id x = g_document_id body -> draft_content x = Some text).
Proof.
  intros Hctx Hclient Hup.
  destruct (generate_docs_response create_completion g t data ctx w Hctx)
    as (body & Hbody & Haid & Hdid & Hcontent & Htokens & Hcost & Hprov & Hused & _).
  pose proof (generate_docs_activities create_completion g t data ctx w Hctx) as Hacts.
  pose proof (generate_docs_ai_costs create_completion g t data ctx w Hctx) as Hcosts.
  pose proof (generate_docs_documents create_completion g t data ctx w Hctx) as Hdocs.
  assert (Hres :
    Generator.generate_document create_completion g (minute t) (iso_now t)
      (get (req_doc_type data) "technical_spec") ctx (features data)
    = {| Generator.content := text; Generator.tokens := n;
         Generator.cost := Generator.calculate_cost g n;
         Generator.res_model := Generator.gen_model g;
         Generator.res_provider := "openai"; Generator.success := true;
         Generator.res_generated_at := iso_now t |}).
  { unfold Generator.generate_document. now rewrite Hclient, Hup. }
  rewrite Hres in *. cbn in Hcontent, Htokens, Hcost, Hprov, Hused.
  exists body. split; [exact Hbody|].
  repeat (split; [assumption|]).
  rewrite Hacts, Hcosts, Hdocs, Haid, Hdid. cbn.
  split; [|split].
  - eexists. split; [reflexivity|]. cbn. auto.
  - intros a Ha Hid. apply in_map_iff in Ha as (a0 & <- & _).
    destruct (Z.eqb (act_id a0) _) eqn:E; [cbn; auto|].
    apply Z.eqb_neq in E. contradiction.
  - intros x Hx Hid. apply in_map_iff in Hx as (x0 & <- & Hx0).
    apply in_app_iff in Hx0 as [Hold|[<-|[]]].
    + assert (doc_id x0 < Sqlite.next_rowid (map doc_id (documents (db_of w))))
        by (apply next_rowid_above, in_map, Hold).
      destruct (licensing_focus data && _); cbn in Hid; lia.
    + destruct (licensing_focus data && _); reflexivity.
Qed.

Lemma generate_docs_upstream_witness :
  exists body,
    fst (generate_docs (fun _ _ _ _ => Generator.Completed "# Spec" 1000) true
           (Generator.init (Some "sk-test") (Some "gpt-4"))
           {| sql_now := "2024-01-01 12:00:00"; iso_now := "2024-01-01T12:00:00";
              minute := "2024-01-01 12:00"; stamp := "20240101_120000";
              review_stamp := "20240101_120001" |}
           (Some {| context := Some "a product"; source := None;
                    req_doc_type := None; licensing_focus := false;
                    features := None |})
           {| db_of := empty_db; files_of := [] |})
    = Generated body
    /\ g_provider body = "openai" /\ g_tokens body = 1000.
Proof.
  destruct (generate_docs_upstream
              (fun _ _ _ _ => Generator.Completed "# Spec" 1000)
              (Generator.init (Some "sk-test") (Some "gpt-4"))
              {| sql_now := "2024-01-01 12:00:00"; iso_now := "2024-01-01T12:00:00";
                 minute := "2024-01-01 12:00"; stamp := "20240101_120000";
                 review_stamp := "20240101_120001" |}
              {| context := Some "a product"; source := None;
                 req_doc_type := None; licensing_focus := false;
                 features := None |}
              "a product" {| db_of := empty_db; files_of := [] |} "# Spec" 1000
              eq_refl eq_refl eq_refl)
    as (body & Hbody & Hprov & _ & _ & Htok & _).
  exists body. auto.
Defined.

End EndToEndFacts.

(** ** review_workflow.py: what the header step keeps and drops *)

Module HeaderFacts.
Import PyStr PyStrFacts Review.

Lemma clean_lines_outside (lines : list string) : clean_lines false lines = lines.
Proof.
  induction lines as [|l lines IH]; [reflexivity|].
  cbn [clean_lines]. rewrite andb_false_r, IH. reflexivity.
Qed.

Lemma clean_lines_no_rule (lines : list string) :
  ~ In "---" lines -> clean_lines true lines = [].
Proof.
  induction lines as [|l lines IH]; [reflexivity|].
  intros H. cbn [clean_lines].
  destruct (String.eqb_spec l "---") as [->|_].
  - exfalso. apply H. now left.
  - cbn [andb]. apply IH. intros Hin. apply H. now right.
Qed.

Lemma split_lines_rule (rest : string) :
  split_lines ("---" ++ nl ++ rest) = "---" :: split_lines rest.
Proof. reflexivity. Qed.

(** When the text opens with a line that is exactly ["---"], the step
    drops that one line and nothing else: the lines of the header block
    and its closing rule stay in the result. *)
Theorem remove_metadata_header_opening_rule (rest : string) :
  remove_metadata_header ("---" ++ nl ++ rest) = strip rest.
Proof.
  unfold remove_metadata_header.
  assert (Hp : startswith ("---" ++ nl ++ rest) "---" = true) by reflexivity.
  rewrite Hp, split_lines_rule. cbn [clean_lines].
  change (("---" =? "---") && true) with true. cbv iota.
  rewrite clean_lines_outside, join_split. reflexivity.
Qed.

(** When the text begins with ["---"] but no line is exactly ["---"], the
    loop never leaves the header and the whole text is dropped. *)
Theorem remove_metadata_header_unclosed (content : string) :
  startswith content "---" = true ->
  ~ In "---" (split_lines content) ->
  remove_metadata_header content = "".
Proof.
  intros Hp Hno. unfold remove_metadata_header.
  rewrite Hp, (clean_lines_no_rule _ Hno). reflexivity.
Qed.

Lemma remove_metadata_header_unclosed_witness :
  remove_metadata_header ("--- draft ---" ++ nl ++ "body") = "".
Proof.
  apply (remove_metadata_header_unclosed ("--- draft ---" ++ nl ++ "body")).
  - reflexivity.
  - cbn. intros [H|[H|[]]]; discriminate H.
Defined.

End HeaderFacts.

(** ** review_workflow.py: reading a staged draft back *)

Module StagingFacts.
Import PyStr PyStrFacts Ledger Workflow.

Lemma split_rule_nonempty (skip : nat) (s : string) : split_rule skip s <> [].
Proof.
  revert skip; induction s as [|c s IH]; intros skip; cbn [split_rule];
    [discriminate|].
  destruct skip; [|apply IH].
  destruct (prefix "---" (String c s)); [discriminate|].
  destruct (split_rule 0 s); discriminate.
Qed.

(** A text with no rule in it is a single part. *)
Lemma split_rule_plain (s : string) :
  contains "---" s = false -> split_rule 0 s = [s].
Proof.
  induction s as [|c s IH]; [reflexivity|].
  cbn [contains split_rule]. intros H.
  apply orb_false_iff in H as [Hp Hc]. rewrite Hp, (IH Hc). reflexivity.
Qed.

Lemma split_rule_at_rule (s : string) :
  split_rule 0 ("---" ++ s) = "" :: split_rule 0 s.
Proof.
  assert (H : prefix "---" ("---" ++ s) = true)
    by (apply prefix_append; now exists s).
  change ("---" ++ s) with (String "-" (String "-" (String "-" s))) in *.
  cbn [split_rule]. rewrite H. reflexivity.
Qed.

(** Whether a text followed by a newline begins with the rule can be read
    off the text. *)
Ltac first_three x :=
  destruct x as [|? [|? [|? x]]]; unfold nl in *; cbn [append String.length] in *;
  rewrite ?prefix_String, ?prefix_nil in *;
  change (Ascii.eqb "-" (ascii_of_nat 10)) with false in *;
  repeat match goal with
         | |- context [Ascii.eqb "-" ?v] => destruct (Ascii.eqb "-" v)
         | H : context [Ascii.eqb "-" ?v] |- _ => destruct (Ascii.eqb "-" v)
         end;
  cbn [andb] in *.

Lemma prefix_rule_newline (x rest : string) :
  prefix "---" (x ++ nl ++ rest) = prefix "---" (x ++ nl).
Proof. first_three x; reflexivity. Qed.

Lemma prefix_rule_length (x : string) :
  prefix "---" (x ++ nl) = true -> (3 <= String.length x)%nat.
Proof. first_three x; intros H; try discriminate H; lia. Qed.

(** A rule that follows a newline is always found: the parts of
    [x + "\n---" + y] are those of [x + "\n"] followed by those of [y]. *)
Lemma split_rule_after_newline (y : string) (x : string) :
  forall skip, (skip <= String.length x)%nat ->
  split_rule skip (x ++ nl ++ "---" ++ y)
  = (split_rule skip (x ++ nl) ++ split_rule 0 y)%list.
Proof.
  induction x as [|c x IH]; intros skip Hskip.
  - assert (skip = 0)%nat as -> by (simpl in Hskip; lia).
    change ("" ++ nl ++ "---" ++ y) with (String (ascii_of_nat 10) ("---" ++ y)).
    change ("" ++ nl) with (String (ascii_of_nat 10) "").
    cbn [split_rule]. rewrite !prefix_String.
    change (Ascii.eqb "-" (ascii_of_nat 10)) with false. cbn [andb].
    rewrite split_rule_at_rule. reflexivity.
  - change (String c x ++ nl ++ "---" ++ y) with (String c (x ++ nl ++ "---" ++ y)).
    change (String c x ++ nl) with (String c (x ++ nl)).
    cbn [split_rule]. destruct skip as [|k].
    + change (String c (x ++ nl ++ "---" ++ y))
        with (String c x ++ nl ++ "---" ++ y).
      change (String c (x ++ nl)) with (String c x ++ nl).
      rewrite prefix_rule_newline.
      destruct (prefix "---" (String c x ++ nl)) eqn:E.
      * apply prefix_rule_length in E. cbn [String.length] in E.
        rewrite IH by lia. reflexivity.
      * rewrite IH by lia.
        pose proof (split_rule_nonempty 0 (x ++ nl)) as Hne.
        destruct (split_rule 0 (x ++ nl)); [congruence|reflexivity].
    + cbn [String.length] in Hskip. apply IH. lia.
Qed.

Lemma contains_rule_newline (s : string) :
  contains "---" s = false -> contains "---" (s ++ nl) = false.
Proof.
  induction s as [|c s IH]; [reflexivity|].
  cbn [contains]. intros H. apply orb_false_iff in H as [Hp Hc].
  change (String c s ++ nl) with (String c (s ++ nl)). cbn [contains].
  rewrite (IH Hc), orb_false_r.
  clear IH Hc. revert Hp.
  change (String c (s ++ nl)) with (String c s ++ nl).
  generalize (String c s) as x. intros x.
  first_three x; intros H; try discriminate H; reflexivity.
Qed.

Lemma contains_newline_rule (s : string) :
  contains "---" (nl ++ s) = contains "---" s.
Proof.
  change (nl ++ s) with (String (ascii_of_nat 10) s). cbn [contains].
  rewrite prefix_String.
  change (Ascii.eqb "-" (ascii_of_nat 10)) with false. reflexivity.
Qed.

Lemma rstrip_newline (s : string) : rstrip (s ++ nl) = rstrip s.
Proof.
  induction s as [|c s IH]; [reflexivity|].
  change (String c s ++ nl) with (String c (s ++ nl)).
  cbn [rstrip]. now rewrite IH.
Qed.

Lemma strip_newline (s : string) : strip (s ++ nl) = strip s.
Proof.
  unfold strip. induction s as [|c s IH]; [reflexivity|].
  change (String c s ++ nl) with (String c (s ++ nl)). cbn [lstrip].
  destruct (isspace c); [exact IH|].
  change (String c (s ++ nl)) with (String c s ++ nl). apply rstrip_newline.
Qed.

(** The body of a staged draft: what [_extract_learning] reads as the
    original text is the draft without its outer white space, as long as
    the draft holds no ["---"]. *)
Lemma extract_body_review_content doc_id doc_type content m :
  contains "---" content = false ->
  extract_body (review_content doc_id doc_type content m) = strip content.
Proof.
  intros Hno.
  set (head :=
    "# DOCUMENT FOR REVIEW" ++ nl ++
    "# ID: " ++ str_of_Z doc_id ++ nl ++
    "# Type: " ++ doc_type ++ nl ++
    "# Generated: " ++ md_generated_at m ++ nl ++
    "# Cost: $" ++ format_6f (md_cost m) ++ nl ++
    "# Tokens: " ++ str_of_Z (md_tokens m) ++ nl ++
    "# Model: " ++ md_model m ++ nl ++
    "---" ++ nl ++
    "# REVIEW INSTRUCTIONS" ++ nl ++
    "1. Check technical accuracy" ++ nl ++
    "2. Verify completeness for licensing" ++ nl ++
    "3. Mark sections needing clarification with [REVIEW]" ++ nl ++
    "4. Add licensing-specific details" ++ nl ++
    "5. Update any placeholder content").
  assert (Hshape : review_content doc_id doc_type content m
                   = ("---" ++ nl ++ head) ++ nl ++ "---" ++ (nl ++ nl ++ content ++ nl)).
  { unfold review_content, head. rewrite !append_assoc. reflexivity. }
  assert (Hbody : contains "---" (nl ++ nl ++ content ++ nl) = false).
  { rewrite !contains_newline_rule. now apply contains_rule_newline. }
  unfold extract_body.
  assert (Hc : contains "---" (review_content doc_id doc_type content m) = true)
    by reflexivity.
  rewrite Hc, Hshape.
  rewrite split_rule_after_newline by (cbn [append String.length]; lia).
  rewrite (split_rule_plain _ Hbody).
  change (("---" ++ nl ++ head) ++ nl) with ("---" ++ (nl ++ head) ++ nl).
  rewrite split_rule_at_rule.
  pose proof (split_rule_nonempty 0 ((nl ++ head) ++ nl)) as Hne.
  destruct (split_rule 0 ((nl ++ head) ++ nl)) as [|p ps]; [congruence|].
  assert (Hlen : Nat.ltb 2 (List.length (("" :: p :: ps) ++ [nl ++ nl ++ content ++ nl])) = true).
  { apply Nat.ltb_lt. rewrite length_app. simpl. lia. }
  rewrite Hlen, last_last.
  change (strip (nl ++ nl ++ content ++ nl)) with (strip (content ++ nl)).
  apply strip_newline.
Qed.

(** Round trip of staging: [save_for_review] returns the path of the
    review file; reading that file back and taking its body gives the
    draft without its outer white space, for every draft that holds no
    ["---"]; and the side file records the path with status
    ['pending_review']. *)
Theorem staged_draft_round_trip stamp saved_at doc_id content doc_type m (fs : files) :
  contains "---" content = false ->
  exists path text,
    fst (save_for_review stamp saved_at doc_id content doc_type m fs) = path
    /\ read path (snd (save_for_review stamp saved_at doc_id content doc_type m fs))
       = Some (Text text)
    /\ extract_body text = strip content
    /\ exists side,
         read side (snd (save_for_review stamp saved_at doc_id content doc_type m fs))
         = Some (Sidecar m path "pending_review" saved_at).
Proof.
  intros Hno. unfold save_for_review.
  set (stem := "docs/review/" ++ doc_type ++ "_" ++ str_of_Z doc_id ++ "_" ++ stamp).
  exists (stem ++ ".md"), (review_content doc_id doc_type content m).
  cbn [fst snd]. split; [reflexivity|]. split; [|split].
  - unfold write. cbn [read].
    destruct (String.eqb_spec (stem ++ ".json") (stem ++ ".md")) as [E|_].
    + apply append_cancel in E. discriminate.
    + now rewrite String.eqb_refl.
  - now apply extract_body_review_content.
  - exists (stem ++ ".json"). unfold write. cbn [read].
    now rewrite String.eqb_refl.
Qed.

Lemma staged_draft_round_trip_witness :
  exists path text,
    fst (save_for_review "20240101_120000" "2024-01-01T12:00:01" 7
           ("# Spec" ++ nl ++ "body" ++ nl) "technical_spec"
           {| md_doc_id := 7; md_doc_type := "technical_spec";
              md_filename := "technical_spec_7_20240101_120000.md";
              md_cost := 0.0016%Q; md_tokens := 800; md_model := "simulated";
              md_generated_at := "2024-01-01T12:00:00"; md_activity_id := 7 |} [])
    = path
    /\ path = "docs/review/technical_spec_7_20240101_120000.md"
    /\ extract_body text = "# Spec" ++ nl ++ "body".
Proof.
  destruct (staged_draft_round_trip "20240101_120000" "2024-01-01T12:00:01" 7
              ("# Spec" ++ nl ++ "body" ++ nl) "technical_spec"
              {| md_doc_id := 7; md_doc_type := "technical_spec";
                 md_filename := "technical_spec_7_20240101_120000.md";
                 md_cost := 0.0016%Q; md_tokens := 800; md_model := "simulated";
                 md_generated_at := "2024-01-01T12:00:00"; md_activity_id := 7 |}
              [] eq_refl)
    as (path & text & Hpath & _ & Hbody & _).
  exists path, text. split; [exact Hpath|]. split; [now rewrite <- Hpath|exact Hbody].
Defined.

End StagingFacts.

(** ** cost_guard.py: the exit status of the script *)

Module ExitFacts.
Import CostGuard CostGuardFacts.
Local Open Scope Q_scope.

Lemma main_by_tier now spent remaining budget (w : world) :
  ~ budget == 0 ->
  main now spent remaining budget w
  = (match tier_of (spent / budget * 100) with
     | CRITICAL => 1%Z
     | WARNING => 2%Z
     | INFO | OK => 0%Z
     end, w).
Proof.
  intros Hb. unfold main, check_budget. rewrite (budget_nonzero _ Hb).
  destruct (tier_of (spent / budget * 100)); reflexivity.
Qed.

(** The exit status of the script is 1 exactly in the critical tier, 2
    exactly in the warning tier and 0 below 80 per cent; a zero budget also
    ends it with status 1.  In the critical tier the status comes from the
    uncaught [NameError], and no run of the script writes
    [scripts/config.json]. *)
Theorem main_exit_status now spent remaining budget (w : world) :
  snd (main now spent remaining budget w) = w
  /\ (budget == 0 -> fst (main now spent remaining budget w) = 1%Z)
  /\ (~ budget == 0 ->
      (fst (main now spent remaining budget w) = 1%Z
         <-> 90 <= spent / budget * 100)
      /\ (fst (main now spent remaining budget w) = 2%Z
         <-> 80 <= spent / budget * 100 /\ spent / budget * 100 < 90)
      /\ (fst (main now spent remaining budget w) = 0%Z
         <-> spent / budget * 100 < 80)).
Proof.
  split; [|split].
  - unfold main, check_budget. destruct (Qeq_bool budget 0); [reflexivity|].
    destruct (tier_of (spent / budget * 100)); reflexivity.
  - intros Hb. apply Qeq_bool_iff in Hb. unfold main, check_budget.
    now rewrite Hb.
  - intros Hb. rewrite (main_by_tier _ _ _ _ _ Hb). cbn [fst].
    set (u := spent / budget * 100).
    pose proof (tier_of_critical u) as Hc.
    pose proof (tier_of_warning u) as Hw.
    pose proof (tier_of_info u) as Hi.
    pose proof (tier_of_ok u) as Ho.
    destruct (tier_of u); repeat split; intros; try discriminate; try lia;
      try reflexivity;
      first [ lra
            | destruct Hc; destruct Hw; destruct Hi; destruct Ho;
              intuition (try discriminate; try lra) ].
Qed.

End ExitFacts.

(** ** hashlib: the length of a digest *)

Module HashFacts.
Import PyStr Hashlib.

Lemma length_le_bytes (width : nat) (n : Z) : List.length (le_bytes width n) = width.
Proof. revert n; induction width; intros n; simpl; auto. Qed.

Lemma length_hex (bytes : list Z) :
  String.length (hex bytes) = (2 * List.length bytes)%nat.
Proof. induction bytes as [|x bytes IH]; simpl; [reflexivity|]. rewrite IH. lia. Qed.

Lemma length_digest (msg : list Z) : List.length (digest msg) = 16%nat.
Proof.
  unfold digest. destruct (blocks _ _ _) as [[[a b] c] d].
  rewrite !length_app, !length_le_bytes. reflexivity.
Qed.

Lemma length_md5_hexdigest (text : string) :
  String.length (md5_hexdigest text) = 32%nat.
Proof. unfold md5_hexdigest. now rewrite length_hex, length_digest. Qed.

Lemma length_take (n : nat) (s : string) :
  (n <= String.length s)%nat -> String.length (take n s) = n.
Proof.
  revert s; induction n as [|n IH]; intros s H; [reflexivity|].
  destruct s as [|c s]; simpl in *; [lia|]. rewrite IH; lia.
Qed.

(** The fingerprint of a pattern is always ten characters long. *)
Lemma length_calculate_hash (text : string) :
  String.length (Learning.calculate_hash text) = 10%nat.
Proof.
  unfold Learning.calculate_hash. apply length_take.
  rewrite length_md5_hexdigest. lia.
Qed.

End HashFacts.

(** ** difflib: where the lines of a diff come from *)

Module DiffFacts.
Import Difflib.

Lemma In_slice {A : Type} (lo hi : nat) (x : A) (l : list A) :
  In x (slice lo hi l) -> In x l.
Proof.
  unfold slice. intros H.
  apply LearningFacts.In_firstn in H.
  rewrite <- (firstn_skipn lo l). apply in_or_app. now right.
Qed.

Lemma opcode_lines_origin (a b : list string) (o : opcode) :
  (forall l, In (Removed l) (opcode_lines a b o) -> In l a)
  /\ (forall l, In (Added l) (opcode_lines a b o) -> In l b).
Proof.
  unfold opcode_lines. split; intros l H; destruct (op_tag o);
    repeat match goal with
           | H : In _ (_ ++ _) |- _ => apply in_app_iff in H as [H|H]
           | H : In _ (map _ _) |- _ =>
               apply in_map_iff in H as (l0 & E & H);
               try discriminate E; injection E as ->
           end;
    eauto using In_slice.
Qed.

(** Every removed line of a diff is a line of the first text, every added
    line a line of the second. *)
Lemma diff_lines_origin (a b : list string) :
  (forall l, In (Removed l) (diff_lines a b) -> In l a)
  /\ (forall l, In (Added l) (diff_lines a b) -> In l b).
Proof.
  assert (Hhunk : forall group,
    (forall l, In (Removed l) (hunk_lines a b group) -> In l a)
    /\ (forall l, In (Added l) (hunk_lines a b group) -> In l b)).
  { intros group. unfold hunk_lines. destruct group as [|first rest];
      [split; intros ? []|].
    split; intros l [H|H]; try discriminate H;
      apply in_flat_map in H as (o & _ & H);
      now apply (opcode_lines_origin a b o). }
  unfold diff_lines. destruct (get_grouped_opcodes a b 3) as [|g gs];
    [split; intros ? []|].
  split; intros l [H|[H|H]]; try discriminate H;
    apply in_flat_map in H as (group & _ & H); now apply (Hhunk group).
Qed.

End DiffFacts.

(** ** learning_system.py: the patterns a review yields and stores *)

Module PatternFacts.
Import PyStr PyStrFacts Learning LearningOps LearningFacts.

Lemma pattern_of_shape (type : string) (lines : list string) (p : pattern) :
  In p (pattern_of type lines) ->
  p_type p = type
  /\ examples p = firstn 3 lines
  /\ examples p <> []
  /\ count p = List.length lines.
Proof.
  unfold pattern_of. destruct lines as [|l lines]; [intros []|].
  intros [<-|[]]. cbn. repeat split. discriminate.
Qed.

Lemma length_pattern_of (type : string) (lines : list string) :
  (List.length (pattern_of type lines) <= 1)%nat.
Proof. destruct lines; simpl; lia. Qed.

Lemma patterns_of_diff_cases (diff : list string) (p : pattern) :
  In p (patterns_of_diff diff) ->
  In p (pattern_of "content_removed" (removals_of (changes_of diff)))
  \/ In p (pattern_of "content_added" (additions_of (changes_of diff))).
Proof.
  unfold patterns_of_diff. destruct (changes_of diff) eqn:E; [intros []|].
  apply in_app_iff.
Qed.

(** The shape of what [extract_patterns] returns: at most two patterns,
    a removal pattern before an addition pattern and at most one of each,
    each with one to three examples, a count that is at least the number
    of examples, and a fingerprint of ten characters. *)
Theorem extract_patterns_shape (original revised : string) :
  let ps := extract_patterns original revised in
  (List.length ps <= 2)%nat
  /\ (map p_type ps = [] \/ map p_type ps = ["content_removed"]
      \/ map p_type ps = ["content_added"]
      \/ map p_type ps = ["content_removed"; "content_added"])
  /\ forall p, In p ps ->
       examples p <> []
       /\ (List.length (examples p) <= 3)%nat
       /\ (List.length (examples p) <= count p)%nat
       /\ String.length (hash p) = 10%nat.
Proof.
  cbv zeta. unfold extract_patterns.
  set (diff := Difflib.unified_diff _ _).
  split; [|split].
  - unfold patterns_of_diff. destruct (changes_of diff); [simpl; lia|].
    rewrite length_app.
    pose proof (length_pattern_of "content_removed" (removals_of (c :: l))).
    pose proof (length_pattern_of "content_added" (additions_of (c :: l))).
    lia.
  - unfold patterns_of_diff. destruct (changes_of diff); [now left|].
    unfold pattern_of.
    destruct (removals_of (c :: l)), (additions_of (c :: l)); cbn; auto.
  - intros p Hp.
    assert (Hshape : exists type lines,
      p_type p = type /\ examples p = firstn 3 lines /\ examples p <> []
      /\ count p = List.length lines /\ In p (pattern_of type lines)).
    { apply patterns_of_diff_cases in Hp as [Hp|Hp];
        pose proof (pattern_of_shape _ _ _ Hp) as (? & ? & ? & ?);
        eauto 10. }
    destruct Hshape as (type & lines & _ & Hex & Hne & Hcount & Hin).
    split; [exact Hne|]. rewrite Hex, Hcount, length_firstn.
    split; [lia|]. split; [lia|].
    unfold pattern_of in Hin. destruct lines; [destruct Hin|].
    destruct Hin as [<-|[]]. apply HashFacts.length_calculate_hash.
Qed.

Lemma changes_of_render (lines : list Difflib.diff_line) (c : change) :
  In c (changes_of (map Difflib.render lines)) ->
  match c with
  | remove rest => In (Difflib.Removed (String " " rest)) lines
  | add rest => In (Difflib.Added (String " " rest)) lines
  end.
Proof.
  unfold changes_of. intros H. apply in_flat_map in H as (text & Ht & Hc).
  apply in_map_iff in Ht as (l & <- & Hl). rewrite change_of_render in Hc.
  destruct l as [| |r1 r2|line|line|line]; try destruct Hc;
    destruct line as [|ch line]; try destruct Hc;
    destruct (Ascii.eqb_spec ch " ") as [->|Hne];
    try (destruct Hc as [<-|[]]; exact Hl);
    destruct ch as [[] [] [] [] [] [] [] []]; try destruct Hc; congruence.
Qed.

(** Where examples come from: what a pattern shows is always a changed
    line that began with a space, printed without that space.  Every
    example of an addition pattern is, with a space put back in front, a
    line of the revised text; every example of a removal pattern likewise
    a line of the original. *)
Theorem extract_patterns_examples (original revised : string) (p : pattern)
    (example : string) :
  In p (extract_patterns original revised) -> In example (examples p) ->
  (p_type p = "content_added"
   /\ In (String " " example) (split_lines revised))
  \/ (p_type p = "content_removed"
      /\ In (String " " example) (split_lines original)).
Proof.
  unfold extract_patterns, Difflib.unified_diff.
  set (a := split_lines original). set (b := split_lines revised).
  intros Hp Hex.
  destruct (DiffFacts.diff_lines_origin a b) as [Hrem Hadd].
  apply patterns_of_diff_cases in Hp as [Hp|Hp];
    pose proof (pattern_of_shape _ _ _ Hp) as (Htype & Hexs & _ & _);
    rewrite Hexs in Hex; apply In_firstn in Hex.
  - right. split; [exact Htype|]. apply Hrem.
    unfold removals_of in Hex. apply in_flat_map in Hex as (c & Hc & Hex).
    destruct c as [l|l]; [|destruct Hex]. destruct Hex as [<-|[]].
    exact (changes_of_render _ _ Hc).
  - left. split; [exact Htype|]. apply Hadd.
    unfold additions_of in Hex. apply in_flat_map in Hex as (c & Hc & Hex).
    destruct c as [l|l]; [destruct Hex|]. destruct Hex as [<-|[]].
    exact (changes_of_render _ _ Hc).
Qed.

Lemma extract_patterns_examples_witness :
  In (String " " "indented") (split_lines ("a" ++ nl ++ " indented")).
Proof.
  destruct (extract_patterns_examples "a" ("a" ++ nl ++ " indented")
              {| p_type := "content_added"; examples := ["indented"];
                 count := 1; hash := calculate_hash "indented" |}
              "indented")
    as [[_ H]|[H _]].
  - vm_compute. left. reflexivity.
  - left. reflexivity.
  - exact H.
  - discriminate H.
Defined.

Lemma fold_insert_pattern now doc_id doc_type (ps : list pattern) :
  forall s,
  exists rows,
    learning_patterns (fold_left (insert_pattern now doc_id doc_type) ps s)
    = (learning_patterns s ++ rows)%list
    /\ Forall2 (row_of now doc_id doc_type) rows ps
    /\ insights (fold_left (insert_pattern now doc_id doc_type) ps s) = insights s.
Proof.
  induction ps as [|p ps IH]; intros s; cbn [fold_left].
  - exists []. rewrite app_nil_r. repeat split. constructor.
  - destruct (IH (insert_pattern now doc_id doc_type s p)) as (rows & Hrows & Hall & Hins).
    eexists (_ :: rows). rewrite Hrows, Hins. cbn. rewrite <- app_assoc.
    split; [reflexivity|]. split; [|reflexivity].
    constructor; [|exact Hall]. unfold row_of. cbn. tauto.
Qed.

(** [save_feedback] appends one row per extracted pattern and returns
    their number: the rows already stored and the insights are untouched,
    and each new row starts with [applied_count] 0 under the context
    ["Doc type: <doc_type>"] of the reviewed document. *)
Theorem save_feedback_appends now doc_id original revised review_time doc_type s :
  exists rows,
    learning_patterns
      (snd (save_feedback now doc_id original revised review_time doc_type s))
    = (learning_patterns s ++ rows)%list
    /\ Forall2 (row_of now doc_id doc_type) rows (extract_patterns original revised)
    /\ fst (save_feedback now doc_id original revised review_time doc_type s)
       = List.length rows
    /\ insights (snd (save_feedback now doc_id original revised review_time doc_type s))
       = insights s.
Proof.
  unfold save_feedback. cbn [fst snd].
  destruct (fold_insert_pattern now doc_id doc_type
              (extract_patterns original revised) s) as (rows & Hrows & Hall & Hins).
  exists rows. repeat split; auto.
  symmetry. eapply Forall2_length. exact Hall.
Qed.

Lemma save_feedback_well_formed now doc_id original revised review_time doc_type s :
  well_formed s ->
  well_formed (snd (save_feedback now doc_id original revised review_time doc_type s)).
Proof.
  intros Hwf.
  destruct (fold_insert_pattern now doc_id doc_type
              (extract_patterns original revised) s) as (rows & Hrows & Hall & _).
  unfold save_feedback. cbn [snd]. intros r Hr Htype. rewrite Hrows in Hr.
  apply in_app_iff in Hr as [Hr|Hr]; [now apply Hwf|].
  assert (Hp : exists p, In p (extract_patterns original revised)
                         /\ correction r = p).
  { clear - Hall Hr. induction Hall as [|r0 p0 rows0 ps0 H0 _ IH]; [destruct Hr|].
    destruct Hr as [<-|Hr].
    - exists p0. split; [now left|apply H0].
    - destruct (IH Hr) as (p & Hp & E). exists p. split; [now right|exact E]. }
  destruct Hp as (p & Hp & ->).
  unfold extract_patterns in Hp. apply patterns_of_diff_cases in Hp as [Hp|Hp];
    now destruct (pattern_of_shape _ _ _ Hp) as (_ & _ & Hne & _).
Qed.

Lemma only_counts_grow_well_formed s s' :
  only_counts_grow s s' -> well_formed s -> well_formed s'.
Proof.
  intros [Hrows _] Hwf r' Hr' Htype.
  assert (Hr : exists r, In r (learning_patterns s) /\ same_but_count r r').
  { clear - Hrows Hr'. induction Hrows as [|r0 r0' l l' H0 _ IH]; [destruct Hr'|].
    destruct Hr' as [<-|Hr'].
    - exists r0. split; [now left|exact H0].
    - destruct (IH Hr') as (r & Hr & E). exists r. split; [now right|exact E]. }
  destruct Hr as (r & Hr & (_ & Ht & _ & Hc & _)).
  rewrite Hc. apply Hwf; [exact Hr|congruence].
Qed.

(** A store that only the learning system writes never makes
    [apply_learnings] raise: from a store whose addition patterns each
    carry an example (the empty store is one), every run of [save_feedback]
    and [apply_learnings] calls goes through, and ends in such a store. *)
Theorem learning_calls_never_raise (ops : list learn_op) :
  forall s, well_formed s ->
  exists s', run_calls ops s = Some s' /\ well_formed s'.
Proof.
  induction ops as [|op ops IH]; intros s Hwf; cbn [run_calls].
  - now exists s.
  - destruct op as [now doc_id original revised review_time doc_type
                   |new_content content_type]; cbn [run_call].
    + apply IH. now apply save_feedback_well_formed.
    + destruct (apply_patterns_returns new_content
                  (select_patterns content_type s)) with (acc := (@nil flag, s))
        as ([flags s1] & Hrun & Hgrow).
      * apply Forall_forall. intros r Hr. apply Hwf.
        eapply select_patterns_subset; eassumption.
      * unfold apply_learnings. rewrite Hrun. apply IH.
        eapply only_counts_grow_well_formed; eassumption.
Qed.

Lemma learning_calls_never_raise_witness :
  exists s',
    run_calls
      [Feedback "2024-01-02 09:00:00" 7 ("a" ++ nl ++ " old") ("a" ++ nl ++ " new")
         0 "technical_spec";
       Apply "Overview new" "technical"]
      empty_store = Some s'
    /\ well_formed s'.
Proof.
  apply (learning_calls_never_raise
           [Feedback "2024-01-02 09:00:00" 7 ("a" ++ nl ++ " old")
              ("a" ++ nl ++ " new") 0 "technical_spec";
            Apply "Overview new" "technical"] empty_store).
  intros r [].
Defined.

End PatternFacts.

(** ** The ledger keeps its keys *)

Module LedgerFacts.
Import Ledger LedgerOps Api ApiFacts.
Local Open Scope Z_scope.

Lemma keys_snoc (ids : list Z) : keys ids -> keys (ids ++ [Sqlite.next_rowid ids]).
Proof.
  intros [Hnd Hpos]. split.
  - apply NoDup_app; [exact Hnd|repeat constructor; intros []|].
    intros id Hin [<-|[]].
    pose proof (EndToEndFacts.next_rowid_above ids _ Hin). lia.
  - apply Forall_app. split; [exact Hpos|].
    repeat constructor. apply EndToEndFacts.next_rowid_positive.
Qed.

Lemma map_update_ids {A : Type} (key : A -> Z) (id : Z) (f : A -> A) (rows : list A) :
  (forall r, key (f r) = key r) ->
  map key (map (fun r => if Z.eqb (key r) id then f r else r) rows) = map key rows.
Proof.
  intros Hf. rewrite map_map. apply map_ext. intros r.
  destruct (Z.eqb (key r) id); [apply Hf|reflexivity].
Qed.

Lemma rowids_update_activity id f d :
  (forall a, act_id (f a) = act_id a) ->
  rowids (update_activity id f d) = rowids d.
Proof.
  intros Hf. unfold rowids, update_activity, set_activities. cbn.
  now rewrite (map_update_ids act_id id f _ Hf).
Qed.

Lemma rowids_update_document_row id f d :
  (forall x, doc_id (f x) = doc_id x) ->
  rowids (update_document_row id f d) = rowids d.
Proof.
  intros Hf. unfold rowids, update_document_row, set_documents. cbn.
  now rewrite (map_update_ids doc_id id f _ Hf).
Qed.

Lemma rowids_record_review now text path found d :
  rowids (record_review now text path found d) = rowids d.
Proof.
  unfold record_review.
  assert (H1 : rowids (update_document_row (doc_id found)
                         (with_review now text 300 0.8%Q) d) = rowids d)
    by now apply rowids_update_document_row.
  set (d1 := update_document_row _ _ d) in *.
  assert (H2 : rowids match doc_activity_id found with
                      | Some activity_id =>
                          if Z.eqb activity_id 0 then d1
                          else update_activity activity_id (with_completion 300) d1
                      | None => d1
                      end = rowids d).
  { destruct (doc_activity_id found) as [aid|]; [|exact H1].
    destruct (Z.eqb aid 0); [exact H1|].
    now rewrite rowids_update_activity. }
  destruct path; [exact H2|].
  now rewrite rowids_update_document_row.
Qed.

(** What an operation does to the rowids: it keeps them, or appends one
    fresh rowid to one table. *)
Lemma rowids_run_ledger_op (d : db) (op : ledger_op) :
  let '(acts, docs, costs) := rowids d in
  rowids (run_ledger_op d op) = (acts, docs, costs)
  \/ rowids (run_ledger_op d op) = (acts ++ [Sqlite.next_rowid acts], docs, costs)%list
  \/ rowids (run_ledger_op d op) = (acts, docs ++ [Sqlite.next_rowid docs], costs)%list
  \/ rowids (run_ledger_op d op) = (acts, docs, costs ++ [Sqlite.next_rowid costs])%list.
Proof.
  unfold rowids at 1.
  destruct op; cbn [run_ledger_op].
  - right; left. unfold rowids, log_activity, set_activities. cbn.
    now rewrite map_app.
  - left. apply rowids_update_activity. reflexivity.
  - left. apply rowids_update_activity. reflexivity.
  - right; right; left. unfold rowids, save_document, set_documents. cbn.
    now rewrite map_app.
  - left. apply rowids_update_document_row. reflexivity.
  - left. apply rowids_update_document_row. reflexivity.
  - right; right; right. unfold Generator.log_cost_to_db.
    rewrite rowids_update_activity by reflexivity.
    unfold rowids, set_ai_costs. cbn. now rewrite map_app.
  - left. unfold reconcile.
    destruct (find_document_for _ _); [apply rowids_record_review|reflexivity].
Qed.

Lemma well_keyed_rowids d d' :
  well_keyed d ->
  (let '(acts, docs, costs) := rowids d in
   rowids d' = (acts, docs, costs)
   \/ rowids d' = (acts ++ [Sqlite.next_rowid acts], docs, costs)%list
   \/ rowids d' = (acts, docs ++ [Sqlite.next_rowid docs], costs)%list
   \/ rowids d' = (acts, docs, costs ++ [Sqlite.next_rowid costs])%list) ->
  well_keyed d'.
Proof.
  unfold well_keyed, rowids. intros (Ha & Hd & Hc) [H|[H|[H|H]]];
    injection H as -> -> ->; auto using keys_snoc.
Qed.

(** Primary keys survive every operation: from a ledger whose rowids are
    distinct and positive, any run of tracker, generator and reconciliation
    operations ends in such a ledger, and no table ever loses a row. *)
Theorem ledger_keeps_keys (ops : list ledger_op) :
  forall d, well_keyed d ->
  well_keyed (run_ledger_ops ops d)
  /\ (List.length (activities d) <= List.length (activities (run_ledger_ops ops d)))%nat
  /\ (List.length (documents d) <= List.length (documents (run_ledger_ops ops d)))%nat
  /\ (List.length (ai_costs d) <= List.length (ai_costs (run_ledger_ops ops d)))%nat.
Proof.
  unfold run_ledger_ops.
  induction ops as [|op ops IH]; intros d Hwk; cbn [fold_left].
  - split; [exact Hwk|]. repeat split; apply Nat.le_refl.
  - pose proof (rowids_run_ledger_op d op) as Hids.
    assert (Hwk' : well_keyed (run_ledger_op d op))
      by (eapply well_keyed_rowids; eassumption).
    destruct (IH _ Hwk') as (Hk & Ha & Hd & Hc).
    split; [exact Hk|].
    assert (Hlen :
      (List.length (activities d) <= List.length (activities (run_ledger_op d op))
       /\ List.length (documents d) <= List.length (documents (run_ledger_op d op))
       /\ List.length (ai_costs d) <= List.length (ai_costs (run_ledger_op d op)))%nat).
    { unfold rowids in Hids.
      rewrite <- !(length_map act_id), <- !(length_map doc_id),
        <- !(length_map cost_id).
      destruct Hids as [H|[H|[H|H]]]; injection H as -> -> ->;
        rewrite ?length_app; simpl; lia. }
    lia.
Qed.

Lemma ledger_keeps_keys_witness :
  well_keyed
    (run_ledger_ops
       [LogActivity "2024-01-03 10:00:00" "documentation_generation" "api" [];
        LogCostToDb "2024-01-03 10:00:01" 8 Fixtures.simulated_result;
        SaveDocument "20240103_100001" "2024-01-03 10:00:01" 8 "user_manual"
          "draft" None;
        Reconcile "2024-01-04 09:00:00"
          "docs/review/reviewed_technical_spec_7_20240101_120000.md"
          "reviewed text" "docs/approved/reviewed_technical_spec_7_20240101_120000.md"]
       Fixtures.ledger7).
Proof.
  refine (proj1 (ledger_keeps_keys _ Fixtures.ledger7 _)).
  unfold well_keyed, keys. cbn.
  repeat split; repeat constructor; try lia; intros [].
Defined.

End LedgerFacts.

(** ** learning_system.py: which insights are generated *)

Module InsightFacts.
Import PyStr PyStrFacts Ledger Learning Insights.

Lemma frequency_of_count_type (t type : string) (groups : list (string * nat)) :
  frequency_of t (count_type type groups)
  = if String.eqb type t then S (frequency_of t groups) else frequency_of t groups.
Proof.
  induction groups as [|[t0 n0] rest IH]; cbn [count_type frequency_of].
  - destruct (String.eqb type t); reflexivity.
  - destruct (String.eqb_spec t0 type) as [->|Hne]; cbn [frequency_of].
    + destruct (String.eqb type t); reflexivity.
    + destruct (String.eqb_spec t0 t) as [->|Hne'].
      * destruct (String.eqb_spec type t); [congruence|reflexivity].
      * exact IH.
Qed.

Lemma frequency_of_group_by (t : string) (rows : list learning_pattern) :
  forall groups,
  frequency_of t (fold_left (fun groups r => count_type (pattern_type r) groups)
                    rows groups)
  = (frequency_of t groups
     + List.length (filter (fun r => String.eqb (pattern_type r) t) rows))%nat.
Proof.
  induction rows as [|r rows IH]; intros groups; cbn [fold_left filter].
  - cbn [List.length]. lia.
  - rewrite IH, frequency_of_count_type.
    destruct (String.eqb (pattern_type r) t); cbn [List.length]; lia.
Qed.

Lemma In_count_type_key (type t : string) (groups : list (string * nat)) :
  In t (map fst (count_type type groups)) -> t = type \/ In t (map fst groups).
Proof.
  induction groups as [|[t0 n0] rest IH]; cbn [count_type map fst In].
  - intros [<-|[]]. now left.
  - destruct (String.eqb t0 type); cbn [map fst In]; intuition.
Qed.

Lemma grouped_count_type (type : string) (groups : list (string * nat)) :
  grouped groups -> grouped (count_type type groups).
Proof.
  intros [Hnd Hpos]. induction groups as [|[t0 n0] rest IH]; cbn [count_type].
  - split; repeat constructor. intros [].
  - inversion Hnd as [|? ? Hnotin Hnd']; subst.
    inversion Hpos as [|? ? Hp Hpos']; subst.
    destruct (String.eqb_spec t0 type) as [->|Hne].
    + split; [exact Hnd|]. constructor; [cbn in *; lia|exact Hpos'].
    + destruct (IH Hnd' Hpos') as [Hnd2 Hpos2]. split.
      * cbn [map fst]. constructor; [|exact Hnd2].
        intros Hin. apply In_count_type_key in Hin as [Hin|Hin]; congruence.
      * constructor; assumption.
Qed.

Lemma grouped_group_by (rows : list learning_pattern) :
  forall groups, grouped groups ->
  grouped (fold_left (fun groups r => count_type (pattern_type r) groups)
             rows groups).
Proof.
  induction rows as [|r rows IH]; intros groups H; cbn [fold_left]; [exact H|].
  apply IH. now apply grouped_count_type.
Qed.

(** In such groups, a pair is present exactly when it is the frequency of
    its type and positive. *)
Lemma grouped_In (groups : list (string * nat)) (t : string) (n : nat) :
  grouped groups ->
  (In (t, n) groups <-> frequency_of t groups = n /\ (0 < n)%nat).
Proof.
  intros [Hnd Hpos]. induction groups as [|[t0 n0] rest IH]; cbn [frequency_of In].
  - split; [intros []|intros [<- H]; lia].
  - inversion Hnd as [|? ? Hnotin Hnd']; subst.
    inversion Hpos as [|? ? Hp Hpos']; subst. cbn in Hp.
    specialize (IH Hnd' Hpos').
    destruct (String.eqb_spec t0 t) as [->|Hne].
    + split.
      * intros [E|Hin]; [injection E as ->; auto|].
        exfalso. apply Hnotin. apply in_map_iff. now exists (t, n).
      * intros [-> _]. now left.
    + rewrite <- IH. split; [intros [E|H]; [congruence|exact H]|auto].
Qed.

Lemma In_insert_by_frequency g x sorted :
  In x (insert_by_frequency g sorted) <-> x = g \/ In x sorted.
Proof.
  induction sorted as [|y rest IH]; cbn [insert_by_frequency In].
  - intuition.
  - destruct (Nat.ltb (snd y) (snd g)); cbn [In]; [intuition|].
    rewrite IH. intuition.
Qed.

Lemma In_sorted x groups :
  In x (fold_right insert_by_frequency [] groups) <-> In x groups.
Proof.
  induction groups as [|g groups IH]; cbn [fold_right In]; [tauto|].
  rewrite In_insert_by_frequency, IH. intuition.
Qed.

(** The frequencies the second query returns: a type is listed with the
    number of its rows in the window, when it has any. *)
Lemma In_frequencies (cutoff : string) (s : store) (t : string) (n : nat) :
  In (t, n) (frequencies cutoff s) <-> recent_count cutoff s t = n /\ (0 < n)%nat.
Proof.
  unfold frequencies, recent_count, group_by_type. rewrite In_sorted.
  rewrite grouped_In by (apply grouped_group_by; split; constructor).
  rewrite frequency_of_group_by. cbn [frequency_of]. reflexivity.
Qed.

(** Which pattern insights are generated: a type gets an insight exactly
    when more than two of its patterns were created in the window; the
    insight is named after the type, carries that number, and recommends
    ["Reduce"] when the type contains ["removed"] and ["Include"]
    otherwise. *)
Theorem pattern_insights (cutoff : string) (docs : list document) (s : store)
    (type : string) :
  ((2 < recent_count cutoff s type)%nat <->
   exists f, In f (findings cutoff docs s)
     /\ f_metric_name f = "pattern_" ++ type)
  /\ forall f, In f (findings cutoff docs s) ->
       f_metric_name f = "pattern_" ++ type ->
       f_metric_value f = inject_Z (Z.of_nat (recent_count cutoff s type))
       /\ f_recommendation f
          = (if contains "removed" type then "Reduce" else "Include")
            ++ " content matching pattern: " ++ type ++ " (occurred "
            ++ str_of_Z (Z.of_nat (recent_count cutoff s type)) ++ " times)".
Proof.
  assert (Hpat : forall f, In f (findings cutoff docs s) ->
    f_metric_name f = "pattern_" ++ type ->
    exists n, In (type, n) (frequencies cutoff s) /\ (2 < n)%nat
      /\ In f (pattern_finding (type, n))).
  { intros f Hf Hname. unfold findings in Hf. apply in_app_iff in Hf as [Hf|Hf].
    - unfold review_time_finding in Hf.
      destruct (filter _ docs); [destruct Hf|].
      destruct Hf as [<-|[]]. discriminate Hname.
    - apply in_flat_map in Hf as ([t n] & Hg & Hf).
      assert (Hn : Nat.ltb 2 n = true /\ t = type).
      { unfold pattern_finding in Hf. destruct (Nat.ltb 2 n); [|destruct Hf].
        destruct Hf as [<-|[]]. cbn in Hname.
        split; [reflexivity|].
        exact (append_cancel "pattern_" _ _ Hname). }
      destruct Hn as [Hn ->]. exists n. apply Nat.ltb_lt in Hn. auto. }
  split; [split|].
  - intros Hmany.
    assert (Hin : In (type, recent_count cutoff s type) (frequencies cutoff s))
      by (apply In_frequencies; split; [reflexivity|lia]).
    eexists. split.
    + unfold findings. apply in_or_app. right. apply in_flat_map.
      eexists. split; [exact Hin|].
      unfold pattern_finding. apply Nat.ltb_lt in Hmany. rewrite Hmany.
      left. reflexivity.
    + reflexivity.
  - intros (f & Hf & Hname).
    destruct (Hpat f Hf Hname) as (n & Hin & Hn & _).
    apply In_frequencies in Hin as [-> _]. exact Hn.
  - intros f Hf Hname.
    destruct (Hpat f Hf Hname) as (n & Hin & Hn & Hfn).
    apply In_frequencies in Hin as [Hcount _]. rewrite Hcount.
    unfold pattern_finding in Hfn. apply Nat.ltb_lt in Hn. rewrite Hn in Hfn.
    destruct Hfn as [<-|[]]. cbn. split; reflexivity.
Qed.

Lemma fold_insert_finding now (found : list finding) :
  forall s,
  learning_patterns (fold_left (insert_finding now) found s) = learning_patterns s
  /\ exists rows,
       insights (fold_left (insert_finding now) found s)
       = (insights s ++ rows)%list
       /\ map (fun i => (metric_name i, metric_value i, recommendation i)) rows
          = map (fun f => (f_metric_name f, f_metric_value f, f_recommendation f))
              found
       /\ Forall (fun i => generated_at i = now) rows.
Proof.
  induction found as [|f found IH]; intros s; cbn [fold_left].
  - split; [reflexivity|]. exists []. rewrite app_nil_r. repeat split. constructor.
  - destruct (IH (insert_finding now s f)) as (Hlp & rows & Hrows & Hmap & Hnow).
    split; [exact Hlp|].
    eexists (_ :: rows). rewrite Hrows. cbn [insert_finding insights].
    rewrite <- app_assoc. split; [reflexivity|].
    cbn. split; [now rewrite Hmap|]. constructor; [reflexivity|exact Hnow].
Qed.

(** Insight generation only appends: the insights already stored and the
    learning patterns are untouched, and one row is added per returned
    insight, with its name, value and recommendation; a review-time
    insight is among them exactly when some document was reviewed in the
    window. *)
Theorem generate_insights_appends now cutoff (docs : list document) (s : store) :
  let run := generate_insights now cutoff docs s in
  learning_patterns (snd run) = learning_patterns s
  /\ (exists rows,
        insights (snd run) = (insights s ++ rows)%list
        /\ map (fun i => (metric_name i, metric_value i, recommendation i)) rows
           = map (fun f => (f_metric_name f, f_metric_value f, f_recommendation f))
               (fst run))
  /\ ((exists f, In f (fst run) /\ f_metric_name f = "avg_review_time_minutes")
      <-> exists x, In x docs /\ since cutoff (reviewed_at x) = true).
Proof.
  cbv zeta. unfold generate_insights. cbn [fst snd].
  destruct (fold_insert_finding now (findings cutoff docs s) s)
    as (Hlp & rows & Hrows & Hmap & _).
  split; [exact Hlp|]. split; [exists rows; auto|].
  unfold findings, review_time_finding.
  destruct (filter (fun x => since cutoff (reviewed_at x)) docs) as [|x rows'] eqn:E.
  - split.
    + intros (f & Hf & Hname). cbn [app] in Hf.
      apply in_flat_map in Hf as ([t n] & _ & Hf).
      unfold pattern_finding in Hf. destruct (Nat.ltb 2 n); [|destruct Hf].
      destruct Hf as [<-|[]]. discriminate Hname.
    + intros (x & Hx & Hsince).
      assert (In x (filter (fun x => since cutoff (reviewed_at x)) docs))
        by (apply filter_In; auto).
      rewrite E in H. destruct H.
  - split.
    + intros _. exists x.
      assert (In x (filter (fun x => since cutoff (reviewed_at x)) docs))
        by (rewrite E; now left).
      now apply filter_In in H.
    + intros _. eexists. split; [left; reflexivity|reflexivity].
Qed.

End InsightFacts.

(** ** activity_tracker.py: inserting, looking up and summing rows *)

Module TrackerFacts.
Import PyStr Ledger.
Local Open Scope Z_scope.

Lemma find_snoc {A : Type} (f : A -> bool) (l : list A) (x : A) :
  find f (l ++ [x])
  = match find f l with
    | Some y => Some y
    | None => if f x then Some x else None
    end.
Proof.
  induction l as [|y l IH]; cbn [app find]; [reflexivity|].
  destruct (f y); [reflexivity|exact IH].
Qed.

Lemma find_fresh {A : Type} (key : A -> Z) (rows : list A) :
  find (fun r => Z.eqb (key r) (Sqlite.next_rowid (map key rows))) rows = None.
Proof.
  assert (H : forall id, (forall r, In r rows -> key r < id) ->
                         find (fun r => Z.eqb (key r) id) rows = None).
  { intros id. induction rows as [|r rows IH]; intros Hlt; [reflexivity|].
    cbn [find]. destruct (Z.eqb_spec (key r) id) as [E|_].
    - specialize (Hlt r (or_introl eq_refl)). lia.
    - apply IH. intros r' Hr'. apply Hlt. now right. }
  apply H. intros r Hr. apply EndToEndFacts.next_rowid_above. now apply in_map.
Qed.

(** Insert and look up: the id [save_document] returns finds the row it
    wrote, a draft with no review column set, and every other id finds
    what it found before; a missing or empty filename is replaced by
    [<doc_type>_<activity_id>_<stamp>.md].  Likewise [log_activity] returns
    the id of a new ['pending'] activity without cost. *)
Theorem insert_then_lookup stamp now aid doc_type draft name atype source dets (d : db) :
  let stored :=
    match name with
    | Some (String c s) => String c s
    | _ => doc_type ++ "_" ++ str_of_Z aid ++ "_" ++ stamp ++ ".md"
    end in
  let saved := save_document stamp now aid doc_type draft name d in
  let logged := log_activity now atype source dets d in
  find_document (fst saved) (snd saved)
  = Some {| doc_id := fst saved; doc_activity_id := Some aid;
            Ledger.doc_type := doc_type; draft_content := Some draft;
            final_content := None; filename := Some stored;
            review_filepath := None; generated_at := now; reviewed_at := None;
            review_time_seconds := None; quality_score := None |}
  /\ (forall id, id <> fst saved ->
        find_document id (snd saved) = find_document id d)
  /\ find_activity (fst logged) (snd logged)
     = Some {| act_id := fst logged; act_timestamp := now;
               activity_type := atype; act_source := source; details := dets;
               ai_tokens_used := 0; ai_cost := 0%Q; human_time_seconds := 0;
               status := "pending" |}
  /\ (forall id, id <> fst logged ->
        find_activity id (snd logged) = find_activity id d).
Proof.
  cbv zeta. unfold save_document, log_activity, find_document, find_activity.
  cbn [fst snd set_documents set_activities documents activities].
  rewrite !find_snoc, (find_fresh doc_id), (find_fresh act_id).
  cbn [doc_id act_id]. rewrite !Z.eqb_refl.
  repeat split.
  - intros id Hid. rewrite find_snoc. cbn [doc_id].
    destruct (find _ (documents d)); [reflexivity|].
    destruct (Z.eqb_spec (Sqlite.next_rowid (map doc_id (documents d))) id);
      [congruence|reflexivity].
  - intros id Hid. rewrite find_snoc. cbn [act_id].
    destruct (find _ (activities d)); [reflexivity|].
    destruct (Z.eqb_spec (Sqlite.next_rowid (map act_id (activities d))) id);
      [congruence|reflexivity].
Qed.

Lemma map_unless {A : Type} (key : A -> Z) (id : Z) (f : A -> A) (rows : list A) :
  ~ In id (map key rows) ->
  map (fun r => if Z.eqb (key r) id then f r else r) rows = rows.
Proof.
  intros Hno. rewrite <- (map_id rows) at 2. apply map_ext_in. intros r Hr.
  destruct (Z.eqb_spec (key r) id) as [E|_]; [|reflexivity].
  exfalso. apply Hno. rewrite <- E. now apply in_map.
Qed.

(** An id that no row carries: the updates of the tracker change nothing,
    and [log_cost_to_db] still appends its cost record, which then belongs
    to no activity. *)
Theorem unknown_id_updates id now tokens c provider seconds text quality path r (d : db) :
  ~ In id (map act_id (activities d)) ->
  ~ In id (map doc_id (documents d)) ->
  update_activity_cost id tokens c provider d = d
  /\ complete_activity id seconds d = d
  /\ update_document now id text seconds quality d = d
  /\ snd (update_document_review_path id path d) = d
  /\ activities (Generator.log_cost_to_db now id r d) = activities d
  /\ List.length (ai_costs (Generator.log_cost_to_db now id r d))
     = S (List.length (ai_costs d)).
Proof.
  intros Ha Hd. destruct d as [acts docs costs]. cbn in Ha, Hd.
  unfold update_activity_cost, complete_activity, update_document,
    update_document_review_path, Generator.log_cost_to_db,
    update_activity, update_document_row, set_activities, set_documents,
    set_ai_costs.
  cbn [activities documents ai_costs snd].
  rewrite !(map_unless act_id id _ acts Ha), !(map_unless doc_id id _ docs Hd).
  repeat split. rewrite length_app. cbn. lia.
Qed.

Lemma unknown_id_updates_witness :
  complete_activity 99 300 Fixtures.ledger7 = Fixtures.ledger7.
Proof.
  refine (proj1 (proj2 (unknown_id_updates 99 "2024-01-02 09:00:00" 800 0.0016%Q
            "openai" 300 "text" 0.8%Q "docs/review/x.md"
            Fixtures.simulated_result Fixtures.ledger7 _ _)));
    cbn; intros [H|[]]; discriminate H.
Defined.

Lemma sum_Z_app (l1 l2 : list Z) : sum_Z (l1 ++ l2) = sum_Z l1 + sum_Z l2.
Proof.
  unfold sum_Z. induction l1 as [|x l1 IH]; cbn [app fold_right];
    [reflexivity|]. rewrite IH. lia.
Qed.

Lemma sum_Q_app (l1 l2 : list Q) : (sum_Q (l1 ++ l2) == sum_Q l1 + sum_Q l2)%Q.
Proof.
  unfold sum_Q. induction l1 as [|x l1 IH]; cbn [app fold_right].
  - symmetry. apply Qplus_0_l.
  - rewrite IH. apply Qplus_assoc.
Qed.

Lemma sum_Z_bounds (f : activity -> Z) (lo hi : Z) (rows : list activity) :
  (forall a, In a rows -> lo <= f a <= hi) ->
  lo * Z.of_nat (List.length rows) <= sum_Z (map f rows)
  <= hi * Z.of_nat (List.length rows).
Proof.
  unfold sum_Z. induction rows as [|a rows IH]; intros H.
  - cbn. lia.
  - cbn [map fold_right List.length]. rewrite Nat2Z.inj_succ.
    pose proof (H a (or_introl eq_refl)).
    assert (Hrest : forall a', In a' rows -> lo <= f a' <= hi)
      by (intros a' Ha'; apply H; now right).
    specialize (IH Hrest). lia.
Qed.

(** The statistics of the tracker: over an empty table every figure is
    zero; otherwise the average review time lies between the smallest and
    the largest [human_time_seconds] of the table.  The bound is stated
    for times that are not negative and sum to less than [2^53]: there the
    total is exact and the one rounding of [AVG], its division, cannot
    break it.  Logging an activity raises the count by one and leaves the
    cost and time totals as they were. *)
Theorem get_stats_totals now atype source dets (d : db) :
  (activities d = [] ->
   total_activities (get_stats d) = 0
   /\ total_human_time (get_stats d) = 0
   /\ total_ai_cost (get_stats d) = 0%Q
   /\ avg_review_time (get_stats d) = 0%Q)
  /\ (forall lo hi,
        activities d <> [] ->
        0 <= lo ->
        hi * Z.of_nat (List.length (activities d)) < 2 ^ 53 ->
        (forall a, In a (activities d) -> lo <= human_time_seconds a <= hi) ->
        (inject_Z lo <= avg_review_time (get_stats d) <= inject_Z hi)%Q)
  /\ let d' := snd (log_activity now atype source dets d) in
     total_activities (get_stats d') = total_activities (get_stats d) + 1
     /\ total_human_time (get_stats d') = total_human_time (get_stats d)
     /\ (total_ai_cost (get_stats d') == total_ai_cost (get_stats d))%Q.
Proof.
  split; [|split].
  - intros E. unfold get_stats. rewrite E. repeat split.
  - intros lo hi Hne _ _ Hall. unfold get_stats. cbn [avg_review_time].
    pose proof (sum_Z_bounds human_time_seconds lo hi _ Hall) as [Hlo Hhi].
    destruct (activities d) as [|a rows] eqn:E; [congruence|].
    set (n := Z.of_nat (List.length (a :: rows))) in *.
    set (total := sum_Z (map human_time_seconds (a :: rows))) in *.
    assert (Hn : 0 < n) by (unfold n; cbn [List.length]; lia).
    assert (HnQ : (0 < inject_Z n)%Q)
      by (unfold Qlt; cbn; lia).
    split.
    + apply Qle_shift_div_l; [exact HnQ|].
      rewrite <- inject_Z_mult, <- Zle_Qle. exact Hlo.
    + apply Qle_shift_div_r; [exact HnQ|].
      rewrite <- inject_Z_mult, <- Zle_Qle. exact Hhi.
  - cbv zeta. unfold get_stats, log_activity.
    cbn [snd set_activities activities total_activities total_human_time
         total_ai_cost].
    rewrite length_app, !map_app, sum_Z_app, sum_Q_app. cbn.
    repeat split; try lia. unfold sum_Q. cbn. ring.
Qed.

Lemma dict_get_missing {A : Type} (key : string) (dict : list (string * A))
  (default : A) :
  ~ In key (map fst dict) -> Generator.dict_get key dict default = default.
Proof.
  induction dict as [|[k v] dict IH]; intros Hno; [reflexivity|].
  cbn [Generator.dict_get]. destruct (String.eqb_spec k key) as [E|_].
  - exfalso. apply Hno. left. exact E.
  - apply IH. intros H. apply Hno. now right.
Qed.

Lemma dict_get_positive (key : string) :
  (0 < Generator.dict_get key Generator.pricing 0.002)%Q.
Proof.
  unfold Generator.pricing. cbn [Generator.dict_get].
  repeat match goal with
         | |- context [String.eqb ?k key] => destruct (String.eqb k key)
         end; reflexivity.
Qed.

(** The price of tokens.  A model missing from the price table is priced
    like the default model: its generator charges every token count what
    a generator of ["gpt-3.5-turbo"] charges, so the 800 tokens of a
    simulated document cost $0.0016.  For every model no tokens cost
    nothing and more tokens never cost less. *)
Theorem calculate_cost_prices (g g' : Generator.generator) (m n : Z) :
  (~ In (Generator.gen_model g) (map fst Generator.pricing) ->
   Generator.gen_model g' = "gpt-3.5-turbo" ->
   Generator.calculate_cost g n == Generator.calculate_cost g' n
   /\ Generator.calculate_cost g 800 == 0.0016)%Q
  /\ (Generator.calculate_cost g 0 == 0)%Q
  /\ (m <= n ->
      (Generator.calculate_cost g m <= Generator.calculate_cost g n)%Q).
Proof.
  split; [|split].
  - unfold Generator.calculate_cost. intros Hno ->.
    rewrite (dict_get_missing _ _ _ Hno). split; reflexivity.
  - unfold Generator.calculate_cost. field.
  - intros Hmn. unfold Generator.calculate_cost.
    apply Qmult_le_compat_r; [|apply Qlt_le_weak, dict_get_positive].
    apply Qmult_le_compat_r; [|discriminate].
    rewrite <- Zle_Qle. exact Hmn.
Qed.

Lemma calculate_cost_prices_witness :
  (Generator.calculate_cost (Generator.init None (Some "local-llama")) 800
   == 0.0016)%Q.
Proof.
  refine (proj2 (proj1 (calculate_cost_prices
                   (Generator.init None (Some "local-llama"))
                   (Generator.init None None) 0 800) _ eq_refl)).
  cbn. intros [H|[H|[H|[H|[]]]]]; discriminate H.
Defined.

End TrackerFacts.

(** ** difflib and learning_system.py: a text compared with itself *)

Module SameTextFacts.
Import PyStr Difflib.

Lemma positions_from_spec (x : string) (l : list string) : forall j0 j,
  In j (positions_from j0 x l) <-> j0 <= j /\ nth_error l (j - j0) = Some x.
Proof.
  induction l as [|y l IH]; intros j0 j.
  - cbn. split; [tauto|]. intros [_ H]. destruct (j - j0); discriminate H.
  - cbn [positions_from].
    assert (Hrec : In j (positions_from (S j0) x l)
                   <-> j0 < j /\ nth_error (y :: l) (j - j0) = Some x).
    { rewrite IH. split; intros [H1 H2]; (split; [lia|]).
      - replace (j - j0) with (S (j - S j0)) by lia. exact H2.
      - replace (j - j0) with (S (j - S j0)) in H2 by lia. exact H2. }
    destruct (String.eqb_spec x y) as [->|Hne].
    + cbn [In]. rewrite Hrec. split.
      * intros [<-|[H1 H2]]; [|split; [lia|exact H2]].
        split; [lia|]. rewrite Nat.sub_diag. reflexivity.
      * intros [H1 H2]. destruct (Nat.eq_dec j0 j) as [E|E]; [now left|right].
        split; [lia|exact H2].
    + rewrite Hrec. split; [intros [H1 H2]; split; [lia|exact H2]|].
      intros [H1 H2]. split; [|exact H2].
      destruct (Nat.eq_dec j0 j) as [E|E]; [|lia].
      subst j. rewrite Nat.sub_diag in H2. cbn in H2. congruence.
Qed.

Lemma positions_from_sorted (x : string) (l : list string) : forall j0,
  StronglySorted lt (positions_from j0 x l).
Proof.
  induction l as [|y l IH]; intros j0; cbn [positions_from]; [constructor|].
  destruct (String.eqb x y); [|apply IH].
  constructor; [apply IH|]. apply Forall_forall. intros j Hj.
  apply positions_from_spec in Hj. lia.
Qed.

Lemma b2j_cases (a : list string) (x : string) :
  b2j a x = [] \/ b2j a x = positions_from 0 x a.
Proof. unfold b2j. cbv zeta. destruct (andb _ _); [left|right]; reflexivity. Qed.

Lemma skipn_cons_nth {A : Type} (l : list A) : forall i x rest,
  skipn i l = x :: rest ->
  nth_error l i = Some x /\ skipn (S i) l = rest /\ i < List.length l.
Proof.
  induction l as [|y l IH]; intros i x rest H.
  - destruct i; discriminate H.
  - destruct i as [|i].
    + cbn in H. injection H as -> ->. cbn. repeat split. lia.
    + cbn [skipn] in H. destruct (IH i x rest H) as (H1 & H2 & H3).
      cbn [nth_error List.length]. repeat split; [exact H1|exact H2|lia].
Qed.

Lemma scan_row_step blo bhi i j2len j js nj bi bj bs :
  Nat.ltb j blo = false -> Nat.leb bhi j = false ->
  scan_row blo bhi i j2len (j :: js) (nj, (bi, bj, bs))
  = scan_row blo bhi i j2len js
      ((j, S (j2len_before j2len j)) :: nj,
       if Nat.ltb bs (S (j2len_before j2len j))
       then (S i - S (j2len_before j2len j), S j - S (j2len_before j2len j),
             S (j2len_before j2len j))
       else (bi, bj, bs)).
Proof. intros H1 H2. cbn [scan_row]. rewrite H1, H2. reflexivity. Qed.

Section Same.
Variable a : list string.

Lemma run_before_le (i : nat) : run_before a i <= i.
Proof.
  induction i as [|i IH]; cbn [run_before]; [lia|].
  destruct (live_at a i); lia.
Qed.

Lemma same_at_diag (i : nat) : i < List.length a -> same_at a a i i = true.
Proof.
  intros H. unfold same_at. destruct (nth_error a i) eqn:E.
  - apply String.eqb_refl.
  - apply nth_error_None in E. lia.
Qed.

Lemma extend_left_diag : forall fuel bi bs,
  bi <= fuel -> bi + bs <= List.length a ->
  extend_left a a fuel 0 0 (bi, bi, bs) = (0, 0, bi + bs).
Proof.
  induction fuel as [|fuel IH]; intros bi bs Hf Hn.
  - replace bi with 0 by lia. reflexivity.
  - cbn [extend_left]. destruct bi as [|bi]; [reflexivity|].
    replace (Nat.ltb 0 (S bi)) with true by (symmetry; apply Nat.ltb_lt; lia).
    replace (S bi - 1) with bi by lia.
    rewrite same_at_diag by lia. cbn [andb].
    rewrite IH by lia. f_equal. lia.
Qed.

Lemma extend_right_diag : forall fuel bs,
  List.length a <= fuel + bs -> bs <= List.length a ->
  extend_right a a fuel (List.length a) (List.length a) (0, 0, bs)
  = (0, 0, List.length a).
Proof.
  induction fuel as [|fuel IH]; intros bs Hf Hn.
  - replace bs with (List.length a) by lia. reflexivity.
  - cbn [extend_right Nat.add].
    destruct (Nat.ltb_spec bs (List.length a)) as [Hlt|Hge].
    + rewrite same_at_diag by exact Hlt. cbn [andb]. apply IH; lia.
    + cbn [andb]. f_equal. lia.
Qed.

Lemma scan_row_diag (i : nat) (x : string) (j2len : list (nat * nat)) :
  nth_error a i = Some x ->
  b2j a x <> [] ->
  (forall j, j2len_get j2len j <= run_before a (S j)
             /\ j2len_get j2len j <= run_before a i) ->
  j2len_before j2len i = run_before a i ->
  forall js nj bi bs,
  StronglySorted lt js ->
  (forall j, In j js -> nth_error a j = Some x) ->
  bi + bs <= S i ->
  (forall t, t <= i -> run_before a t <= bs) ->
  (forall j, j2len_get nj j <= run_before a (S j)
             /\ j2len_get nj j <= S (run_before a i)) ->
  (In i js \/ (S (run_before a i) <= bs
               /\ j2len_get nj i = S (run_before a i))) ->
  exists nj' bi' bs',
    scan_row 0 (List.length a) i j2len js (nj, (bi, bi, bs))
    = (nj', (bi', bi', bs'))
    /\ bi' + bs' <= S i /\ bs <= bs' /\ S (run_before a i) <= bs'
    /\ j2len_get nj' i = S (run_before a i)
    /\ (forall j, j2len_get nj' j <= run_before a (S j)
                  /\ j2len_get nj' j <= S (run_before a i)).
Proof.
  intros Hx Hlive Hc Hd.
  induction js as [|j js IH]; intros nj bi bs Hs Hjs Hb Hrun Hnj Hflag.
  - destruct Hflag as [[]|[H1 H2]]. exists nj, bi, bs.
    exact (conj eq_refl (conj Hb (conj (le_n _) (conj H1 (conj H2 Hnj))))).
  - inversion Hs as [|? ? Hs' Hall]; subst.
    assert (Hj : nth_error a j = Some x) by (apply Hjs; now left).
    assert (Hjn : j < List.length a) by (apply nth_error_Some; congruence).
    assert (HSj : run_before a (S j) = S (run_before a j)).
    { cbn [run_before]. unfold live_at. rewrite Hj.
      destruct (b2j a x); [congruence|reflexivity]. }
    assert (Hk : j2len_before j2len j <= run_before a j
                 /\ j2len_before j2len j <= run_before a i).
    { destruct j as [|j']; cbn [j2len_before]; [split; lia|]. apply Hc. }
    rewrite scan_row_step
      by (try reflexivity; apply Nat.leb_gt; exact Hjn).
    set (k := S (j2len_before j2len j)) in *.
    assert (Hbest : exists bi2 bs2,
               (if Nat.ltb bs k then (S i - k, S j - k, k) else (bi, bi, bs))
               = (bi2, bi2, bs2)
               /\ bi2 + bs2 <= S i /\ bs <= bs2 /\ (j = i -> k <= bs2)).
    { destruct (Nat.ltb_spec bs k) as [Hlt|Hge].
      - assert (E : j = i).
        { destruct (Nat.lt_trichotomy j i) as [H|[H|H]]; [|exact H|].
          - specialize (Hrun (S j) H). rewrite HSj in Hrun. unfold k in Hlt. lia.
          - destruct Hflag as [Hin|[H1 H2]].
            + destruct Hin as [E|Hin]; [lia|].
              rewrite Forall_forall in Hall. specialize (Hall i Hin). lia.
            + unfold k in Hlt. lia. }
        subst j. exists (S i - k), k. pose proof (run_before_le i) as Hle.
        unfold k in *. rewrite Hd. repeat split; lia.
      - exists bi, bs. repeat split; lia. }
    destruct Hbest as (bi2 & bs2 & -> & Hb2 & Hmono & Hdiag).
    destruct (IH ((j, k) :: nj) bi2 bs2) as (nj' & bi' & bs' & Heq & H1 & H2 & H3 & H4 & H5).
    + exact Hs'.
    + intros j0 Hj0. apply Hjs. now right.
    + exact Hb2.
    + intros t Ht. specialize (Hrun t Ht). lia.
    + intros j0. cbn [j2len_get].
      destruct (Nat.eqb_spec j j0) as [<-|_]; [|apply Hnj].
      rewrite HSj. unfold k. lia.
    + destruct (Nat.eq_dec j i) as [E|E].
      * right. subst j. cbn [j2len_get]. rewrite Nat.eqb_refl.
        specialize (Hdiag eq_refl). unfold k in *. rewrite Hd in *.
        split; [exact Hdiag|reflexivity].
      * destruct Hflag as [[E'|Hin]|[Ha Hb']]; [congruence|now left|right].
        split; [lia|]. cbn [j2len_get].
        destruct (Nat.eqb_spec j i); [congruence|exact Hb'].
    + exists nj', bi', bs'.
      refine (conj Heq (conj H1 (conj _ (conj H3 (conj H4 H5))))). lia.
Qed.

Lemma scan_rows_diag : forall rows i j2len bi bs,
  skipn i a = rows ->
  i <= List.length a ->
  bi + bs <= i ->
  (forall t, t <= i -> run_before a t <= bs) ->
  (forall j, j2len_get j2len j <= run_before a (S j)
             /\ j2len_get j2len j <= run_before a i) ->
  j2len_before j2len i = run_before a i ->
  exists bi' bs',
    scan_rows a 0 (List.length a) i rows j2len (bi, bi, bs) = (bi', bi', bs')
    /\ bi' + bs' <= List.length a.
Proof.
  induction rows as [|x rows IH]; intros i j2len bi bs Hrows Hi Hb Hrun Hc Hd.
  - exists bi, bs. split; [reflexivity|lia].
  - destruct (skipn_cons_nth a i x rows Hrows) as (Hx & Hrest & Hlt).
    cbn [scan_rows].
    pose proof (b2j_cases a x) as Hcases.
    destruct (b2j a x) as [|j0 js0] eqn:E.
    + cbn [scan_row].
      assert (Hdead : run_before a (S i) = 0).
      { cbn [run_before]. unfold live_at. rewrite Hx, E. reflexivity. }
      apply IH; try assumption; try lia.
      * intros t Ht. destruct (Nat.eq_dec t (S i)) as [->|]; [lia|].
        specialize (Hrun t). lia.
      * intros j. cbn. lia.
      * cbn [j2len_before j2len_get]. symmetry. exact Hdead.
    + destruct Hcases as [Hnil|Hpos]; [discriminate Hnil|].
      assert (Hlive : run_before a (S i) = S (run_before a i)).
      { cbn [run_before]. unfold live_at. rewrite Hx, E. reflexivity. }
      destruct (scan_row_diag i x j2len Hx) with (js := j0 :: js0) (nj := @nil (nat * nat)) (bi := bi) (bs := bs)
        as (nj' & bi' & bs' & Heq & H1 & H2 & H3 & H4 & H5); try assumption.
      * rewrite E. discriminate.
      * rewrite Hpos. apply positions_from_sorted.
      * rewrite Hpos. intros j Hj. apply positions_from_spec in Hj.
        rewrite Nat.sub_0_r in Hj. apply Hj.
      * lia.
      * intros j. cbn. lia.
      * left. rewrite Hpos. apply positions_from_spec.
        rewrite Nat.sub_0_r. split; [lia|exact Hx].
      * rewrite Heq. apply IH.
        -- exact Hrest.
        -- exact Hlt.
        -- exact H1.
        -- intros t Ht. destruct (Nat.eq_dec t (S i)) as [->|]; [lia|].
           specialize (Hrun t). lia.
        -- intros j. rewrite Hlive. apply H5.
        -- cbn [j2len_before]. rewrite Hlive. exact H4.
Qed.

Lemma find_longest_match_same :
  find_longest_match a a 0 (List.length a) 0 (List.length a)
  = (0, 0, List.length a).
Proof.
  unfold find_longest_match, slice. cbv zeta.
  rewrite Nat.sub_0_r. cbn [skipn]. rewrite firstn_all.
  destruct (scan_rows_diag a 0 [] 0 0) as (bi & bs & -> & Hb).
  - reflexivity.
  - lia.
  - lia.
  - intros t Ht. replace t with 0 by lia. cbn. lia.
  - intros j. cbn. lia.
  - reflexivity.
  - rewrite extend_left_diag by lia. apply extend_right_diag; lia.
Qed.

End Same.

Lemma blocks_in_same (a : list string) :
  blocks_in a a (S (List.length a)) 0 (List.length a) 0 (List.length a)
  = match List.length a with
    | O => []
    | S _ => [(0, 0, List.length a)]
    end.
Proof.
  cbn [blocks_in]. rewrite find_longest_match_same. cbv beta iota zeta.
  change (Nat.ltb 0 0) with false. cbn [andb app Nat.add].
  rewrite Nat.ltb_irrefl. cbn [andb].
  destruct (List.length a); reflexivity.
Qed.

Lemma group_codes_one_equal (i2 j2 : nat) :
  group_codes 3 [] (trim_last 3 (trim_first 3 [mk Equal 0 i2 0 j2])) = [].
Proof.
  cbn [trim_first trim_last is_equal mk op_tag op_i1 op_i2 op_j1 op_j2
       group_codes app].
  replace (Nat.ltb (3 + 3)
             (Nat.min i2 (Nat.max 0 (i2 - 3) + 3) - Nat.max 0 (i2 - 3)))
    with false by (symmetry; apply Nat.ltb_ge; lia).
  reflexivity.
Qed.

Lemma diff_lines_same (a : list string) : diff_lines a a = [].
Proof.
  unfold diff_lines, get_grouped_opcodes, get_opcodes, get_matching_blocks.
  cbv zeta. rewrite blocks_in_same.
  destruct (List.length a) as [|m].
  - reflexivity.
  - cbn [collapse Nat.add Nat.eqb andb app opcodes_from].
    change (Nat.ltb 0 0) with false. rewrite !Nat.ltb_irrefl.
    cbn [andb app]. rewrite group_codes_one_equal. reflexivity.
Qed.

(** A text reviewed without any edit teaches nothing: for every text,
    [extract_patterns] of the text and itself is empty, whatever the
    popularity heuristic of [SequenceMatcher] drops, and [save_feedback]
    then reports no pattern and leaves both tables as they were. *)
Theorem extract_patterns_same_text now doc_id text review_time doc_type
  (s : Learning.store) :
  Learning.extract_patterns text text = []
  /\ Learning.save_feedback now doc_id text text review_time doc_type s
     = (0, s).
Proof.
  assert (H : Learning.extract_patterns text text = []).
  { unfold Learning.extract_patterns, unified_diff.
    rewrite diff_lines_same. reflexivity. }
  split; [exact H|]. unfold Learning.save_feedback. rewrite H. reflexivity.
Qed.

End SameTextFacts.

(** ** review_workflow.py: what a submitted review teaches *)

Module ApprovalFacts.
Import PyStr PyStrFacts Ledger Workflow StagingFacts Approval.

Lemma prefix_rule_snoc (x : string) : prefix "---" (x ++ nl) = prefix "---" x.
Proof. first_three x; reflexivity. Qed.

(** A newline at the end of a text goes to its last part. *)
Lemma split_rule_snoc_newline (s : string) : forall skip,
  skip <= String.length s ->
  exists init final,
    split_rule skip s = (init ++ [final])%list
    /\ split_rule skip (s ++ nl) = (init ++ [(final ++ nl)%string])%list.
Proof.
  induction s as [|c s IH]; intros skip Hskip.
  - assert (skip = 0) as -> by (cbn in Hskip; lia).
    exists [], "". split; reflexivity.
  - change (String c s ++ nl) with (String c (s ++ nl)).
    destruct skip as [|k].
    + cbn [split_rule].
      change (String c (s ++ nl)) with (String c s ++ nl).
      rewrite prefix_rule_snoc.
      destruct (prefix "---" (String c s)) eqn:E.
      * assert (Hlen : 3 <= String.length (String c s)).
        { apply prefix_rule_length. now rewrite prefix_rule_snoc. }
        cbn [String.length] in Hlen.
        destruct (IH 2) as (init & final & H1 & H2); [lia|].
        exists ("" :: init), final. rewrite H1, H2. split; reflexivity.
      * destruct (IH 0) as (init & final & H1 & H2); [lia|].
        rewrite H1, H2. destruct init as [|p init].
        -- exists [], (String c final). split; reflexivity.
        -- exists (String c p :: init), final. split; reflexivity.
    + cbn [split_rule]. cbn [String.length] in Hskip.
      destruct (IH k) as (init & final & H1 & H2); [lia|].
      exists init, final. split; assumption.
Qed.

Lemma strip_after_newline (s : string) : strip (nl ++ s) = strip s.
Proof. reflexivity. Qed.

(** The body [_extract_learning] takes from the file [submit_review]
    wrote: the last part of the submitted text, whatever the header
    lines hold. *)
Lemma extract_body_reviewed m reviewed_at reviewer_name changes content :
  extract_body (reviewed_with_metadata m reviewed_at reviewer_name changes content)
  = strip (List.last (split_rule 0 content) "").
Proof.
  set (head :=
    "# REVIEWED DOCUMENT" ++ nl ++
    "# Original ID: " ++ str_of_Z (md_doc_id m) ++ nl ++
    "# Type: " ++ md_doc_type m ++ nl ++
    "# Generated: " ++ md_generated_at m ++ nl ++
    "# Reviewed: " ++ reviewed_at ++ nl ++
    "# Reviewer: " ++ reviewer_name ++ nl ++
    "# Changes: " ++ changes).
  assert (Hshape : reviewed_with_metadata m reviewed_at reviewer_name changes content
                   = ("---" ++ nl ++ head) ++ nl ++ "---" ++ (nl ++ content ++ nl)).
  { unfold reviewed_with_metadata, head. rewrite !append_assoc. reflexivity. }
  assert (Hc : contains "---"
                 (reviewed_with_metadata m reviewed_at reviewer_name changes content)
               = true) by reflexivity.
  unfold extract_body. rewrite Hc, Hshape.
  rewrite split_rule_after_newline by (cbn [append String.length]; lia).
  change (("---" ++ nl ++ head) ++ nl) with ("---" ++ (nl ++ head) ++ nl).
  rewrite split_rule_at_rule.
  pose proof (split_rule_nonempty 0 ((nl ++ head) ++ nl)) as Hne.
  destruct (split_rule 0 ((nl ++ head) ++ nl)) as [|p ps]; [congruence|].
  destruct (split_rule_snoc_newline content 0) as (init & final & H1 & H2);
    [lia|].
  assert (Htail : exists init' final',
             split_rule 0 (nl ++ content ++ nl) = (init' ++ [final'])%list
             /\ strip final' = strip final).
  { change (nl ++ content ++ nl) with (String (ascii_of_nat 10) (content ++ nl)).
    cbn [split_rule]. rewrite prefix_String.
    change (Ascii.eqb "-" (ascii_of_nat 10)) with false. cbn [andb].
    rewrite H2. destruct init as [|q init].
    - exists [], (String (ascii_of_nat 10) (final ++ nl)). split; [reflexivity|].
      change (String (ascii_of_nat 10) (final ++ nl)) with (nl ++ final ++ nl).
      rewrite strip_after_newline. apply strip_newline.
    - exists (String (ascii_of_nat 10) q :: init), (final ++ nl).
      split; [reflexivity|apply strip_newline]. }
  destruct Htail as (init' & final' & -> & Hstrip).
  rewrite H1, last_last.
  rewrite (app_assoc ("" :: p :: ps) init' [final']), last_last.
  assert (Hlen : Nat.ltb 2 (List.length ((("" :: p :: ps) ++ init') ++ [final'])) = true).
  { apply Nat.ltb_lt. rewrite !length_app. simpl. lia. }
  rewrite Hlen. exact Hstrip.
Qed.

(** A text with two rules or more has its last part as body. *)
Lemma extract_body_many (content : string) :
  2 < List.length (split_rule 0 content) ->
  extract_body content = strip (List.last (split_rule 0 content) "").
Proof.
  intros Hlen. unfold extract_body.
  destruct (contains "---" content) eqn:E.
  - apply Nat.ltb_lt in Hlen. now rewrite Hlen.
  - rewrite (split_rule_plain _ E) in Hlen. cbn in Hlen. lia.
Qed.

Lemma basename_in_review (name : string) :
  has_slash name = false -> basename ("docs/review/" ++ name) = name.
Proof. intros H. cbn. rewrite H. reflexivity. Qed.

Lemma parent_in_review (name : string) :
  has_slash name = false -> parent ("docs/review/" ++ name) = "docs/review/".
Proof. intros H. cbn. rewrite H. reflexivity. Qed.

Lemma side_path_in_review (name side_path : string) :
  has_slash name = false ->
  with_suffix_json ("docs/review/" ++ name) = Some side_path ->
  exists stem, side_path = "docs/review/" ++ stem.
Proof.
  intros Hname H. unfold with_suffix_json in H.
  change ("docs/review/" ++ name =? ".") with false in H. cbv iota in H.
  rewrite (basename_in_review _ Hname), (parent_in_review _ Hname) in H.
  destruct name as [|c s]; [discriminate H|].
  injection H as <-. eexists. reflexivity.
Qed.

Section Submitted.
Variable dumps : file -> option review_note -> string.
Variables now learned_at name content changes reviewer_name : string.
Variable w : world.
Variable m : metadata.
Variables side_path staged_path status saved_at : string.
Hypothesis Hname : has_slash name = false.
Hypothesis Hfile : read ("docs/review/" ++ name) (docs w) = Some (Text content).
Hypothesis Hside : with_suffix_json ("docs/review/" ++ name) = Some side_path.
Hypothesis Hmeta :
  read side_path (docs w) = Some (Sidecar m staged_path status saved_at).

(** The run of [submit_review] on a staged draft, as the endpoint calls it:
    with the text of the draft file itself as the reviewed content. *)
Lemma submit_review_staged :
  submit_review dumps now learned_at ("docs/review/" ++ name) content changes
    reviewer_name w
  = (inr ("docs/approved/reviewed_" ++ name,
          (Sidecar m staged_path "reviewed" saved_at,
           {| reviewed_at := now; reviewer := reviewer_name;
              changes_summary := changes;
              reviewed_filepath := "docs/approved/reviewed_" ++ name |})),
     {| docs :=
          write side_path (Sidecar m staged_path "reviewed" saved_at)
            (write ("docs/approved/reviewed_" ++ name)
               (Text (reviewed_with_metadata m now reviewer_name changes content))
               (docs w));
        notes :=
          (side_path,
           {| reviewed_at := now; reviewer := reviewer_name;
              changes_summary := changes;
              reviewed_filepath := "docs/approved/reviewed_" ++ name |})
          :: notes w;
        learned :=
          snd (Learning.save_feedback learned_at (md_doc_id m)
                 (extract_body content)
                 (strip (List.last (split_rule 0 content) ""))
                 0 (md_doc_type m) (learned w)) |}).
Proof.
  unfold submit_review. rewrite Hfile, Hside, Hmeta.
  rewrite (basename_in_review _ Hname).
  unfold extract_learning, text_at, write. cbn [docs notes learned read].
  destruct (side_path_in_review _ _ Hname Hside) as [stem Hstem].
  assert (H1 : (side_path =? "docs/review/" ++ name) = false).
  { destruct (String.eqb_spec side_path ("docs/review/" ++ name)) as [E|_];
      [|reflexivity].
    rewrite E, Hfile in Hmeta. discriminate Hmeta. }
  assert (H2 : ("docs/approved/reviewed_" ++ name =? "docs/review/" ++ name)
               = false) by reflexivity.
  assert (H3 : (side_path =? "docs/approved/reviewed_" ++ name) = false)
    by (rewrite Hstem; reflexivity).
  rewrite H1, H2, H3, Hfile, String.eqb_refl, extract_body_reviewed.
  reflexivity.
Qed.

End Submitted.

(** A review submitted through the endpoint teaches the learning system
    nothing.  The endpoint passes the text of the draft file as the
    reviewed content, so [_extract_learning] compares the file with a copy
    of itself under a new header: when the file still holds two rules
    ["---"] or more, as every staged draft does, both bodies are the text
    after the last rule, no pattern is found and the learning tables stay
    as they were; the reviewed copy is written, the draft file is kept and
    the side file is marked ['reviewed']. *)
Theorem staged_review_teaches_nothing
  (dumps : file -> option review_note -> string)
  now learned_at name content changes reviewer_name (w : world) (m : metadata)
  side_path staged_path status saved_at :
  has_slash name = false ->
  read ("docs/review/" ++ name) (docs w) = Some (Text content) ->
  with_suffix_json ("docs/review/" ++ name) = Some side_path ->
  read side_path (docs w) = Some (Sidecar m staged_path status saved_at) ->
  2 < List.length (split_rule 0 content) ->
  let out :=
    submit_review dumps now learned_at ("docs/review/" ++ name) content
      changes reviewer_name w in
  (exists metadata,
      fst out = inr ("docs/approved/reviewed_" ++ name, metadata))
  /\ learned (snd out) = learned w
  /\ read ("docs/approved/reviewed_" ++ name) (docs (snd out))
     = Some (Text (reviewed_with_metadata m now reviewer_name changes content))
  /\ read ("docs/review/" ++ name) (docs (snd out)) = Some (Text content)
  /\ read side_path (docs (snd out))
     = Some (Sidecar m staged_path "reviewed" saved_at).
Proof.
  intros Hname Hfile Hside Hmeta Hrules. cbv zeta.
  rewrite (submit_review_staged dumps now learned_at name content changes
             reviewer_name w m side_path staged_path status saved_at
             Hname Hfile Hside Hmeta).
  cbn [fst snd docs learned].
  destruct (side_path_in_review _ _ Hname Hside) as [stem Hstem].
  assert (H1 : (side_path =? "docs/review/" ++ name) = false).
  { destruct (String.eqb_spec side_path ("docs/review/" ++ name)) as [E|_];
      [|reflexivity].
    rewrite E, Hfile in Hmeta. discriminate Hmeta. }
  assert (H2 : ("docs/approved/reviewed_" ++ name =? "docs/review/" ++ name)
               = false) by reflexivity.
  assert (H3 : (side_path =? "docs/approved/reviewed_" ++ name) = false)
    by (rewrite Hstem; reflexivity).
  split; [eexists; reflexivity|]. split; [|split; [|split]].
  - rewrite <- (extract_body_many _ Hrules).
    unfold Learning.save_feedback, Learning.extract_patterns,
      Difflib.unified_diff.
    rewrite SameTextFacts.diff_lines_same. reflexivity.
  - unfold write. cbn [read]. now rewrite H3, String.eqb_refl.
  - unfold write. cbn [read]. now rewrite H1, H2.
  - unfold write. cbn [read]. now rewrite String.eqb_refl.
Qed.

Lemma staged_review_teaches_nothing_witness :
  learned
    (snd (submit_review (fun _ _ => "") "2024-01-02T09:00:00"
            "2024-01-02 09:00:00"
            "docs/review/technical_spec_7_20240101_120000.md"
            Shelf.edited_text "one line added" "reviewer" Shelf.edited_world))
  = learned Shelf.edited_world.
Proof.
  assert (H1 : has_slash "technical_spec_7_20240101_120000.md" = false)
    by reflexivity.
  assert (H2 : read ("docs/review/" ++ "technical_spec_7_20240101_120000.md")
                 (docs Shelf.edited_world)
               = Some (Text Shelf.edited_text))
    by (vm_compute; reflexivity).
  assert (H3 : with_suffix_json
                 ("docs/review/" ++ "technical_spec_7_20240101_120000.md")
               = Some "docs/review/technical_spec_7_20240101_120000.json")
    by (vm_compute; reflexivity).
  assert (H4 : read "docs/review/technical_spec_7_20240101_120000.json"
                 (docs Shelf.edited_world)
               = Some (Sidecar Shelf.spec_metadata
                         "docs/review/technical_spec_7_20240101_120000.md"
                         "pending_review" "2024-01-01T12:00:01"))
    by (vm_compute; reflexivity).
  assert (H5 : 2 < List.length (split_rule 0 Shelf.edited_text))
    by (vm_compute; lia).
  exact (proj1 (proj2 (staged_review_teaches_nothing (fun _ _ => "")
           "2024-01-02T09:00:00" "2024-01-02 09:00:00"
           "technical_spec_7_20240101_120000.md" Shelf.edited_text
           "one line added" "reviewer" Shelf.edited_world Shelf.spec_metadata
           "docs/review/technical_spec_7_20240101_120000.json"
           "docs/review/technical_spec_7_20240101_120000.md"
           "pending_review" "2024-01-01T12:00:01" H1 H2 H3 H4 H5))).
Defined.

Lemma opening_rule (rest : string) :
  Review.remove_metadata_header ("---" ++ nl ++ rest) = strip rest.
Proof.
  unfold Review.remove_metadata_header.
  assert (Hp : startswith ("---" ++ nl ++ rest) "---" = true) by reflexivity.
  rewrite Hp, HeaderFacts.split_lines_rule. cbn [Review.clean_lines].
  change (("---" =? "---") && true) with true. cbv iota.
  rewrite HeaderFacts.clean_lines_outside, join_split. reflexivity.
Qed.

(** The licensing document of a submitted review keeps the review header.
    When the endpoint is asked to prepare the licensing copy, it passes the
    reviewed path [submit_review] returned; the header step then drops the
    opening rule of the reviewed copy and nothing else, so the text put
    under the licensing header begins with ["# REVIEWED DOCUMENT"] and
    holds the reviewer's name, the summary of changes, the closing rule
    and the whole draft file. *)
Theorem approved_licensing_keeps_review_header
  (dumps : file -> option review_note -> string)
  now learned_at today name content changes reviewer_name (w : world)
  (m : metadata) side_path staged_path status saved_at :
  has_slash name = false ->
  read ("docs/review/" ++ name) (docs w) = Some (Text content) ->
  with_suffix_json ("docs/review/" ++ name) = Some side_path ->
  read side_path (docs w) = Some (Sidecar m staged_path status saved_at) ->
  let out :=
    submit_review dumps now learned_at ("docs/review/" ++ name) content
      changes reviewer_name w in
  prepare_for_licensing today ("docs/approved/reviewed_" ++ name)
    (docs (snd out))
  = (inr ("docs/licensing_ready/licensing_reviewed_" ++ name),
     write ("docs/licensing_ready/licensing_reviewed_" ++ name)
       (Text (licensing_content today
                (strip ("# REVIEWED DOCUMENT" ++ nl ++
                        "# Original ID: " ++ str_of_Z (md_doc_id m) ++ nl ++
                        "# Type: " ++ md_doc_type m ++ nl ++
                        "# Generated: " ++ md_generated_at m ++ nl ++
                        "# Reviewed: " ++ now ++ nl ++
                        "# Reviewer: " ++ reviewer_name ++ nl ++
                        "# Changes: " ++ changes ++ nl ++
                        "---" ++ nl ++
                        content ++ nl))))
       (docs (snd out))).
Proof.
  intros Hname Hfile Hside Hmeta. cbv zeta.
  rewrite (submit_review_staged dumps now learned_at name content changes
             reviewer_name w m side_path staged_path status saved_at
             Hname Hfile Hside Hmeta).
  cbn [snd docs].
  destruct (side_path_in_review _ _ Hname Hside) as [stem Hstem].
  assert (H3 : (side_path =? "docs/approved/reviewed_" ++ name) = false)
    by (rewrite Hstem; reflexivity).
  assert (Hbase : basename ("docs/approved/reviewed_" ++ name)
                  = "reviewed_" ++ name).
  { cbn. rewrite Hname. reflexivity. }
  assert (Hread :
    read ("docs/approved/reviewed_" ++ name)
      (write side_path (Sidecar m staged_path "reviewed" saved_at)
         (write ("docs/approved/reviewed_" ++ name)
            (Text (reviewed_with_metadata m now reviewer_name changes content))
            (docs w)))
    = Some (Text (reviewed_with_metadata m now reviewer_name changes content))).
  { unfold write. cbn [read]. now rewrite H3, String.eqb_refl. }
  unfold prepare_for_licensing. rewrite Hread, Hbase.
  unfold reviewed_with_metadata. rewrite opening_rule. reflexivity.
Qed.

Lemma approved_licensing_keeps_review_header_witness :
  match
    read "docs/licensing_ready/licensing_reviewed_technical_spec_7_20240101_120000.md"
      (snd (prepare_for_licensing "2024-01-02"
              "docs/approved/reviewed_technical_spec_7_20240101_120000.md"
              (docs (snd (submit_review (fun _ _ => "") "2024-01-02T09:00:00"
                            "2024-01-02 09:00:00"
                            "docs/review/technical_spec_7_20240101_120000.md"
                            Shelf.edited_text "one line added" "reviewer"
                            Shelf.edited_world)))))
  with
  | Some (Text text) =>
      contains ("# REVIEWED DOCUMENT" ++ nl ++ "# Original ID: 7") text
      && contains ("# Reviewer: reviewer" ++ nl ++ "# Changes: one line added")
           text
  | _ => false
  end = true.
Proof.
  assert (H1 : has_slash "technical_spec_7_20240101_120000.md" = false)
    by reflexivity.
  assert (H2 : read ("docs/review/" ++ "technical_spec_7_20240101_120000.md")
                 (docs Shelf.edited_world)
               = Some (Text Shelf.edited_text))
    by (vm_compute; reflexivity).
  assert (H3 : with_suffix_json
                 ("docs/review/" ++ "technical_spec_7_20240101_120000.md")
               = Some "docs/review/technical_spec_7_20240101_120000.json")
    by (vm_compute; reflexivity).
  assert (H4 : read "docs/review/technical_spec_7_20240101_120000.json"
                 (docs Shelf.edited_world)
               = Some (Sidecar Shelf.spec_metadata
                         "docs/review/technical_spec_7_20240101_120000.md"
                         "pending_review" "2024-01-01T12:00:01"))
    by (vm_compute; reflexivity).
  pose proof (approved_licensing_keeps_review_header (fun _ _ => "")
           "2024-01-02T09:00:00" "2024-01-02 09:00:00" "2024-01-02"
           "technical_spec_7_20240101_120000.md" Shelf.edited_text
           "one line added" "reviewer" Shelf.edited_world Shelf.spec_metadata
           "docs/review/technical_spec_7_20240101_120000.json"
           "docs/review/technical_spec_7_20240101_120000.md"
           "pending_review" "2024-01-01T12:00:01" H1 H2 H3 H4) as H.
  cbv zeta in H.
  change ("docs/review/" ++ "technical_spec_7_20240101_120000.md")
    with "docs/review/technical_spec_7_20240101_120000.md" in H.
  change ("docs/approved/reviewed_" ++ "technical_spec_7_20240101_120000.md")
    with "docs/approved/reviewed_technical_spec_7_20240101_120000.md" in H.
  rewrite H. vm_compute. reflexivity.
Defined.

End ApprovalFacts.

(** ** api_server.py: a document type without a template *)

Module TemplateFacts.
Import PyStr Ledger Api.
Local Open Scope Z_scope.

Lemma template_key_unknown (d : string) :
  existsb (String.eqb d) Generator.templates = false ->
  Generator.template_key d = "technical_spec".
Proof. intros H. unfold Generator.template_key. now rewrite H. Qed.

Lemma generate_document_unknown create_completion g minute now d ctx features :
  existsb (String.eqb d) Generator.templates = false ->
  Generator.generate_document create_completion g minute now d ctx features
  = Generator.generate_document create_completion g minute now
      "technical_spec" ctx features.
Proof.
  intros H. unfold Generator.generate_document.
  rewrite (template_key_unknown _ H). reflexivity.
Qed.

(** A request whose [doc_type] names no template, as the Git monitor's
    [git_history] and the file monitor's [project_activity] do, is answered
    with the text of a technical specification: the generator is asked
    exactly what it is asked for [technical_spec].  The ledger files that
    text under the requested type all the same: the document row, its
    file name and the details of the activity carry the type as sent. *)
Theorem unknown_doc_type_drafts_technical_spec
  create_completion g t data ctx d (w : world) :
  context data = Some ctx ->
  req_doc_type data = Some d ->
  existsb (String.eqb d) Generator.templates = false ->
  exists body w',
    generate_docs create_completion true g t (Some data) w = (Generated body, w')
    /\ g_content body
       = Generator.content
           (Generator.generate_document create_completion g (minute t)
              (iso_now t) "technical_spec" ctx (features data))
    /\ g_filename body
       = d ++ "_" ++ str_of_Z (g_activity_id body) ++ "_" ++ stamp t ++ ".md"
    /\ (exists x, In x (documents (db_of w'))
          /\ doc_id x = g_document_id body
          /\ Ledger.doc_type x = d
          /\ draft_content x = Some (g_content body))
    /\ (exists a, In a (activities (db_of w'))
          /\ act_id a = g_activity_id body
          /\ In ("doc_type", JStr d) (details a)).
Proof.
  intros Hctx Htype Hunknown.
  destruct (GenerateFacts.generate_docs_response create_completion g t data ctx w Hctx)
    as (body & Hbody & Haid & Hdid & Hcontent & _ & _ & _ & _ & _ & Hname).
  pose proof (GenerateFacts.generate_docs_activities create_completion g t data ctx w Hctx)
    as Hacts.
  pose proof (GenerateFacts.generate_docs_documents create_completion g t data ctx w Hctx)
    as Hdocs.
  rewrite Htype in *. cbn [get] in *.
  rewrite (generate_document_unknown _ _ _ _ _ _ _ Hunknown) in *.
  destruct (generate_docs create_completion true g t (Some data) w)
    as [answer w'] eqn:Hrun.
  cbn [fst snd] in *. subst answer.
  exists body, w'. split; [reflexivity|]. split; [exact Hcontent|].
  split; [rewrite Haid; exact Hname|]. split.
  - rewrite Hdocs, Hdid, Hcontent.
    eexists. split.
    + apply in_map, in_or_app. right. left. reflexivity.
    + cbn [doc_id]. rewrite Z.eqb_refl.
      destruct (licensing_focus data); cbn; repeat split; reflexivity.
  - rewrite Hacts, Haid.
    eexists. split.
    + apply in_map, in_or_app. right. left. reflexivity.
    + cbn [act_id]. rewrite Z.eqb_refl. cbn. split; [reflexivity|].
      left. reflexivity.
Qed.

Lemma unknown_doc_type_drafts_technical_spec_witness :
  exists body w',
    generate_docs (fun _ _ _ _ => Generator.ApiError) true
      (Generator.init None None)
      {| sql_now := "2024-01-01 12:00:00"; iso_now := "2024-01-01T12:00:00";
         minute := "2024-01-01 12:00"; stamp := "20240101_120000";
         review_stamp := "20240101_120000" |}
      (Some {| context := Some "Commit: 0a1b2c3d";
               source := Some "git_history_scan";
               req_doc_type := Some "git_history"; licensing_focus := false;
               features := None |})
      {| db_of := empty_db; files_of := [] |}
    = (Generated body, w')
    /\ g_filename body = "git_history_1_20240101_120000.md"
    /\ startswith (g_content body) "# Technical Spec" = true.
Proof.
  destruct (unknown_doc_type_drafts_technical_spec
              (fun _ _ _ _ => Generator.ApiError)
              (Generator.init None None)
              {| sql_now := "2024-01-01 12:00:00"; iso_now := "2024-01-01T12:00:00";
                 minute := "2024-01-01 12:00"; stamp := "20240101_120000";
                 review_stamp := "20240101_120000" |}
              {| context := Some "Commit: 0a1b2c3d";
                 source := Some "git_history_scan";
                 req_doc_type := Some "git_history"; licensing_focus := false;
                 features := None |}
              "Commit: 0a1b2c3d" "git_history"
              {| db_of := empty_db; files_of := [] |}
              eq_refl eq_refl eq_refl)
    as (body & w' & Hrun & Hcontent & Hname & _).
  exists body, w'. split; [exact Hrun|].
  injection Hrun as Hbody _. subst body. split; reflexivity.
Defined.

End TemplateFacts.

(** ** api_server.py: the error answers of [/generate] *)

Module RouteFacts.
Import PyStr Ledger Api.
Local Open Scope Z_scope.

(** When no [open] raises, the request runs as [Api.generate_docs] has it. *)
Lemma generate_docs_writable create_completion avail g t data (w : world) :
  Route.generate_docs create_completion (fun _ => None) avail g t data w
  = Api.generate_docs create_completion avail g t data w.
Proof.
  unfold Route.generate_docs.
  destruct data as [r|]; [|reflexivity].
  destruct (context r); [|reflexivity].
  destruct (avail && licensing_focus r); [|reflexivity].
  destruct (Route.committed create_completion g t r s (db_of w))
    as [[[aid did] res] d].
  reflexivity.
Qed.

Lemma generate_docs_failure create_completion avail g t data (w : world) code error :
  fst (Api.generate_docs create_completion avail g t data w) = Failure code error ->
  snd (Api.generate_docs create_completion avail g t data w) = w
  /\ ((code = 400 /\ forall r, data = Some r -> context r = None)
      \/ (code = 500 /\ avail = false)).
Proof.
  unfold Api.generate_docs.
  destruct data as [r|].
  - destruct (context r) as [c|] eqn:Ec.
    + destruct avail; cbn [negb].
      * destruct (licensing_focus r); cbn; discriminate.
      * cbn. intros H. injection H as <- _. split; [reflexivity|]. right. auto.
    + cbn. intros H. injection H as <- _. split; [reflexivity|]. left.
      split; [reflexivity|]. intros r' Hr'. injection Hr' as <-. exact Ec.
  - cbn. intros H. injection H as <- _. split; [reflexivity|]. left.
    split; [reflexivity|]. discriminate.
Qed.

(** The rows the request committed before its review file is opened. *)
Lemma committed_rows create_completion g t r ctx (d : db) :
  let out := Route.committed create_completion g t r ctx d in
  let d' := snd out in
  let result := snd (fst out) in
  List.length (activities d') = S (List.length (activities d))
  /\ List.length (ai_costs d') = S (List.length (ai_costs d))
  /\ (exists x,
        documents d' = (documents d ++ [x])%list
        /\ doc_id x = snd (fst (fst out))
        /\ doc_activity_id x = Some (fst (fst (fst out)))
        /\ draft_content x = Some (Generator.content result)
        /\ review_filepath x = None)
  /\ (exists a,
        In a (activities d')
        /\ act_id a = fst (fst (fst out))
        /\ status a = "generated").
Proof.
  cbv zeta. unfold Route.committed, log_activity, save_document,
    Generator.log_cost_to_db, update_activity, set_activities, set_documents,
    set_ai_costs.
  cbn [fst snd activities documents ai_costs].
  rewrite length_map, !length_app. cbn [List.length].
  split; [lia|]. split; [lia|]. split.
  - eexists. split; [reflexivity|]. cbn. repeat split; reflexivity.
  - eexists. split.
    + apply in_map, in_or_app. right. left. reflexivity.
    + cbn [act_id]. rewrite Z.eqb_refl. split; reflexivity.
Qed.

(** The error answers of [/generate].  A refusal leaves no trace: 400 for
    a request without a context and 500 while the modules are unavailable
    change neither the ledger nor the files.  The one other error answer
    is the 500 of the catch-all when a file of the review workflow cannot
    be opened, and it comes after the ledger was written: the activity
    (status ['generated']), its cost record and the document are
    committed, and the document has no review path. *)
Theorem generate_docs_error_answers
  create_completion open_error avail g t data (w : world) code error :
  fst (Route.generate_docs create_completion open_error avail g t data w)
  = Failure code error ->
  let w' :=
    snd (Route.generate_docs create_completion open_error avail g t data w) in
  (code = 400 /\ (forall r, data = Some r -> context r = None) /\ w' = w)
  \/ (code = 500 /\ avail = false /\ w' = w)
  \/ (code = 500 /\ avail = true
      /\ (exists r path,
            data = Some r /\ licensing_focus r = true
            /\ open_error path = Some error)
      /\ List.length (activities (db_of w'))
         = S (List.length (activities (db_of w)))
      /\ List.length (ai_costs (db_of w'))
         = S (List.length (ai_costs (db_of w)))
      /\ (exists x,
            documents (db_of w') = (documents (db_of w) ++ [x])%list
            /\ review_filepath x = None)
      /\ (exists a,
            In a (activities (db_of w'))
            /\ act_id a = Sqlite.next_rowid (map act_id (activities (db_of w)))
            /\ status a = "generated")).
Proof.
  cbv zeta.
  assert (Hplain : fst (Api.generate_docs create_completion avail g t data w)
                   = Failure code error ->
                   (code = 400 /\ (forall r, data = Some r -> context r = None)
                    /\ snd (Api.generate_docs create_completion avail g t data w) = w)
                   \/ (code = 500 /\ avail = false
                       /\ snd (Api.generate_docs create_completion avail g t data w) = w)).
  { intros H. destruct (generate_docs_failure _ _ _ _ _ _ _ _ H) as [Hw [[H1 H2]|[H1 H2]]];
      [left|right]; auto. }
  unfold Route.generate_docs.
  destruct data as [r|]; [|intros H; destruct (Hplain H) as [?|?]; tauto].
  destruct (context r) as [ctx|] eqn:Ec;
    [|intros H; destruct (Hplain H) as [?|?]; tauto].
  destruct avail; cbn [andb];
    [|intros H; destruct (Hplain H) as [?|?]; tauto].
  destruct (licensing_focus r) eqn:Ef;
    [|intros H; destruct (Hplain H) as [?|?]; tauto].
  pose proof (committed_rows create_completion g t r ctx (db_of w)) as Hrows.
  cbv zeta in Hrows.
  assert (Haid : fst (fst (fst (Route.committed create_completion g t r ctx (db_of w))))
                 = Sqlite.next_rowid (map act_id (activities (db_of w))))
    by reflexivity.
  destruct (Route.committed create_completion g t r ctx (db_of w))
    as [[[aid did] res] d].
  cbn [fst snd] in Hrows, Haid.
  destruct Hrows as (Hacts & Hcosts & (x & Hdocs & _ & _ & _ & Hpath) & (a & Ha & Hid & Hst)).
  set (stem := "docs/review/" ++ get (req_doc_type r) "technical_spec" ++ "_"
               ++ str_of_Z did ++ "_" ++ review_stamp t).
  destruct (open_error (stem ++ ".md")) as [e|] eqn:E1.
  - cbn [fst snd db_of]. intros H. injection H as <- <-.
    right. right. repeat split; try assumption.
    + exists r, (stem ++ ".md"). auto.
    + exists x. auto.
    + exists a. rewrite <- Haid. auto.
  - destruct (open_error (stem ++ ".json")) as [e|] eqn:E2.
    + cbn [fst snd db_of]. intros H. injection H as <- <-.
      right. right. repeat split; try assumption.
      * exists r, (stem ++ ".json"). auto.
      * exists x. auto.
      * exists a. rewrite <- Haid. auto.
    + intros H. destruct (Hplain H) as [(_ & Hno & _)|(_ & Hav & _)].
      * specialize (Hno r eq_refl). congruence.
      * discriminate Hav.
Qed.

Lemma generate_docs_error_answers_witness :
  let run :=
    Route.generate_docs (fun _ _ _ _ => Generator.ApiError)
      (fun path => Some ("[Errno 2] No such file or directory: '" ++ path ++ "'"))
      true (Generator.init None None)
      {| sql_now := "2024-01-01 12:00:00"; iso_now := "2024-01-01T12:00:00";
         minute := "2024-01-01 12:00"; stamp := "20240101_120000";
         review_stamp := "20240101_120000" |}
      (Some {| context := Some "a product"; source := None;
               req_doc_type := Some "a/b"; licensing_focus := true;
               features := None |})
      {| db_of := Fixtures.ledger7; files_of := [] |} in
  fst run
  = Failure 500
      "[Errno 2] No such file or directory: 'docs/review/a/b_8_20240101_120000.md'"
  /\ List.length (documents (db_of (snd run))) = 2%nat
  /\ files_of (snd run) = [].
Proof.
  cbv zeta. split; [reflexivity|].
  destruct (generate_docs_error_answers (fun _ _ _ _ => Generator.ApiError)
              (fun path => Some ("[Errno 2] No such file or directory: '" ++ path ++ "'"))
              true (Generator.init None None)
              {| sql_now := "2024-01-01 12:00:00"; iso_now := "2024-01-01T12:00:00";
                 minute := "2024-01-01 12:00"; stamp := "20240101_120000";
                 review_stamp := "20240101_120000" |}
              (Some {| context := Some "a product"; source := None;
                       req_doc_type := Some "a/b"; licensing_focus := true;
                       features := None |})
              {| db_of := Fixtures.ledger7; files_of := [] |}
              500
              "[Errno 2] No such file or directory: 'docs/review/a/b_8_20240101_120000.md'"
              eq_refl)
    as [(H & _)|[(_ & H & _)|(_ & _ & _ & _ & _ & (x & Hdocs & _) & _)]];
    [discriminate H|discriminate H|].
  split; [|reflexivity].
  rewrite Hdocs, length_app. reflexivity.
Defined.

End RouteFacts.
